(** * pseudo-assembly: the interpreter of [interpreter.ts], embedded in Rocq

    The TypeScript class [Interpreter] is translated method by method.
    Mutable fields become a record that is passed explicitly; a thrown
    exception becomes the constructor [Thrown] (with the state at the moment
    of the throw) or [Fail]; JavaScript numbers that the interpreter only
    ever uses as integers are [Z], and a value that is [undefined], [NaN] or
    infinite is [None] in the type [number].

    Two corners of JavaScript are left out and answer [Unmodelled] or
    [OutOfModel] instead of a value: numeric literals other than decimal
    integers (digits, with or without a sign) where the source calls
    [Number] on a token, and a store ([ST]) that does not fall on four
    existing bytes. *)

From Stdlib Require Import ZArith List String Ascii Bool Lia.
Import ListNotations.
Open Scope string_scope.
Open Scope Z_scope.

(** ** JavaScript strings

    Source text is a string of code units below 256. *)

Module JsString.

(** White space as [String.prototype.trim] sees it, among code units
    below 256: TAB, LF, VT, FF, CR, SPACE and NBSP. *)
Definition isWhiteSpace (c : ascii) : bool :=
  let n := nat_of_ascii c in
  (Nat.leb 9 n && Nat.leb n 13) || Nat.eqb n 32 || Nat.eqb n 160.

Definition isDigit (c : ascii) : bool :=
  let n := nat_of_ascii c in Nat.leb 48 n && Nat.leb n 57.

Fixpoint trimStart (s : string) : string :=
  match s with
  | EmptyString => EmptyString
  | String c r => if isWhiteSpace c then trimStart r else s
  end.

Fixpoint trimEnd (s : string) : string :=
  match s with
  | EmptyString => EmptyString
  | String c r =>
      match trimEnd r with
      | EmptyString => if isWhiteSpace c then EmptyString else String c EmptyString
      | r' => String c r'
      end
  end.

Definition trim (s : string) : string := trimEnd (trimStart s).

(** [s.split(sep)] for a separator of one code unit: never empty. *)
Fixpoint split (sep : ascii) (s : string) : list string :=
  match s with
  | EmptyString => [EmptyString]
  | String c r =>
      if Ascii.eqb c sep then EmptyString :: split sep r
      else match split sep r with
           | [] => [String c EmptyString]
           | h :: t => String c h :: t
           end
  end.

(** [l.join(sep)]. *)
Definition join (sep : string) (l : list string) : string :=
  String.concat sep l.

(** [a <= b] on strings: code units compared lexicographically. *)
Fixpoint leb (a b : string) : bool :=
  match a, b with
  | EmptyString, _ => true
  | String _ _, EmptyString => false
  | String x a', String y b' =>
      let nx := nat_of_ascii x in
      let ny := nat_of_ascii y in
      if Nat.ltb nx ny then true
      else if Nat.ltb ny nx then false
      else leb a' b'
  end.

(** [a >= b]. *)
Definition geb (a b : string) : bool := leb b a.

Definition allDigits (s : string) : bool :=
  forallb isDigit (list_ascii_of_string s).

(** Value of a string of decimal digits. *)
Definition digitsValue (s : string) : Z :=
  fold_left (fun acc c => 10 * acc + (Z.of_nat (nat_of_ascii c) - 48))
            (list_ascii_of_string s) 0.

(** Decimal representation of a natural number, as [String(i)] gives for
    an array index. *)
Fixpoint natDigits (fuel n : nat) (acc : string) : string :=
  match fuel with
  | O => acc
  | S f =>
      let d := ascii_of_nat (48 + Nat.modulo n 10) in
      let q := Nat.div n 10 in
      if Nat.eqb q 0 then String d acc else natDigits f q (String d acc)
  end.

Definition ofNat (n : nat) : string := natDigits (S n) n EmptyString.

(** Longest prefix of decimal digits. *)
Fixpoint takeDigits (s : string) : string :=
  match s with
  | EmptyString => EmptyString
  | String c r => if isDigit c then String c (takeDigits r) else EmptyString
  end.

Definition startsWithDigit (s : string) : bool :=
  match s with
  | EmptyString => false
  | String c _ => isDigit c
  end.

(** [s.match(/-?\d+/)]: the leftmost match, digits taken greedily;
    the result is the sign and the digit string. *)
Fixpoint matchSignedDigits (s : string) : option (bool * string) :=
  match s with
  | EmptyString => None
  | String c r =>
      if isDigit c then Some (false, String c (takeDigits r))
      else if Ascii.eqb c "-"%char && startsWithDigit r
           then Some (true, takeDigits r)
           else matchSignedDigits r
  end.

End JsString.

(** ** JavaScript numbers *)

(** A number the program handles: [Some z] is the integer [z]; [None] is
    [undefined], [NaN] or an infinity.  These three behave alike wherever
    the interpreter can meet them: [ToInt32] sends them to 0, and they are
    neither [=== 0] nor [< 0] (no infinity ever reaches a comparison: a
    quotient is stored into the [Int32Array] first). *)
Definition number : Type := option Z.

(** [ToInt32] of ECMAScript on an integer. *)
Definition toInt32 (x : Z) : Z :=
  let i := x mod 2 ^ 32 in
  if 2 ^ 31 <=? i then i - 2 ^ 32 else i.

Definition numToInt32 (n : number) : Z :=
  match n with
  | Some z => toInt32 z
  | None => 0
  end.

(** Integers are exact in a double below 2^53. *)
Definition maxSafe : Z := 2 ^ 53.

(** Rounding of an integer to the nearest double, ties to even: what a
    product of two 32-bit integers undergoes. *)
Definition roundToDouble (z : Z) : Z :=
  let a := Z.abs z in
  if a <? maxSafe then z
  else
    let e := Z.log2 a - 52 in
    let q := a / 2 ^ e in
    let r := a mod 2 ^ e in
    let half := 2 ^ (e - 1) in
    let q' := if r <? half then q
              else if half <? r then q + 1
              else if Z.even q then q else q + 1 in
    Z.sgn z * (q' * 2 ^ e).

Definition numAdd (a b : number) : number :=
  match a, b with Some x, Some y => Some (x + y) | _, _ => None end.

Definition numSub (a b : number) : number :=
  match a, b with Some x, Some y => Some (x - y) | _, _ => None end.

Definition numMul (a b : number) : number :=
  match a, b with Some x, Some y => Some (roundToDouble (x * y)) | _, _ => None end.

(** [Math.floor(a / b)] on two 32-bit integers.  With [b = 0] the quotient
    is an infinity or [NaN].  Otherwise the double nearest to the true
    quotient has the same floor as the true quotient: a quotient that is
    not an integer is at least [1/|b|] away from one, and the rounding
    error of the division is below that; [Z.div] is that floor. *)
Definition numFloorDiv (a b : number) : number :=
  match a, b with
  | Some x, Some y => if y =? 0 then None else Some (x / y)
  | _, _ => None
  end.

(** The result of a call that can throw or leave the modelled fragment of
    JavaScript (see [toNumber], [setNumberInMemory]). *)
Inductive preMsg : Type :=
| LabelDefinedTwice (line : nat) (label : string)
| LabelNotAlphaNumeric (line : nat) (label : string)
| UnrecognizedInstruction (line : nat) (instruction : string)
| DataAfterCode (line : nat) (label : string)
| NoNumber.

Inductive runMsg : Type :=
| ExecutionLimit
| TooManyArguments (line : nat) (instruction : string)
| ExpectedComma (line : nat) (instruction : string)
| UndefinedLabel (line : nat) (param : string)
| InvalidJumpTarget (line : nat) (addr : Z)
| OneArgument (line : nat) (instruction : string)
| UnrecognizedInstructionRun (line : nat) (instruction : string).

Inductive error : Type :=
| PreprocessingError (m : preMsg)
| RuntimeError (m : runMsg)
| TypeError
| RangeError.

Inductive result (A : Type) : Type :=
| Ok (a : A)
| Fail (e : error)
| Unmodelled.
Arguments Ok {A} a.
Arguments Fail {A} e.
Arguments Unmodelled {A}.

Definition bind {A B : Type} (m : result A) (k : A -> result B) : result B :=
  match m with
  | Ok a => k a
  | Fail e => Fail e
  | Unmodelled => Unmodelled
  end.

Notation "x <- m ;; k" := (bind m (fun x => k))
  (at level 61, m at next level, right associativity).

(** The value of a non-empty string of decimal digits that a double
    holds exactly. *)
Definition unsignedValue (t : string) : result Z :=
  if Nat.ltb 0 (String.length t) && JsString.allDigits t
  then (let v := JsString.digitsValue t in
        if v <? maxSafe then Ok v else Unmodelled)
  else Unmodelled.

(** [Number(s)] for the literals modelled here: an empty string (after
    trimming) is 0; a string of decimal digits, alone or after one sign
    [-] or [+], is its value when a double holds it exactly.  [-0] is read
    as 0: as a register number, a repeat count or an address increment the
    two behave alike.  Every other literal (exponent, fraction, other
    radix, [Infinity], anything that is [NaN]) is outside the model. *)
Definition toNumber (s : string) : result Z :=
  let t := JsString.trim s in
  match t with
  | EmptyString => Ok 0
  | String c r =>
      if Ascii.eqb c "-" then (v <- unsignedValue r ;; Ok (- v))
      else if Ascii.eqb c "+" then unsignedValue r
      else unsignedValue t
  end.

(** ** 32-bit integer operators of JavaScript *)

Module JsInt32.

(** [x << k], [x >> k], [x | y], [x ^ y], [x & y]: the operands go
    through [ToInt32], the result is a 32-bit signed integer. *)
Definition shl (x k : Z) : Z := toInt32 (Z.shiftl (toInt32 x) k).
Definition shr (x k : Z) : Z := Z.shiftr (toInt32 x) k.
Definition or (x y : Z) : Z := Z.lor (toInt32 x) (toInt32 y).
Definition xor (x y : Z) : Z := Z.lxor (toInt32 x) (toInt32 y).
Definition and (x y : Z) : Z := Z.land (toInt32 x) (toInt32 y).

End JsInt32.

(** ** Data model *)

Definition keywords : list string :=
  ["A"; "AR"; "S"; "SR"; "M"; "MR"; "D"; "DR"; "C"; "CR"; "L"; "LR";
   "ST"; "LA"; "J"; "JP"; "JZ"; "JN"; "DC"; "DS"].

Definition MAX_LINES : nat := 1000.

(** Register-register instructions *)
Definition rrKeywords : list string := ["AR"; "SR"; "MR"; "DR"; "CR"; "LR"].

(** Register-memory instructions *)
Definition rmKeywords : list string := ["A"; "S"; "M"; "D"; "C"; "L"; "ST"; "LA"].

Inductive byteType : Type := INSTRUCTION | DATA.

Record byte : Type := mkByte { val : Z; type : byteType }.

Module FLAGS.
Definition ZF : Z := 6.
Definition SF : Z := 7.
End FLAGS.

(** [sval] is the field [val] of the source's [Statment]. *)
Record Statment : Type := mkStatment { sval : string; byteSize : Z }.

Record Label : Type := mkLabel { label : string; line : nat; address : Z }.

Record Interpreter : Type := mkInterpreter {
  statements : list Statment;
  registers : list Z;
  eflags : Z;
  bytes : list byte;
  labels : list Label;
  currentLine : nat;
  executedLines : nat;
  currentMemoryAddress : Z
}.

(** [arr.includes(x)] on strings. *)
Definition includes (l : list string) (x : string) : bool :=
  existsb (String.eqb x) l.

(** [tokens[i]] may be [undefined]. *)
Definition tokenAt (tokens : list string) (i : nat) : option string :=
  nth_error tokens i.

Fixpoint replaceAt {A : Type} (l : list A) (i : nat) (x : A) : list A :=
  match l, i with
  | [], _ => []
  | _ :: t, O => x :: t
  | h :: t, S j => h :: replaceAt t j x
  end.

(** [new Interpreter(code)] *)
Definition newInterpreter (code : string) : Interpreter :=
  {| statements := map (fun v => mkStatment v 0) (JsString.split "010"%char code);
     registers := repeat 0 16;
     eflags := 0;
     bytes := [];
     labels := [];
     currentLine := 0;
     executedLines := 0;
     currentMemoryAddress := 0 |}.

Definition isAtEnd (s : Interpreter) : bool :=
  Nat.leb (List.length (statements s)) (currentLine s).

Definition splitStatment (stmt : string) : list string :=
  let rawTokens :=
    JsString.split " "%char (JsString.join " , " (JsString.split ","%char stmt)) in
  filter (fun token => Nat.ltb 0 (String.length token))
         (map JsString.trim rawTokens).

Definition isLabelDefined (s : Interpreter) (l : string) : bool :=
  existsb (fun currentLabel => String.eqb (label currentLabel) l) (labels s).

(** [Number(res?.[0])] of a match of [/-?\d+/]; no match gives [NaN]. *)
Definition getNumberInParen (v : string) : result number :=
  let res := JsString.matchSignedDigits v in
  if Nat.ltb (String.length v) 1 then Fail (PreprocessingError NoNumber)
  else
    match res with
    | None => Ok None
    | Some (neg, ds) =>
        let n := JsString.digitsValue ds in
        if n <? maxSafe then Ok (Some (if neg then - n else n)) else Unmodelled
    end.

(** [bytes[k].val] of an absent element is a [TypeError]. *)
Definition bytesToNumber (bs : list (option byte)) : result Z :=
  match nth 3 bs None, nth 2 bs None, nth 1 bs None, nth 0 bs None with
  | Some b3, Some b2, Some b1, Some b0 =>
      let d := val b3 in
      let c := val b2 in
      let b := val b1 in
      let a := val b0 in
      let res :=
        JsInt32.or (JsInt32.or (JsInt32.or (JsInt32.shl a 24) (JsInt32.shl b 16))
                               (JsInt32.shl c 8)) d in
      Ok res
  | _, _, _, _ => Fail TypeError
  end.

(** big-endian *)
Definition numberToBytes (n : number) : list byte :=
  let i := numToInt32 n in
  [ mkByte (JsInt32.and (JsInt32.shr i 24) 255) DATA;
    mkByte (JsInt32.and (JsInt32.shr i 16) 255) DATA;
    mkByte (JsInt32.and (JsInt32.shr i 8) 255) DATA;
    mkByte (JsInt32.and i 255) DATA ].

(** The test of [isAlphaNumeric] on one [c].  The characters tested are
    the keys of [for (let c in val.split(''))]: the indices of the string,
    as decimal strings. *)
Definition keyPasses (i : nat) : bool :=
  let c := JsString.ofNat i in
  (JsString.geb c "a" && JsString.leb c "z")
  || (JsString.geb c "A" && JsString.leb c "Z")
  || (JsString.geb c "0" && JsString.leb c "9").

Definition isAlphaNumeric (v : string) : bool :=
  forallb keyPasses (seq 0 (String.length v)).

Definition isInstructionRR (instruction : string) : bool :=
  includes rrKeywords instruction.

Definition isInstructionRM (instruction : string) : bool :=
  includes rmKeywords instruction.

Definition getSizeOfInstruction (instruction : string) : Z :=
  if isInstructionRR instruction then 2 else 4.

(** [registers[r]] on the [Int32Array] of 16 cells: [undefined] outside. *)
Definition regGet (regs : list Z) (r : Z) : number :=
  if (0 <=? r) && (r <? 16) then nth_error regs (Z.to_nat r) else None.

(** [registers[r] = v]: converted with [ToInt32]; ignored outside. *)
Definition regSet (regs : list Z) (r : Z) (v : number) : list Z :=
  if (0 <=? r) && (r <? 16) then replaceAt regs (Z.to_nat r) (numToInt32 v)
  else regs.

(** [/^0\(\d+\)$/]: the digits between ["0("] and [")"], if the string has
    that shape. *)
Definition indirectOperand (param : string) : option string :=
  match param with
  | String "0" (String "(" r) =>
      let ds := JsString.takeDigits r in
      if Nat.ltb 0 (String.length ds)
         && String.eqb r (ds ++ ")")
      then Some ds else None
  | _ => None
  end.

Definition getMemoryAddr (s : Interpreter) (param : string) : result number :=
  if Nat.ltb 0 (String.length param) && JsString.allDigits param
  then (n <- toNumber param ;; Ok (Some n))
  else
    match indirectOperand param with
    | Some ds => (r <- toNumber ds ;; Ok (regGet (registers s) r))
    | None =>
        match find (fun l => String.eqb (label l) param) (labels s) with
        | None => Fail (RuntimeError (UndefinedLabel (currentLine s + 1) param))
        | Some l => Ok (Some (address l))
        end
    end.

(** [bytes[i]] *)
Definition byteAt (bs : list byte) (i : number) : option byte :=
  match i with
  | Some z => if z <? 0 then None else nth_error bs (Z.to_nat z)
  | None => None
  end.

Definition getNumberFromMemory (s : Interpreter) (addr : number) : result Z :=
  bytesToNumber [ byteAt (bytes s) addr;
                  byteAt (bytes s) (numAdd addr (Some 1));
                  byteAt (bytes s) (numAdd addr (Some 2));
                  byteAt (bytes s) (numAdd addr (Some 3)) ].

(** A store that falls outside the current array would grow it or add a
    property to it; such stores are outside the model. *)
Definition setNumberInMemory (s : Interpreter) (addr : number) (num : number)
  : result (list byte) :=
  match addr, numberToBytes num with
  | Some a, [d0; d1; d2; d3] =>
      if (0 <=? a) && (a + 3 <? Z.of_nat (List.length (bytes s)))
      then
        let i := Z.to_nat a in
        Ok (replaceAt (replaceAt (replaceAt (replaceAt (bytes s) i d0)
                                           (i + 1) d1) (i + 2) d2) (i + 3) d3)
      else Unmodelled
  | _, _ => Unmodelled
  end.

(** The walk of [getStatmentLine]; [i] is the index of the head of
    [stmts], [stmtAddr] its accumulated address. *)
Fixpoint getStatmentLineFrom (stmts : list Statment) (i : nat) (stmtAddr addr : Z)
  : option nat :=
  match stmts with
  | [] => None
  | st :: rest =>
      if (0 <? byteSize st) && (addr =? stmtAddr) then Some i
      else if addr <? stmtAddr then None
      else getStatmentLineFrom rest (S i) (stmtAddr + byteSize st) addr
  end.

(** With [addr] undefined no comparison succeeds, and building the message
    of the error ([addr.toString(16)]) is itself a [TypeError]. *)
Definition getStatmentLine (s : Interpreter) (addr : number) : result nat :=
  match addr with
  | None => Fail TypeError
  | Some a =>
      match getStatmentLineFrom (statements s) 0 0 a with
      | Some i => Ok i
      | None => Fail (RuntimeError (InvalidJumpTarget (currentLine s + 1) a))
      end
  end.

Definition flagBit (f : Z) : Z := JsInt32.shl 1 f.

(** The value of [eflags] after [updateEflags(num)]. *)
Definition updateEflags (num : number) : Z :=
  let e0 := 0 in
  let e1 := JsInt32.or e0 (match num with
                           | Some 0 => flagBit FLAGS.ZF
                           | _ => 0
                           end) in
  JsInt32.or e1 (match num with
                 | Some z => if z <? 0 then flagBit FLAGS.SF else 0
                 | None => 0
                 end).

Definition removeComments (v : string) : string :=
  match JsString.trim v with
  | String "#" _ => ""
  | t => hd "" (JsString.split "#"%char t)
  end.

(** ** Stateful methods

    A method that mutates the interpreter returns the new state, or the
    exception thrown together with the state it leaves behind. *)

Inductive outcome (A : Type) : Type :=
| Done (a : A)
| Thrown (e : error) (s : Interpreter)
| OutOfModel.
Arguments Done {A} a.
Arguments Thrown {A} e s.
Arguments OutOfModel {A}.

(** Run a call that reads the state [s] only. *)
Definition attempt {A B : Type} (s : Interpreter) (r : result A)
  (k : A -> outcome B) : outcome B :=
  match r with
  | Ok a => k a
  | Fail e => Thrown e s
  | Unmodelled => OutOfModel
  end.

Definition andThen {A B : Type} (m : outcome A) (k : A -> outcome B) : outcome B :=
  match m with
  | Done a => k a
  | Thrown e s => Thrown e s
  | OutOfModel => OutOfModel
  end.

Notation "x <-[ s ] r ;; k" := (attempt s r (fun x => k))
  (at level 61, r at next level, right associativity).
Notation "x <== m ;; k" := (andThen m (fun x => k))
  (at level 61, m at next level, right associativity).

Section Setters.
Variable s : Interpreter.

Definition withStatements (v : list Statment) : Interpreter :=
  mkInterpreter v (registers s) (eflags s) (bytes s) (labels s)
                (currentLine s) (executedLines s) (currentMemoryAddress s).
Definition withRegisters (v : list Z) : Interpreter :=
  mkInterpreter (statements s) v (eflags s) (bytes s) (labels s)
                (currentLine s) (executedLines s) (currentMemoryAddress s).
Definition withEflags (v : Z) : Interpreter :=
  mkInterpreter (statements s) (registers s) v (bytes s) (labels s)
                (currentLine s) (executedLines s) (currentMemoryAddress s).
Definition withBytes (v : list byte) : Interpreter :=
  mkInterpreter (statements s) (registers s) (eflags s) v (labels s)
                (currentLine s) (executedLines s) (currentMemoryAddress s).
Definition withLabels (v : list Label) : Interpreter :=
  mkInterpreter (statements s) (registers s) (eflags s) (bytes s) v
                (currentLine s) (executedLines s) (currentMemoryAddress s).
Definition withCurrentLine (v : nat) : Interpreter :=
  mkInterpreter (statements s) (registers s) (eflags s) (bytes s) (labels s)
                v (executedLines s) (currentMemoryAddress s).
Definition withExecutedLines (v : nat) : Interpreter :=
  mkInterpreter (statements s) (registers s) (eflags s) (bytes s) (labels s)
                (currentLine s) v (currentMemoryAddress s).
Definition withCurrentMemoryAddress (v : Z) : Interpreter :=
  mkInterpreter (statements s) (registers s) (eflags s) (bytes s) (labels s)
                (currentLine s) (executedLines s) v.
End Setters.

(** The label test shared by both passes:
    [tokens.length > 1 && keywords.includes(tokens[1])]. *)
Definition startsWithLabel (tokens : list string) : bool :=
  Nat.ltb 1 (List.length tokens)
  && match tokenAt tokens 1 with
     | Some t => includes keywords t
     | None => false
     end.

(** [statements[i].byteSize = v] *)
Definition setByteSize (stmts : list Statment) (i : nat) (v : Z) : list Statment :=
  match nth_error stmts i with
  | Some st => replaceAt stmts i (mkStatment (sval st) v)
  | None => stmts
  end.

(** The body of the [for] loop of the [DC] case, [n] times. *)
Fixpoint appendTimes (n : nat) (bs numberInBytes : list byte) : list byte :=
  match n with
  | O => bs
  | S m => appendTimes m (bs ++ numberInBytes)%list numberInBytes
  end.

(** [new Array(n).fill(b)] for an integer [n >= 0]: a [RangeError] from
    2^32 on. *)
Definition newArrayFill (n : Z) (b : byte) : result (list byte) :=
  if (n <? 0) || (2 ^ 32 - 1 <? n) then Fail RangeError
  else Ok (repeat b (Z.to_nat n)).

(** The [switch] of [preprocess]: the new [bytes] and
    [currentMemoryAddress]. *)
Definition layout (s : Interpreter) (instruction : string) (args : list string)
  : outcome Interpreter :=
  if String.eqb instruction "DC" then
    match args with
    | [a0; a1] =>
        n <-[s] toNumber a0 ;;
        let numberOfMemoryCells := n * 4 in
        num <-[s] getNumberInParen a1 ;;
        let s1 := withCurrentMemoryAddress s
                    (currentMemoryAddress s + numberOfMemoryCells) in
        let numberInBytes :=
          map (fun b => mkByte (val b) DATA) (numberToBytes num) in
        Done (withBytes s1
                (appendTimes (Z.to_nat (numberOfMemoryCells / 4))
                             (bytes s1) numberInBytes))
    | [a0] =>
        num <-[s] getNumberInParen a0 ;;
        let s1 := withBytes s (bytes s ++ numberToBytes num)%list in
        Done (withCurrentMemoryAddress s1 (currentMemoryAddress s1 + 4))
    | _ => Done s
    end
  else if String.eqb instruction "DS" then
    numberOfMemoryCells <-[s]
      match args with
      | [a0; _] => (n <- toNumber a0 ;; Ok (n * 4))
      | _ => Ok 4
      end ;;
    cells <-[s] newArrayFill numberOfMemoryCells (mkByte 0 DATA) ;;
    let s1 := withBytes s (bytes s ++ cells)%list in
    Done (withCurrentMemoryAddress s1
            (currentMemoryAddress s1 + numberOfMemoryCells))
  else
    let instructionSize := getSizeOfInstruction instruction in
    let s1 := withCurrentMemoryAddress s
                (currentMemoryAddress s + instructionSize) in
    cells <-[s1] newArrayFill instructionSize (mkByte 0 INSTRUCTION) ;;
    Done (withBytes s1 (bytes s1 ++ cells)%list).

(** Add label to environment *)
Definition addLabel (s : Interpreter) (tokens : list string) : outcome Interpreter :=
  let token0 := hd "" tokens in
  if startsWithLabel tokens then
    if isLabelDefined s token0
    then Thrown (PreprocessingError
                   (LabelDefinedTwice (currentLine s + 1) token0)) s
    else if negb (isAlphaNumeric token0)
    then Thrown (PreprocessingError
                   (LabelNotAlphaNumeric (currentLine s + 1) token0)) s
    else Done (withLabels s
                 (labels s ++ [mkLabel token0 (currentLine s)
                                 (currentMemoryAddress s)])%list)
  else Done s.

(** The data-before-code check: the new value of [isDataSection]. *)
Definition checkDataSection (s : Interpreter) (isDataSection : bool)
  (instruction token0 : string) : outcome bool :=
  if String.eqb instruction "DC" || String.eqb instruction "DS"
  then if negb isDataSection
       then Thrown (PreprocessingError
                      (DataAfterCode (currentLine s + 1) token0)) s
       else Done isDataSection
  else Done false.

(** One iteration of the [while] loop of [preprocess], entered with
    [isAtEnd] false. *)
Definition preprocessLine (isDataSection : bool) (s : Interpreter)
  : outcome (bool * Interpreter) :=
  match nth_error (statements s) (currentLine s) with
  | None => Thrown TypeError s
  | Some stmt =>
      let tokens := splitStatment (removeComments (sval stmt)) in
      if Nat.eqb (List.length tokens) 0
      then Done (isDataSection, withCurrentLine s (currentLine s + 1)%nat)
      else
        let previousMemoryAddress := currentMemoryAddress s in
        s1 <== addLabel s tokens ;;
        let instruction :=
          if startsWithLabel tokens then nth 1 tokens "" else hd "" tokens in
        let currentIndex := if startsWithLabel tokens then 2%nat else 1%nat in
        if negb (includes keywords instruction)
        then Thrown (PreprocessingError
                       (UnrecognizedInstruction (currentLine s1 + 1) instruction)) s1
        else
          match tokenAt tokens currentIndex with
          | None => Thrown TypeError s1
          | Some operand =>
              let args := JsString.split "*"%char operand in
              isDataSection' <==
                checkDataSection s1 isDataSection instruction (hd "" tokens) ;;
              s2 <== layout s1 instruction args ;;
              let s3 := withStatements s2
                          (setByteSize (statements s2) (currentLine s2)
                             (currentMemoryAddress s2 - previousMemoryAddress)) in
              Done (isDataSection', withCurrentLine s3 (currentLine s3 + 1)%nat)
          end
  end.

(** The [while (!this.isAtEnd())] loop; every iteration advances
    [currentLine], so [fuel] lines are enough when [fuel] is the number of
    lines left (see [preprocessLoop_complete]). *)
Fixpoint preprocessLoop (fuel : nat) (isDataSection : bool) (s : Interpreter)
  : outcome Interpreter :=
  match fuel with
  | O => Done s
  | S f =>
      if isAtEnd s then Done s
      else
        r <== preprocessLine isDataSection s ;;
        preprocessLoop f (fst r) (snd r)
  end.

Definition preprocess (s : Interpreter) : outcome Interpreter :=
  s1 <== preprocessLoop (List.length (statements s) - currentLine s) true s ;;
  Done (withCurrentMemoryAddress (withCurrentLine s1 0%nat) 0).

(** [tokens.length - currentIndex != n] *)
Definition arityIsNot (tokens : list string) (currentIndex : nat) (n : Z) : bool :=
  negb (Z.of_nat (List.length tokens) - Z.of_nat currentIndex =? n).

(** [tokens[i] != ','] *)
Definition isNotComma (tokens : list string) (i : nat) : bool :=
  match tokenAt tokens i with
  | Some t => negb (String.eqb t ",")
  | None => true
  end.

(** [Number(tokens[i])] on a token that exists. *)
Definition tokenNumber (tokens : list string) (i : nat) : result Z :=
  match tokenAt tokens i with
  | Some t => toNumber t
  | None => Unmodelled
  end.

(** [registers[r1] = v; updateEflags(registers[r1])] *)
Definition writeBack (s : Interpreter) (r1 : Z) (v : number) : Interpreter :=
  let s1 := withRegisters s (regSet (registers s) r1 v) in
  withEflags s1 (updateEflags (regGet (registers s1) r1)).

(** Register-register instructions *)
Definition stepRR (s : Interpreter) (tokens : list string) (instruction : string)
  (currentIndex : nat) : outcome Interpreter :=
  if isInstructionRR instruction then
    if arityIsNot tokens currentIndex 3
    then Thrown (RuntimeError (TooManyArguments (currentLine s + 1) instruction)) s
    else
      r1 <-[s] tokenNumber tokens currentIndex ;;
      if isNotComma tokens (currentIndex + 1)
      then Thrown (RuntimeError (ExpectedComma (currentLine s + 1) instruction)) s
      else
        r2 <-[s] tokenNumber tokens (currentIndex + 2) ;;
        let x := regGet (registers s) r1 in
        let y := regGet (registers s) r2 in
        if String.eqb instruction "AR" then Done (writeBack s r1 (numAdd x y))
        else if String.eqb instruction "SR" then Done (writeBack s r1 (numSub x y))
        else if String.eqb instruction "MR" then Done (writeBack s r1 (numMul x y))
        else if String.eqb instruction "DR" then Done (writeBack s r1 (numFloorDiv x y))
        else if String.eqb instruction "CR"
             then Done (withEflags s (updateEflags (numSub x y)))
        else if String.eqb instruction "LR" then Done (writeBack s r1 y)
        else Done s
  else Done s.

(** The flags after the case ['C'], from [eflags] as [updateEflags] left
    it and the value [x] of [registers[r1]]. *)
Definition compareFlags (afterUpdate : Z) (x : number) : Z :=
  let e1 := JsInt32.xor afterUpdate
              (JsInt32.or (flagBit FLAGS.ZF) (flagBit FLAGS.SF)) in
  let e2 := JsInt32.or e1 (match x with
                           | Some 0 => flagBit FLAGS.ZF
                           | _ => 0
                           end) in
  JsInt32.or e2 (match x with
                 | Some z => if z <? 0 then flagBit FLAGS.SF else 0
                 | None => 0
                 end).

(** Register-memory instructions *)
Definition stepRM (s : Interpreter) (tokens : list string) (instruction : string)
  (currentIndex : nat) : outcome Interpreter :=
  if isInstructionRM instruction then
    if arityIsNot tokens currentIndex 3
    then Thrown (RuntimeError (TooManyArguments (currentLine s + 1) instruction)) s
    else
      r1 <-[s] tokenNumber tokens currentIndex ;;
      if isNotComma tokens (currentIndex + 1)
      then Thrown (RuntimeError (ExpectedComma (currentLine s + 1) instruction)) s
      else
        addr <-[s] match tokenAt tokens (currentIndex + 2) with
                   | Some t => getMemoryAddr s t
                   | None => Unmodelled
                   end ;;
        let x := regGet (registers s) r1 in
        if String.eqb instruction "A" then
          m <-[s] getNumberFromMemory s addr ;;
          Done (writeBack s r1 (numAdd x (Some m)))
        else if String.eqb instruction "S" then
          m <-[s] getNumberFromMemory s addr ;;
          Done (writeBack s r1 (numSub x (Some m)))
        else if String.eqb instruction "M" then
          m <-[s] getNumberFromMemory s addr ;;
          Done (writeBack s r1 (numMul x (Some m)))
        else if String.eqb instruction "D" then
          m <-[s] getNumberFromMemory s addr ;;
          Done (writeBack s r1 (numFloorDiv x (Some m)))
        else if String.eqb instruction "C" then
          m <-[s] getNumberFromMemory s addr ;;
          Done (withEflags s
                  (compareFlags (updateEflags (numSub x (Some m))) x))
        else if String.eqb instruction "L" then
          m <-[s] getNumberFromMemory s addr ;;
          Done (writeBack s r1 (Some m))
        else if String.eqb instruction "ST" then
          bs <-[s] setNumberInMemory s addr x ;;
          let s1 := withBytes s bs in
          Done (withEflags s1 (updateEflags (regGet (registers s1) r1)))
        else if String.eqb instruction "LA" then
          Done (writeBack s r1 addr)
        else Done s
  else Done s.

(** [eflags & (1 << f)] is truthy. *)
Definition flagSet (e : Z) (f : Z) : bool :=
  negb (JsInt32.and e (flagBit f) =? 0).

Definition startsWithJ (instruction : string) : bool :=
  match instruction with
  | String "J" _ => true
  | _ => false
  end.

(** The jump instructions: [(true, s')] when the method returns from
    inside the [switch], [(false, s)] when it breaks out of it. *)
Definition stepJ (s : Interpreter) (tokens : list string) (instruction : string)
  (currentIndex : nat) : outcome (bool * Interpreter) :=
  if startsWithJ instruction then
    if arityIsNot tokens currentIndex 1
    then Thrown (RuntimeError (OneArgument (currentLine s + 1) instruction)) s
    else
      addr <-[s] match tokenAt tokens currentIndex with
                 | Some t => getMemoryAddr s t
                 | None => Unmodelled
                 end ;;
      statmentLine <-[s] getStatmentLine s addr ;;
      match addr with
      | None => Thrown TypeError s
      | Some a =>
          let target := withCurrentMemoryAddress (withCurrentLine s statmentLine) a in
          if String.eqb instruction "J" then Done (true, target)
          else if String.eqb instruction "JP" then
            if negb (flagSet (eflags s) FLAGS.SF) then Done (true, target)
            else Done (false, s)
          else if String.eqb instruction "JN" then
            if flagSet (eflags s) FLAGS.SF then Done (true, target)
            else Done (false, s)
          else if String.eqb instruction "JZ" then
            if flagSet (eflags s) FLAGS.ZF then Done (true, target)
            else Done (false, s)
          else Done (false, s)
      end
  else Done (false, s).

(** The last two statements of [interpretNextLine]. *)
Definition fallThrough (s : Interpreter) : outcome Interpreter :=
  match nth_error (statements s) (currentLine s) with
  | None => Thrown TypeError s
  | Some st =>
      let s1 := withCurrentMemoryAddress s (currentMemoryAddress s + byteSize st) in
      Done (withCurrentLine s1 (currentLine s1 + 1)%nat)
  end.

(** [interpretNextLine].  The three blocks are guarded by disjoint sets of
    mnemonics, so the increments of [currentIndex] inside the
    register-register block are never seen by the two others; each block
    receives the index of the first operand. *)
Definition interpretNextLine (s0 : Interpreter) : outcome Interpreter :=
  let s := withExecutedLines s0 (executedLines s0 + 1)%nat in
  if isAtEnd s then Done s
  else
    match nth_error (statements s) (currentLine s) with
    | None => Thrown TypeError s
    | Some stmt =>
        let tokens := splitStatment (removeComments (sval stmt)) in
        if Nat.eqb (List.length tokens) 0
        then Done (withCurrentLine s (currentLine s + 1)%nat)
        else
          let instruction :=
            if startsWithLabel tokens then nth 1 tokens "" else hd "" tokens in
          let currentIndex := if startsWithLabel tokens then 1%nat else 0%nat in
          if includes keywords instruction then
            let currentIndex := (currentIndex + 1)%nat in
            s1 <== stepRR s tokens instruction currentIndex ;;
            s2 <== stepRM s1 tokens instruction currentIndex ;;
            j <== stepJ s2 tokens instruction currentIndex ;;
            if fst j then Done (snd j) else fallThrough (snd j)
          else
            Thrown (RuntimeError
                      (UnrecognizedInstructionRun (currentLine s + 1) instruction)) s
    end.

(** The [while] loop of [interpret]: every call of [interpretNextLine]
    increments [executedLines], so the loop body runs at most
    [MAX_LINES - executedLines] times; [fuel] counts them (see
    [interpretLoop_complete]). *)
Fixpoint interpretLoop (fuel : nat) (s : Interpreter) : outcome Interpreter :=
  match fuel with
  | O => Done s
  | S f =>
      if negb (isAtEnd s) && Nat.ltb (executedLines s) MAX_LINES
      then s1 <== interpretNextLine s ;; interpretLoop f s1
      else Done s
  end.

Definition interpret (s : Interpreter) : outcome Interpreter :=
  s1 <== preprocess s ;;
  s2 <== interpretLoop (MAX_LINES - executedLines s1) s1 ;;
  if Nat.leb MAX_LINES (executedLines s2)
  then Thrown (RuntimeError ExecutionLimit) s2
  else Done s2.

(** [n] calls of [interpretNextLine]. *)
Fixpoint steps (n : nat) (s : Interpreter) : outcome Interpreter :=
  match n with
  | O => Done s
  | S m => s1 <== interpretNextLine s ;; steps m s1
  end.

(** ** Predicates and programs used in the statements *)

(** The values of an [Int32Array] cell. *)
Definition isInt32 (x : Z) : Prop := - 2 ^ 31 <= x < 2 ^ 31.

(** The line separator of [code.split('\n')]. *)
Definition newline : string := String "010"%char "".

(** [n] calls of [interpretNextLine] after [preprocess], on a fresh
    interpreter for [code]. *)
Definition runSteps (code : string) (n : nat) : outcome Interpreter :=
  s <== preprocess (newInterpreter code) ;; steps n s.

(** Compares 5 (register 0) with 3 (the word at [X]). *)
Definition compareProgram : string :=
  "X DC INTEGER(3)" ++ newline ++ "Y DC INTEGER(5)" ++ newline
  ++ "L 0, Y" ++ newline ++ "C 0, X".

(** Compares -1 (register 0) with 0 (the word at [X]). *)
Definition compareNegativeProgram : string :=
  "X DC INTEGER(0)" ++ newline ++ "Y DC INTEGER(-1)" ++ newline
  ++ "L 0, Y" ++ newline ++ "C 0, X".

(** The scenario [ONE DC INTEGER(10)], [A 0, ONE]. *)
Definition scenarioProgram : string :=
  "ONE DC INTEGER(10)" ++ newline ++ "A 0, ONE".

(** A label with a character that is neither a letter nor a digit. *)
Definition underscoreProgram : string := "X_1 DC INTEGER(10)".




(** The sum of the footprints of [stmts]. *)
Definition sumByteSize (stmts : list Statment) : Z :=
  fold_right (fun st acc => byteSize st + acc) 0 stmts.

(** The sum of the footprints of [stmts] that are not negative. *)
Definition positiveFootprints (stmts : list Statment) : Z :=
  fold_right (fun st acc => Z.max 0 (byteSize st) + acc) 0 stmts.

(** The accumulated address of statement [i]: the footprints before it. *)
Definition addressOf (stmts : list Statment) (i : nat) : Z :=
  sumByteSize (firstn i stmts).

(** No statement has a negative footprint. *)
Definition nonNegativeFootprints (stmts : list Statment) : Prop :=
  Forall (fun st => 0 <= byteSize st) stmts.

(** Statement [i] starts at [a] and has a non-zero footprint. *)
Definition isTarget (stmts : list Statment) (a : Z) (i : nat) : Prop :=
  exists st, nth_error stmts i = Some st
             /\ addressOf stmts i = a /\ byteSize st <> 0.

(** A [DC] with a negative repeat count, followed by a word. *)
Definition negativeCountProgram : string :=
  "X DC -1*INTEGER(5)" ++ newline ++ "Y DC INTEGER(1)".

(** A program of 1000 empty lines. *)
Definition emptyLinesProgram : string := String.concat newline (repeat "" 1000).

(** A tokenized line that is an unconditional jump with operand [a],
    with or without a label. *)
Inductive jumpLine : list string -> string -> Prop :=
| JumpLabelled (lbl a : string) : jumpLine [lbl; "J"; a] a
| JumpPlain (a : string) :
    includes keywords a = false -> jumpLine ["J"; a] a.

(** One statement, an unconditional jump to address 0, its own. *)
Definition selfJumpProgram : string := "J 0".

(** The same with a label as the target. *)
Definition labelledSelfJumpProgram : string := "LOOP J LOOP".

(** [q] is the floor of the true quotient [a / b]: [q <= a/b < q + 1]. *)
Definition isFloorQuotient (a b q : Z) : Prop :=
  (0 < b -> b * q <= a < b * q + b) /\ (b < 0 -> b * q + b < a <= b * q).

(** What [DR] and [D] store for the dividend [a] and the divisor [b]:
    [registers[r1] = Math.floor(a / b)]. *)
Definition quotientWritten (a b : Z) : Z :=
  numToInt32 (numFloorDiv (Some a) (Some b)).

(** A tokenized line of the instruction [m] with the operands
    [t1 , t2], with or without a label. *)
Inductive operandLine (m : string) : list string -> string -> string -> Prop :=
| OperandLabelled (lbl t1 t2 : string) :
    operandLine m [lbl; m; t1; ","; t2] t1 t2
| OperandPlain (t1 t2 : string) :
    operandLine m [m; t1; ","; t2] t1 t2.

(** Divides -7 (register 0) by 2 (register 1). *)
Definition divideProgram : string :=
  "A DC INTEGER(-7)" ++ newline ++ "B DC INTEGER(2)" ++ newline
  ++ "L 0, A" ++ newline ++ "L 1, B" ++ newline ++ "DR 0, 1".

(** Divides -7 (register 0) by 2 (the word at [B]). *)
Definition divideMemoryProgram : string :=
  "A DC INTEGER(-7)" ++ newline ++ "B DC INTEGER(2)" ++ newline
  ++ "L 0, A" ++ newline ++ "D 0, B".

(** The state once [interpretNextLine] has counted the step. *)
Definition counted (s : Interpreter) : Interpreter :=
  withExecutedLines s (executedLines s + 1)%nat.

(** The state a division step leaves: the quotient written to [r1], the
    flags recomputed, the position advanced past [stmt]. *)
Definition divided (s : Interpreter) (stmt : Statment) (r1 a b : Z) : Interpreter :=
  let s1 := writeBack (counted s) r1 (numFloorDiv (Some a) (Some b)) in
  withCurrentLine
    (withCurrentMemoryAddress s1 (currentMemoryAddress s1 + byteSize stmt))
    (currentLine s1 + 1)%nat.

(** The state in which the last line of [divideProgram] runs. *)
Definition beforeDivision : Interpreter :=
  match runSteps divideProgram 4 with
  | Done s => s
  | _ => newInterpreter divideProgram
  end.

(** The state after the layout of [scenarioProgram]. *)
Definition scenarioState : Interpreter :=
  match preprocess (newInterpreter scenarioProgram) with
  | Done s => s
  | _ => newInterpreter scenarioProgram
  end.

(** The mnemonic that [interpretNextLine] dispatches on in the state
    [s], if the current line has one. *)
Definition currentInstruction (s : Interpreter) : option string :=
  match nth_error (statements s) (currentLine s) with
  | None => None
  | Some stmt =>
      let tokens := splitStatment (removeComments (sval stmt)) in
      if Nat.eqb (List.length tokens) 0 then None
      else Some (if startsWithLabel tokens then nth 1 tokens "" else hd "" tokens)
  end.

(** The state a step [C] leaves for a register holding [x] and a memory
    word [m]: the flags of the case ['C'], the position advanced past
    [stmt]. *)
Definition compared (s : Interpreter) (stmt : Statment) (x m : Z) : Interpreter :=
  let s1 := withEflags (counted s)
              (compareFlags (updateEflags (numSub (Some x) (Some m))) (Some x)) in
  withCurrentLine
    (withCurrentMemoryAddress s1 (currentMemoryAddress s1 + byteSize stmt))
    (currentLine s1 + 1)%nat.

(** ** Definitions for the further properties *)

(** Everything but [bytes] and [currentMemoryAddress]. *)
Definition sameFrame (s s' : Interpreter) : Prop :=
  statements s' = statements s /\ registers s' = registers s
  /\ eflags s' = eflags s /\ labels s' = labels s
  /\ currentLine s' = currentLine s /\ executedLines s' = executedLines s.

(** A byte as the memory image holds it. *)
Definition isOctet (b : byte) : Prop := 0 <= val b < 256.

(** The state of the layout pass between two lines: the image is as long
    as the sum of the footprints that are not negative, the lines not yet
    laid out have footprint 0, the address is the sum of the footprints so
    far, and every label recorded belongs to a line already passed and
    holds the address at which that line starts. *)
Definition layoutInvariant (s : Interpreter) : Prop :=
  Z.of_nat (List.length (bytes s)) = positiveFootprints (statements s)
  /\ (forall j st, (currentLine s <= j)%nat ->
                   nth_error (statements s) j = Some st -> byteSize st = 0)
  /\ addressOf (statements s) (currentLine s) = currentMemoryAddress s
  /\ (forall l, In l (labels s) ->
                (line l < currentLine s)%nat
                /\ address l = addressOf (statements s) (line l))
  /\ (currentLine s <= List.length (statements s))%nat.

(** The layout is [DATA] bytes followed by [INSTRUCTION] placeholders. *)
Definition dataBeforeCode (bs : list byte) : Prop :=
  exists ds cs, bs = (ds ++ cs)%list
                /\ Forall (fun b => type b = DATA) ds
                /\ Forall (fun b => type b = INSTRUCTION) cs.

(** The memory image between two lines of the layout pass: octets, data
    before code, and data only as long as the data section lasts. *)
Definition imageInvariant (d : bool) (s : Interpreter) : Prop :=
  Forall isOctet (bytes s)
  /\ dataBeforeCode (bytes s)
  /\ (d = true -> Forall (fun b => type b = DATA) (bytes s)).

(** What no step changes, and what it keeps: the statements and the
    labels, the sizes of the register file and of the memory image, the
    range of every register and of every byte. *)
Definition stepFrame (s s' : Interpreter) : Prop :=
  statements s' = statements s
  /\ labels s' = labels s
  /\ List.length (bytes s') = List.length (bytes s)
  /\ List.length (registers s') = List.length (registers s)
  /\ (Forall isInt32 (registers s) -> Forall isInt32 (registers s'))
  /\ (Forall isOctet (bytes s) -> Forall isOctet (bytes s')).

(** The messages thrown inside the three instruction blocks. *)
Definition isBlockMessage (m : runMsg) : Prop :=
  match m with
  | TooManyArguments _ _ | ExpectedComma _ _ | UndefinedLabel _ _
  | InvalidJumpTarget _ _ | OneArgument _ _ => True
  | ExecutionLimit | UnrecognizedInstructionRun _ _ => False
  end.

(** The errors thrown inside the three instruction blocks. *)
Definition isBlockError (e : error) : Prop :=
  e = TypeError \/ exists m, e = RuntimeError m /\ isBlockMessage m.

(** The errors of a step: a runtime error other than the step ceiling,
    or the [TypeError] of reading an absent byte or jumping to an
    undefined address. *)
Definition isStepError (e : error) : Prop :=
  e = TypeError \/ exists m, e = RuntimeError m /\ m <> ExecutionLimit.

(** The errors of the layout pass: a preprocessing error, the [TypeError]
    of a missing operand, or the [RangeError] of an array too long. *)
Definition isLayoutError (e : error) : Prop :=
  e = TypeError \/ e = RangeError \/ exists m, e = PreprocessingError m.

(** The last two statements of [interpretNextLine] on the line [stmt]. *)
Definition advance (s : Interpreter) (stmt : Statment) : Interpreter :=
  withCurrentLine
    (withCurrentMemoryAddress s (currentMemoryAddress s + byteSize stmt))
    (currentLine s + 1)%nat.

(** The [switch] of the register-register block. *)
Definition rrSwitch (s : Interpreter) (instruction : string) (r1 r2 : Z)
  : Interpreter :=
  let x := regGet (registers s) r1 in
  let y := regGet (registers s) r2 in
  if String.eqb instruction "AR" then writeBack s r1 (numAdd x y)
  else if String.eqb instruction "SR" then writeBack s r1 (numSub x y)
  else if String.eqb instruction "MR" then writeBack s r1 (numMul x y)
  else if String.eqb instruction "DR" then writeBack s r1 (numFloorDiv x y)
  else if String.eqb instruction "CR" then withEflags s (updateEflags (numSub x y))
  else if String.eqb instruction "LR" then writeBack s r1 y
  else s.

(** The [switch] of the register-memory block. *)
Definition rmSwitch (s : Interpreter) (instruction : string) (r1 : Z)
  (addr : number) : outcome Interpreter :=
  let x := regGet (registers s) r1 in
  if String.eqb instruction "A" then
    m <-[s] getNumberFromMemory s addr ;;
    Done (writeBack s r1 (numAdd x (Some m)))
  else if String.eqb instruction "S" then
    m <-[s] getNumberFromMemory s addr ;;
    Done (writeBack s r1 (numSub x (Some m)))
  else if String.eqb instruction "M" then
    m <-[s] getNumberFromMemory s addr ;;
    Done (writeBack s r1 (numMul x (Some m)))
  else if String.eqb instruction "D" then
    m <-[s] getNumberFromMemory s addr ;;
    Done (writeBack s r1 (numFloorDiv x (Some m)))
  else if String.eqb instruction "C" then
    m <-[s] getNumberFromMemory s addr ;;
    Done (withEflags s (compareFlags (updateEflags (numSub x (Some m))) x))
  else if String.eqb instruction "L" then
    m <-[s] getNumberFromMemory s addr ;;
    Done (writeBack s r1 (Some m))
  else if String.eqb instruction "ST" then
    bs <-[s] setNumberInMemory s addr x ;;
    let s1 := withBytes s bs in
    Done (withEflags s1 (updateEflags (regGet (registers s1) r1)))
  else if String.eqb instruction "LA" then
    Done (writeBack s r1 addr)
  else Done s.

(** A tokenized line of the jump [m] with the operand [a], with or
    without a label. *)
Inductive branchLine (m : string) : list string -> string -> Prop :=
| BranchLabelled (lbl a : string) : branchLine m [lbl; m; a] a
| BranchPlain (a : string) :
    includes keywords a = false -> branchLine m [m; a] a.

(** Whether the jump [m] is taken with the flags [e]: the conditions of
    the [switch] of the jump block. *)
Definition jumpTaken (m : string) (e : Z) : bool :=
  if String.eqb m "J" then true
  else if String.eqb m "JP" then negb (flagSet e FLAGS.SF)
  else if String.eqb m "JN" then flagSet e FLAGS.SF
  else if String.eqb m "JZ" then flagSet e FLAGS.ZF
  else false.

(** The mnemonics of the jump block. *)
Definition jumpKeywords : list string := ["J"; "JP"; "JN"; "JZ"].

(** A program that loads, adds, compares, stores, takes an address and
    jumps; line [k] runs on step [k + 1]. *)
Definition tourProgram : string :=
  "A DC INTEGER(-7)" ++ newline ++ "B DC INTEGER(2)" ++ newline
  ++ "L 0, A" ++ newline ++ "L 1, B" ++ newline ++ "AR 0, 1" ++ newline
  ++ "CR 0, 1" ++ newline ++ "ST 0, A" ++ newline ++ "LA 2, B" ++ newline
  ++ "JZ 8" ++ newline ++ "J NOWHERE" ++ newline ++ "# done".

(** The state in which line [k] of [tourProgram] runs. *)
Definition tourState (k : nat) : Interpreter :=
  match runSteps tourProgram k with
  | Done s => s
  | _ => newInterpreter tourProgram
  end.

(** What an instruction that writes [v] to [r1] leaves. *)
Definition wrote (s s' : Interpreter) (stmt : Statment) (r1 v : Z) : Prop :=
  regGet (registers s') r1 = Some v
  /\ (forall r, r <> r1 -> regGet (registers s') r = regGet (registers s) r)
  /\ eflags s' = updateEflags (Some v)
  /\ bytes s' = bytes s
  /\ currentLine s' = (currentLine s + 1)%nat
  /\ currentMemoryAddress s' = currentMemoryAddress s + byteSize stmt.

(** The mnemonic position of a tokenized line. *)
Definition mnemonicOf (tokens : list string) : string :=
  if startsWithLabel tokens then nth 1 tokens "" else hd "" tokens.

(** The index of the first operand of a tokenized line. *)
Definition operandIndex (tokens : list string) : nat :=
  if startsWithLabel tokens then 2%nat else 1%nat.

(** A line the layout pass lets through: no token at all, or a mnemonic
    among the keywords. *)
Definition recognized (v : string) : bool :=
  let tokens := splitStatment (removeComments v) in
  Nat.eqb (List.length tokens) 0 || includes keywords (mnemonicOf tokens).

(** The lines below [currentLine] are recognized. *)
Definition recognizedBelow (s : Interpreter) : Prop :=
  forall j v, (j < currentLine s)%nat ->
              nth_error (map sval (statements s)) j = Some v ->
              recognized v = true.

(** A state whose only line is a register-register line that lacks its
    second operand. *)
Definition malformedState : Interpreter :=
  withStatements (tourState 4) [mkStatment "AR 0" 2].

(** The code units of a string. *)
Definition chars (s : string) : list ascii := list_ascii_of_string s.

(** A token as [splitStatment] produces them. *)
Definition cleanToken (t : string) : Prop :=
  t <> ""
  /\ ~ In " "%char (chars t)
  /\ ~ In "#"%char (chars t)
  /\ (In ","%char (chars t) -> t = ",").


(** * Properties *)

(** ** 32-bit arithmetic *)

Lemma toInt32_range (x : Z) : isInt32 (toInt32 x).
Proof.
  unfold isInt32, toInt32.
  pose proof (Z.mod_pos_bound x (2 ^ 32) ltac:(lia)) as H.
  destruct (2 ^ 31 <=? x mod 2 ^ 32) eqn:E;
    [apply Z.leb_le in E | apply Z.leb_gt in E]; lia.
Qed.

Lemma toInt32_id (x : Z) : isInt32 x -> toInt32 x = x.
Proof.
  unfold isInt32, toInt32. intros H.
  destruct (Z_lt_le_dec x 0) as [Hn | Hp].
  - replace (x mod 2 ^ 32) with (x + 2 ^ 32).
    + destruct (2 ^ 31 <=? x + 2 ^ 32) eqn:E;
        [apply Z.leb_le in E | apply Z.leb_gt in E]; lia.
    + apply Z.mod_unique with (q := -1); lia.
  - rewrite Z.mod_small by lia.
    destruct (2 ^ 31 <=? x) eqn:E;
      [apply Z.leb_le in E | apply Z.leb_gt in E]; lia.
Qed.

Lemma toInt32_idem (x : Z) : toInt32 (toInt32 x) = toInt32 x.
Proof. apply toInt32_id, toInt32_range. Qed.

(** [ToInt32] keeps the 32 low bits. *)
Lemma toInt32_testbit_low (x n : Z) :
  0 <= n < 32 -> Z.testbit (toInt32 x) n = Z.testbit x n.
Proof.
  intros Hn. unfold toInt32.
  destruct (2 ^ 31 <=? x mod 2 ^ 32).
  - rewrite <- (Z.mod_pow2_bits_low (x mod 2 ^ 32 - 2 ^ 32) 32 n) by lia.
    replace (x mod 2 ^ 32 - 2 ^ 32) with (x mod 2 ^ 32 + (-1) * 2 ^ 32) by lia.
    rewrite Z.mod_add by lia. rewrite Z.mod_mod by lia.
    apply Z.mod_pow2_bits_low; lia.
  - apply Z.mod_pow2_bits_low; lia.
Qed.

(** Above bit 31 a 32-bit signed integer repeats its sign bit. *)
Lemma int32_testbit_high (y n : Z) :
  isInt32 y -> 31 <= n -> Z.testbit y n = (y <? 0).
Proof.
  unfold isInt32. intros Hy Hn.
  assert (Hpow : 2 ^ 31 <= 2 ^ n) by (apply Z.pow_le_mono_r; lia).
  destruct (y <? 0) eqn:E; [apply Z.ltb_lt in E | apply Z.ltb_ge in E].
  - replace y with (- (- y)) by lia.
    rewrite Z.bits_opp by lia.
    replace (Z.pred (- y)) with (- y - 1) by (unfold Z.pred; lia).
    destruct (Z.eq_dec (- y - 1) 0) as [H0 | H0].
    + rewrite H0, Z.bits_0. reflexivity.
    + rewrite Z.bits_above_log2; [reflexivity | lia |].
      apply Z.log2_lt_pow2; lia.
  - destruct (Z.eq_dec y 0) as [H0 | H0].
    + subst. apply Z.bits_0.
    + apply Z.bits_above_log2; [lia |]. apply Z.log2_lt_pow2; lia.
Qed.

Lemma toInt32_testbit (x n : Z) :
  0 <= n -> Z.testbit (toInt32 x) n = Z.testbit x (Z.min n 31).
Proof.
  intros Hn. destruct (Z_lt_le_dec n 32) as [Hlt | Hge].
  - rewrite toInt32_testbit_low by lia.
    f_equal. lia.
  - rewrite Z.min_r by lia.
    rewrite (int32_testbit_high (toInt32 x) n) by (auto using toInt32_range; lia).
    rewrite <- (int32_testbit_high (toInt32 x) 31) by (auto using toInt32_range; lia).
    apply toInt32_testbit_low. lia.
Qed.

(** ** Bits of the operators *)

Lemma toInt32_255 : toInt32 255 = 255.
Proof. reflexivity. Qed.

Lemma testbit_255 (k : Z) : 0 <= k -> Z.testbit 255 k = (k <? 8).
Proof.
  intros Hk. change 255 with (Z.ones 8).
  apply Z.testbit_ones_nonneg; lia.
Qed.

Lemma or_testbit (x y n : Z) :
  0 <= n ->
  Z.testbit (JsInt32.or x y) n
  = Z.testbit x (Z.min n 31) || Z.testbit y (Z.min n 31).
Proof.
  intros Hn. unfold JsInt32.or.
  rewrite Z.lor_spec, !toInt32_testbit by lia. reflexivity.
Qed.

Lemma shl_testbit (x s m : Z) :
  0 <= s -> 0 <= m < 32 ->
  Z.testbit (JsInt32.shl x s) m
  = if m <? s then false else Z.testbit x (m - s).
Proof.
  intros Hs Hm. unfold JsInt32.shl.
  rewrite toInt32_testbit_low by lia.
  destruct (m <? s) eqn:E; [apply Z.ltb_lt in E | apply Z.ltb_ge in E].
  - apply Z.shiftl_spec_low; lia.
  - rewrite Z.shiftl_spec by lia.
    apply toInt32_testbit_low; lia.
Qed.

(** Byte [s/8] of a 32-bit integer, as [numberToBytes] extracts it. *)
Lemma byteOf_testbit (i s k : Z) :
  0 <= s -> 0 <= k -> k + s < 32 ->
  Z.testbit (JsInt32.and (JsInt32.shr i s) 255) k
  = (k <? 8) && Z.testbit i (k + s).
Proof.
  intros Hs Hk Hks. unfold JsInt32.and, JsInt32.shr.
  rewrite Z.land_spec, toInt32_255, testbit_255 by lia.
  rewrite toInt32_testbit_low by lia.
  rewrite Z.shiftr_spec by lia.
  rewrite toInt32_testbit_low by lia.
  apply andb_comm.
Qed.

Lemma lowByte_testbit (i k : Z) :
  0 <= k < 32 ->
  Z.testbit (JsInt32.and i 255) k = (k <? 8) && Z.testbit i k.
Proof.
  intros Hk. unfold JsInt32.and.
  rewrite Z.land_spec, toInt32_255, testbit_255 by lia.
  rewrite toInt32_testbit_low by lia.
  apply andb_comm.
Qed.

Lemma and255_range (x : Z) : 0 <= JsInt32.and x 255 < 256.
Proof.
  unfold JsInt32.and. rewrite toInt32_255.
  change 255 with (Z.ones 8). rewrite Z.land_ones by lia.
  apply Z.mod_pos_bound. lia.
Qed.

Lemma int32_testbit_min (v n : Z) :
  isInt32 v -> 0 <= n -> Z.testbit v n = Z.testbit v (Z.min n 31).
Proof.
  intros Hv Hn. rewrite <- (toInt32_id v Hv) at 1.
  apply toInt32_testbit. exact Hn.
Qed.

(** Byte [s/8] put back in its place. *)
Lemma shl_byte_testbit (v s m : Z) :
  0 <= s -> 0 <= m < 32 ->
  Z.testbit (JsInt32.shl (JsInt32.and (JsInt32.shr v s) 255) s) m
  = (s <=? m) && (m <? s + 8) && Z.testbit v m.
Proof.
  intros Hs Hm. rewrite shl_testbit by lia.
  destruct (m <? s) eqn:E; [apply Z.ltb_lt in E | apply Z.ltb_ge in E].
  - rewrite (proj2 (Z.leb_gt s m)) by lia. reflexivity.
  - rewrite (proj2 (Z.leb_le s m)) by lia.
    rewrite byteOf_testbit by lia.
    replace (m - s + s) with m by lia.
    destruct (m - s <? 8) eqn:E1; destruct (m <? s + 8) eqn:E2;
      try reflexivity;
      try apply Z.ltb_lt in E1; try apply Z.ltb_ge in E1;
      try apply Z.ltb_lt in E2; try apply Z.ltb_ge in E2; lia.
Qed.

(** Decoding the four bytes of a 32-bit integer. *)
Lemma decode_encode (v : Z) :
  isInt32 v ->
  JsInt32.or
    (JsInt32.or
       (JsInt32.or (JsInt32.shl (JsInt32.and (JsInt32.shr v 24) 255) 24)
                   (JsInt32.shl (JsInt32.and (JsInt32.shr v 16) 255) 16))
       (JsInt32.shl (JsInt32.and (JsInt32.shr v 8) 255) 8))
    (JsInt32.and v 255) = v.
Proof.
  intros Hv. apply Z.bits_inj'. intros n Hn.
  rewrite (int32_testbit_min v n Hv Hn).
  rewrite !or_testbit by lia.
  rewrite !Z.min_l with (n := Z.min n 31) (m := 31) by lia.
  set (m := Z.min n 31). assert (Hm : 0 <= m <= 31) by lia.
  rewrite !shl_byte_testbit by lia.
  rewrite (lowByte_testbit v m) by lia.
  destruct (Z.testbit v m); rewrite ?andb_false_r, ?andb_true_r;
    [| reflexivity].
  destruct (24 <=? m) eqn:E24; destruct (16 <=? m) eqn:E16;
    destruct (8 <=? m) eqn:E8;
    destruct (m <? 24 + 8) eqn:F24; destruct (m <? 16 + 8) eqn:F16;
    destruct (m <? 8 + 8) eqn:F8; destruct (m <? 8) eqn:F0;
    try reflexivity;
    rewrite ?Z.leb_le, ?Z.leb_gt, ?Z.ltb_lt, ?Z.ltb_ge in *; lia.
Qed.

(** ** Big-endian encoding *)

(** C6. For every 32-bit signed integer [v], [bytesToNumber] applied to
    the four bytes of [numberToBytes(v)] gives back [v]; the encoding is
    big-endian: bit [j] of byte [k] is bit [8*(3-k)+j] of [v], so byte 0
    holds bits 31-24 and byte 3 bits 7-0; each byte is a [DATA] byte with a
    value below 256. *)
Theorem bigEndian_roundtrip (v : Z) :
  isInt32 v ->
  bytesToNumber (map Some (numberToBytes (Some v))) = Ok v
  /\ (forall (k : nat) (j : Z),
         (k < 4)%nat -> 0 <= j < 8 ->
         Z.testbit (val (nth k (numberToBytes (Some v)) (mkByte 0 DATA))) j
         = Z.testbit v (8 * (3 - Z.of_nat k) + j))
  /\ Forall (fun b => 0 <= val b < 256 /\ type b = DATA)
            (numberToBytes (Some v))
  /\ List.length (numberToBytes (Some v)) = 4%nat.
Proof.
  intros Hv. unfold numberToBytes. cbn [numToInt32].
  rewrite (toInt32_id v Hv).
  split; [| split; [| split]].
  - cbn [map bytesToNumber nth val]. f_equal. apply decode_encode, Hv.
  - intros k j Hk Hj.
    destruct k as [| [| [| [| k]]]]; try lia; cbn [nth val Z.of_nat].
    + rewrite byteOf_testbit by lia.
      rewrite (proj2 (Z.ltb_lt j 8)) by lia. cbn [andb]. f_equal; lia.
    + rewrite byteOf_testbit by lia.
      rewrite (proj2 (Z.ltb_lt j 8)) by lia. cbn [andb]. f_equal; lia.
    + rewrite byteOf_testbit by lia.
      rewrite (proj2 (Z.ltb_lt j 8)) by lia. cbn [andb]. f_equal; lia.
    + rewrite lowByte_testbit by lia.
      rewrite (proj2 (Z.ltb_lt j 8)) by lia. cbn [andb]. f_equal; lia.
  - repeat (apply Forall_cons;
            [split; [cbn [val]; apply and255_range | reflexivity] |]).
    apply Forall_nil.
  - reflexivity.
Qed.

Lemma bigEndian_roundtrip_witness :
  isInt32 (-2)
  /\ bytesToNumber (map Some (numberToBytes (Some (-2)))) = Ok (-2).
Proof.
  assert (H : isInt32 (-2)) by (unfold isInt32; lia).
  split; [exact H | exact (proj1 (bigEndian_roundtrip (-2) H))].
Defined.

(** ** Flags *)

Lemma flagBit_ZF : flagBit FLAGS.ZF = 64.
Proof. reflexivity. Qed.

Lemma flagBit_SF : flagBit FLAGS.SF = 128.
Proof. reflexivity. Qed.

Lemma updateEflags_value (v : Z) :
  updateEflags (Some v) = if v =? 0 then 64 else if v <? 0 then 128 else 0.
Proof. destruct v; reflexivity. Qed.

Lemma updateEflags_undefined : updateEflags None = 0.
Proof. reflexivity. Qed.

(** What [updateEflags] alone guarantees: Zero iff the value is 0, Sign
    iff it is negative, never both. *)
Lemma updateEflags_law (v : Z) :
  flagSet (updateEflags (Some v)) FLAGS.ZF = (v =? 0)
  /\ flagSet (updateEflags (Some v)) FLAGS.SF = (v <? 0)
  /\ (flagSet (updateEflags (Some v)) FLAGS.ZF
      && flagSet (updateEflags (Some v)) FLAGS.SF) = false.
Proof. destruct v; repeat split; reflexivity. Qed.

(** The flags the case ['C'] leaves, for a register holding [x] and a
    memory word [m]: the exclusive-or inverts both bits of
    [updateEflags(x - m)] before the bits of [x] are or-ed in. *)
Lemma compareFlags_value (x m : Z) :
  flagSet (compareFlags (updateEflags (Some (x - m))) (Some x)) FLAGS.ZF
  = negb (x - m =? 0) || (x =? 0)
  /\ flagSet (compareFlags (updateEflags (Some (x - m))) (Some x)) FLAGS.SF
     = negb (x - m <? 0) || (x <? 0).
Proof. destruct (x - m); destruct x; split; reflexivity. Qed.

(** ** The flag law and the register-memory compare *)

(** C7. The code at the failing input: register 0 holds -1 and the word at
    [X] is 0 when [C 0, X] runs; afterwards Zero and Sign are both set. *)
Theorem compare_breaks_flag_exclusion :
  exists s,
    runSteps compareNegativeProgram 4 = Done s
    /\ regGet (registers s) 0 = Some (-1)
    /\ getNumberFromMemory s (Some 0) = Ok 0
    /\ flagSet (eflags s) FLAGS.ZF = true
    /\ flagSet (eflags s) FLAGS.SF = true.
Proof.
  eexists. split; [vm_compute; reflexivity |].
  repeat split; reflexivity.
Qed.

(** ** The scenario [ONE DC INTEGER(10)], [A 0, ONE] *)

(** C9, as stated, fails: after [preprocess] and exactly one call of
    [interpretNextLine], register 0 is still 0, not 10; the call stepped
    over the [DC] line. *)
Lemma scenario_one_step_counterexample :
  exists s,
    runSteps scenarioProgram 1 = Done s
    /\ regGet (registers s) 0 = Some 0
    /\ regGet (registers s) 0 <> Some 10
    /\ currentLine s = 1%nat.
Proof.
  eexists. split; [vm_compute; reflexivity |].
  repeat split; try reflexivity. vm_compute. discriminate.
Qed.

(** C9, amended. After [preprocess], bytes 0-3 hold the big-endian
    encoding of 10 and the label [ONE] has address 0; the first call of
    [interpretNextLine] steps over the [DC] line and leaves the registers
    untouched; after exactly two calls register 0 is 10 and neither Zero
    nor Sign is set. *)
Theorem scenario_two_steps :
  (exists s0,
      preprocess (newInterpreter scenarioProgram) = Done s0
      /\ map val (firstn 4 (bytes s0)) = [0; 0; 0; 10]
      /\ map val (firstn 4 (bytes s0)) = map val (numberToBytes (Some 10))
      /\ labels s0 = [mkLabel "ONE" 0 0]
      /\ getMemoryAddr s0 "ONE" = Ok (Some 0))
  /\ (exists s1,
         runSteps scenarioProgram 1 = Done s1
         /\ registers s1 = repeat 0 16
         /\ currentLine s1 = 1%nat)
  /\ (exists s2,
         runSteps scenarioProgram 2 = Done s2
         /\ regGet (registers s2) 0 = Some 10
         /\ flagSet (eflags s2) FLAGS.ZF = false
         /\ flagSet (eflags s2) FLAGS.SF = false).
Proof.
  split; [| split]; eexists; (split; [vm_compute; reflexivity |]);
    repeat split; reflexivity.
Qed.

(** ** Label names *)

Lemma keyPasses_below_90 (i : nat) : (i < 90)%nat -> keyPasses i = true.
Proof.
  intros Hi.
  assert (H : forallb keyPasses (seq 0 90) = true) by (vm_compute; reflexivity).
  rewrite forallb_forall in H. apply H. apply in_seq. lia.
Qed.

Lemma keyPasses_90 : keyPasses 90 = false.
Proof. vm_compute. reflexivity. Qed.

(** [isAlphaNumeric] looks at the indices of its argument, never at its
    characters: it accepts exactly the strings of at most 90 code units
    (the key ["90"] is the first that is not [<= "9"]). *)
Lemma isAlphaNumeric_length (v : string) :
  isAlphaNumeric v = Nat.leb (String.length v) 90.
Proof.
  unfold isAlphaNumeric.
  destruct (Nat.leb (String.length v) 90) eqn:E.
  - apply Nat.leb_le in E. apply forallb_forall. intros i Hi.
    apply in_seq in Hi. apply keyPasses_below_90. lia.
  - apply Nat.leb_gt in E.
    destruct (forallb keyPasses (seq 0 (String.length v))) eqn:F; [| reflexivity].
    rewrite forallb_forall in F.
    rewrite <- keyPasses_90. symmetry. apply F. apply in_seq. lia.
Qed.

(** C4. The code at the failing input: the label [X_1] contains an
    underscore, yet [isAlphaNumeric] accepts it, [preprocess] returns
    normally and the label is recorded. *)
Theorem underscore_label_accepted :
  isAlphaNumeric "X_1" = true
  /\ exists s,
       preprocess (newInterpreter underscoreProgram) = Done s
       /\ labels s = [mkLabel "X_1" 0 0].
Proof.
  split; [reflexivity |].
  eexists. split; [vm_compute; reflexivity | reflexivity].
Qed.

(** ** Storage declarations *)


Lemma digitsValue_nonneg (t : string) :
  JsString.allDigits t = true -> 0 <= JsString.digitsValue t.
Proof.
  unfold JsString.allDigits, JsString.digitsValue.
  assert (G : forall l acc, forallb JsString.isDigit l = true -> 0 <= acc ->
              0 <= fold_left (fun a c => 10 * a + (Z.of_nat (nat_of_ascii c) - 48))
                             l acc).
  { induction l as [| c l IH]; intros acc Hl Hacc; cbn [fold_left]; [exact Hacc |].
    cbn [forallb] in Hl. apply andb_true_iff in Hl. destruct Hl as [Hc Hl].
    apply IH; [exact Hl |].
    unfold JsString.isDigit in Hc. apply andb_true_iff in Hc.
    destruct Hc as [Hlo _]. apply Nat.leb_le in Hlo. lia. }
  intros H. apply G; [exact H | lia].
Qed.

Lemma unsignedValue_nonneg (t : string) (n : Z) :
  unsignedValue t = Ok n -> 0 <= n.
Proof.
  unfold unsignedValue. destruct (Nat.ltb 0 (String.length t)); [| discriminate].
  cbn [andb]. destruct (JsString.allDigits t) eqn:D; [| discriminate].
  destruct (JsString.digitsValue t <? maxSafe); [| discriminate].
  intros H. inversion H. subst. apply digitsValue_nonneg, D.
Qed.

Lemma unsignedValue_no_fail (t : string) (e : error) : unsignedValue t <> Fail e.
Proof.
  unfold unsignedValue.
  destruct (Nat.ltb 0 (String.length t) && JsString.allDigits t);
    [| discriminate].
  destruct (JsString.digitsValue t <? maxSafe); discriminate.
Qed.

Lemma nth_error_replaceAt {A : Type} (l : list A) (i : nat) (x : A) :
  (i < List.length l)%nat -> nth_error (replaceAt l i x) i = Some x.
Proof.
  revert i. induction l as [| h t IH]; intros i Hi; cbn [List.length] in Hi.
  - lia.
  - destruct i as [| j]; cbn [replaceAt nth_error]; [reflexivity |].
    apply IH. lia.
Qed.

Lemma length_replaceAt {A : Type} (l : list A) (i : nat) (x : A) :
  List.length (replaceAt l i x) = List.length l.
Proof.
  revert i. induction l as [| h t IH]; intros i; [reflexivity |].
  destruct i; cbn [replaceAt List.length]; [reflexivity |].
  f_equal. apply IH.
Qed.







(** Two counts out of range: a negative one, and 2^30, for which [4n] is
    2^32. *)
Example DS_count_out_of_range :
  (exists s, preprocess (newInterpreter "X DS -1*INTEGER") = Thrown RangeError s)
  /\ (exists s, preprocess (newInterpreter "X DS 1073741824*INTEGER")
                = Thrown RangeError s).
Proof. split; eexists; vm_compute; reflexivity. Qed.

(** ** Jump targets *)

Lemma sumByteSize_firstn_nonneg (stmts : list Statment) (k : nat) :
  nonNegativeFootprints stmts -> 0 <= sumByteSize (firstn k stmts).
Proof.
  intros H. revert k. induction H as [| st rest Hst Hrest IH]; intros k.
  - destruct k; cbn; lia.
  - destruct k as [| k]; cbn [firstn sumByteSize fold_right]; [lia |].
    specialize (IH k). unfold sumByteSize in IH. lia.
Qed.

Lemma sumByteSize_firstn_mono (stmts : list Statment) (i j : nat) :
  nonNegativeFootprints stmts -> (i <= j)%nat ->
  sumByteSize (firstn i stmts) <= sumByteSize (firstn j stmts).
Proof.
  intros H. revert i j. induction H as [| st rest Hst Hrest IH]; intros i j Hij.
  - rewrite !firstn_nil. lia.
  - destruct i as [| i]; destruct j as [| j]; try lia.
    + pose proof (sumByteSize_firstn_nonneg (st :: rest) (S j)
                    (Forall_cons st Hst Hrest)).
      cbn [firstn sumByteSize fold_right] in *. lia.
    + specialize (IH i j ltac:(lia)).
      cbn [firstn sumByteSize fold_right] in *. unfold sumByteSize in IH. lia.
Qed.

Lemma walk_spec (stmts : list Statment) :
  nonNegativeFootprints stmts ->
  forall (i0 : nat) (acc a : Z) (i : nat),
    getStatmentLineFrom stmts i0 acc a = Some i
    <-> exists k st, i = (i0 + k)%nat
                     /\ nth_error stmts k = Some st
                     /\ acc + sumByteSize (firstn k stmts) = a
                     /\ byteSize st <> 0.
Proof.
  intros H. induction H as [| st rest Hst Hrest IH]; intros i0 acc a i.
  - cbn [getStatmentLineFrom]. split; [discriminate |].
    intros (k & st & _ & Hk & _). destruct k; discriminate.
  - cbn [getStatmentLineFrom].
    destruct ((0 <? byteSize st) && (a =? acc)) eqn:T.
    + apply andb_true_iff in T. destruct T as [T1 T2].
      apply Z.ltb_lt in T1. apply Z.eqb_eq in T2. subst a. split.
      * intros E. inversion E. subst i. exists 0%nat, st.
        cbn. repeat split; try lia.
      * intros (k & st' & Hi & Hk & Hsum & Hnz).
        destruct k as [| k]; [f_equal; lia |].
        cbn [firstn sumByteSize fold_right] in Hsum.
        pose proof (sumByteSize_firstn_nonneg rest k Hrest) as Hpos.
        unfold sumByteSize in Hpos. lia.
    + destruct (a <? acc) eqn:L; [apply Z.ltb_lt in L | apply Z.ltb_ge in L].
      * split; [discriminate |].
        intros (k & st' & Hi & Hk & Hsum & Hnz).
        pose proof (sumByteSize_firstn_nonneg (st :: rest) k
                      (Forall_cons st Hst Hrest)) as Hpos.
        lia.
      * rewrite IH. split.
        -- intros (k & st' & Hi & Hk & Hsum & Hnz).
           exists (S k), st'. cbn [nth_error firstn sumByteSize fold_right].
           unfold sumByteSize in Hsum. repeat split; try assumption; lia.
        -- intros (k & st' & Hi & Hk & Hsum & Hnz).
           destruct k as [| k].
           ++ cbn in Hk, Hsum. inversion Hk. subst st'.
              apply andb_false_iff in T.
              destruct T as [T | T];
                [apply Z.ltb_ge in T | apply Z.eqb_neq in T]; lia.
           ++ exists k, st'. cbn [nth_error firstn sumByteSize fold_right] in Hk, Hsum.
              unfold sumByteSize. repeat split; try assumption; lia.
Qed.

(** C8, amended. When no statement has a negative footprint, for every
    jump-target address [a]: [getStatmentLine] returns [i] iff statement
    [i] starts exactly at [a] and has a non-zero footprint; when no
    statement does
    (in particular when [a] lies strictly before the accumulated address of
    a statement and nothing matched before it, or when the walk exhausts
    the statements), it throws the invalid-jump-target runtime error with
    the current line. *)
Theorem getStatmentLine_spec (s : Interpreter) (a : Z) :
  nonNegativeFootprints (statements s) ->
  (forall i, getStatmentLine s (Some a) = Ok i <-> isTarget (statements s) a i)
  /\ ((forall i, ~ isTarget (statements s) a i) ->
      getStatmentLine s (Some a)
      = Fail (RuntimeError (InvalidJumpTarget (currentLine s + 1) a)))
  /\ (forall i,
         (i < List.length (statements s))%nat ->
         a < addressOf (statements s) i ->
         (forall j, (j < i)%nat -> ~ isTarget (statements s) a j) ->
         getStatmentLine s (Some a)
         = Fail (RuntimeError (InvalidJumpTarget (currentLine s + 1) a))).
Proof.
  intros Hnn.
  assert (Hiff : forall i, getStatmentLineFrom (statements s) 0 0 a = Some i
                           <-> isTarget (statements s) a i).
  { intros i. rewrite (walk_spec _ Hnn). unfold isTarget, addressOf. split.
    - intros (k & st & Hi & Hk & Hsum & Hnz). cbn in Hi. subst k.
      exists st. repeat split; try assumption; lia.
    - intros (st & Hk & Hsum & Hnz). exists i, st.
      repeat split; try assumption; lia. }
  assert (Hnone : (forall i, ~ isTarget (statements s) a i) ->
                  getStatmentLine s (Some a)
                  = Fail (RuntimeError (InvalidJumpTarget (currentLine s + 1) a))).
  { intros Hno. unfold getStatmentLine.
    destruct (getStatmentLineFrom (statements s) 0 0 a) as [i |] eqn:E;
      [| reflexivity].
    exfalso. apply (Hno i), Hiff. reflexivity. }
  split; [| split].
  - intros i. unfold getStatmentLine.
    destruct (getStatmentLineFrom (statements s) 0 0 a) as [i' |] eqn:E.
    + rewrite <- Hiff. split; intros H; inversion H; reflexivity.
    + split; [discriminate |]. intros H. apply Hiff in H. discriminate.
  - exact Hnone.
  - intros i Hi Ha Hbefore. apply Hnone. intros j Hj.
    destruct (Nat.lt_ge_cases j i) as [Hlt | Hge]; [exact (Hbefore j Hlt Hj) |].
    destruct Hj as (st & Hk & Hsum & Hnz). unfold addressOf in *.
    pose proof (sumByteSize_firstn_mono (statements s) i j Hnn Hge) as Hmono.
    lia.
Qed.

(** ** The execution counter *)

Ltac break_matches :=
  repeat match goal with
    | |- context [match ?x with _ => _ end] => destruct x eqn:?
    end.

Ltac close_done :=
  let H := fresh in
  intros H; first [discriminate H | inversion H; subst; reflexivity].

Lemma stepRR_executedLines s tokens instruction idx s' :
  stepRR s tokens instruction idx = Done s' ->
  executedLines s' = executedLines s.
Proof. unfold stepRR, attempt. break_matches; close_done. Qed.

Lemma stepRM_executedLines s tokens instruction idx s' :
  stepRM s tokens instruction idx = Done s' ->
  executedLines s' = executedLines s.
Proof. unfold stepRM, attempt. break_matches; close_done. Qed.

Lemma stepJ_executedLines s tokens instruction idx j :
  stepJ s tokens instruction idx = Done j ->
  executedLines (snd j) = executedLines s.
Proof. unfold stepJ, attempt. break_matches; close_done. Qed.

Lemma fallThrough_executedLines s s' :
  fallThrough s = Done s' -> executedLines s' = executedLines s.
Proof. unfold fallThrough. break_matches; close_done. Qed.

(** A call of [interpretNextLine] that returns has counted one step. *)
Lemma interpretNextLine_executedLines s s' :
  interpretNextLine s = Done s' ->
  executedLines s' = S (executedLines s).
Proof.
  unfold interpretNextLine.
  set (s1 := withExecutedLines s (executedLines s + 1)%nat).
  assert (H1 : executedLines s1 = S (executedLines s)) by (cbn; lia).
  destruct (isAtEnd s1); [intros H; inversion H; subst; exact H1 |].
  destruct (nth_error (statements s1) (currentLine s1)) as [stmt |];
    [| discriminate].
  destruct (Nat.eqb _ 0); [intros H; inversion H; subst; exact H1 |].
  destruct (includes keywords _); [| discriminate].
  destruct (stepRR s1 _ _ _) as [s2 | |] eqn:E2; try discriminate.
  cbn [andThen].
  destruct (stepRM s2 _ _ _) as [s3 | |] eqn:E3; try discriminate.
  cbn [andThen].
  destruct (stepJ s3 _ _ _) as [j | |] eqn:E4; try discriminate.
  cbn [andThen].
  apply stepRR_executedLines in E2. apply stepRM_executedLines in E3.
  apply stepJ_executedLines in E4.
  destruct (fst j).
  - intros H. inversion H. subst. congruence.
  - intros H. apply fallThrough_executedLines in H. congruence.
Qed.

(** Past the last statement a step only counts. *)
Lemma interpretNextLine_atEnd s :
  isAtEnd s = true ->
  interpretNextLine s = Done (withExecutedLines s (executedLines s + 1)%nat).
Proof.
  intros H. unfold interpretNextLine.
  change (isAtEnd (withExecutedLines s (executedLines s + 1)%nat)) with (isAtEnd s).
  rewrite H. reflexivity.
Qed.

Lemma steps_atEnd (n : nat) : forall s s',
  isAtEnd s = true -> steps n s = Done s' -> isAtEnd s' = true.
Proof.
  induction n as [| n IH]; intros s s' Hend Hsteps; cbn [steps] in Hsteps.
  - inversion Hsteps. subst. exact Hend.
  - rewrite (interpretNextLine_atEnd s Hend) in Hsteps. cbn [andThen] in Hsteps.
    apply (IH (withExecutedLines s (executedLines s + 1)%nat) s' Hend Hsteps).
Qed.

Lemma steps_add (k m : nat) : forall s,
  steps (k + m) s = (sk <== steps k s ;; steps m sk).
Proof.
  induction k as [| k IH]; intros s; cbn [steps Nat.add andThen]; [reflexivity |].
  destruct (interpretNextLine s) as [s1 | |]; cbn [andThen];
    [apply IH | reflexivity | reflexivity].
Qed.

(** If the state after [n] steps is not at the end, no earlier one was. *)
Lemma steps_notAtEnd_before (n k : nat) (s sn sk : Interpreter) :
  steps n s = Done sn -> isAtEnd sn = false ->
  (k <= n)%nat -> steps k s = Done sk -> isAtEnd sk = false.
Proof.
  intros Hn Hend Hk Hsk.
  destruct (isAtEnd sk) eqn:E; [| reflexivity].
  replace n with (k + (n - k))%nat in Hn by lia.
  rewrite steps_add, Hsk in Hn. cbn [andThen] in Hn.
  rewrite (steps_atEnd _ _ _ E Hn) in Hend. discriminate.
Qed.

(** The loop of [interpret] performs the steps of [steps] as long as no
    state before the last is at the end and the ceiling is not reached. *)
Lemma interpretLoop_steps (n : nat) : forall (m : nat) (s s' : Interpreter),
  steps n s = Done s' ->
  (forall k sk, (k < n)%nat -> steps k s = Done sk -> isAtEnd sk = false) ->
  (executedLines s + n <= MAX_LINES)%nat ->
  interpretLoop (n + m) s = interpretLoop m s'.
Proof.
  induction n as [| n IH]; intros m s s' Hsteps Hmid Hle.
  - cbn in Hsteps. inversion Hsteps. reflexivity.
  - cbn [steps] in Hsteps. cbn [Nat.add interpretLoop].
    rewrite (Hmid 0%nat s ltac:(lia) eq_refl). cbn [negb andb].
    rewrite (proj2 (Nat.ltb_lt (executedLines s) MAX_LINES)) by lia.
    destruct (interpretNextLine s) as [s1 | |] eqn:E; try discriminate.
    cbn [andThen] in *. apply IH.
    + exact Hsteps.
    + intros k sk Hk Hsk. apply (Hmid (S k) sk ltac:(lia)).
      cbn [steps]. rewrite E. exact Hsk.
    + rewrite (interpretNextLine_executedLines _ _ E). lia.
Qed.

Lemma steps_executedLines (n : nat) : forall s s',
  steps n s = Done s' -> executedLines s' = (executedLines s + n)%nat.
Proof.
  induction n as [| n IH]; intros s s' H; cbn [steps] in H.
  - inversion H. lia.
  - destruct (interpretNextLine s) as [s1 | |] eqn:E; try discriminate.
    cbn [andThen] in H. rewrite (IH _ _ H).
    rewrite (interpretNextLine_executedLines _ _ E). lia.
Qed.

(** ** The step ceiling *)

(** C10. If the program is not yet at the end after [n] steps, the next
    step reaches the end, and that step is the one that brings the
    execution counter to [MAX_LINES] (1000), then [interpret] throws the
    step-ceiling runtime error, in the state of that last step, instead of
    returning normally. *)
Theorem interpret_ceiling_at_completion
  (s s0 s' sN : Interpreter) (n : nat) :
  preprocess s = Done s0 ->
  steps n s0 = Done s' ->
  isAtEnd s' = false ->
  interpretNextLine s' = Done sN ->
  isAtEnd sN = true ->
  executedLines sN = MAX_LINES ->
  interpret s = Thrown (RuntimeError ExecutionLimit) sN.
Proof.
  intros Hpre Hsteps Hnot Hlast Hend Hcount.
  assert (HstepsN : steps (n + 1) s0 = Done sN).
  { rewrite steps_add, Hsteps. cbn [andThen steps]. rewrite Hlast. reflexivity. }
  pose proof (steps_executedLines _ _ _ HstepsN) as Hexec.
  assert (Hfuel : (MAX_LINES - executedLines s0 = n + 1 + 0)%nat) by lia.
  unfold interpret. rewrite Hpre. cbn [andThen]. rewrite Hfuel.
  rewrite (interpretLoop_steps (n + 1) 0 s0 sN HstepsN).
  - cbn [interpretLoop andThen]. rewrite Hcount, Nat.leb_refl. reflexivity.
  - intros k sk Hk Hsk.
    apply (steps_notAtEnd_before n k s0 s' sk Hsteps Hnot ltac:(lia) Hsk).
  - lia.
Qed.

Lemma interpret_ceiling_at_completion_witness :
  exists sN,
    interpret (newInterpreter emptyLinesProgram)
    = Thrown (RuntimeError ExecutionLimit) sN
    /\ isAtEnd sN = true
    /\ executedLines sN = 1000%nat.
Proof.
  eexists. split.
  - eapply (interpret_ceiling_at_completion _ _ _ _ 999).
    + vm_compute. reflexivity.
    + vm_compute. reflexivity.
    + vm_compute. reflexivity.
    + vm_compute. reflexivity.
    + vm_compute. reflexivity.
    + vm_compute. reflexivity.
  - split; vm_compute; reflexivity.
Defined.

(** ** What [preprocess] leaves untouched *)

Lemma layout_executedLines s instruction args s' :
  layout s instruction args = Done s' ->
  executedLines s' = executedLines s.
Proof. unfold layout, attempt, bind. break_matches; close_done. Qed.

Lemma addLabel_executedLines s tokens s' :
  addLabel s tokens = Done s' -> executedLines s' = executedLines s.
Proof. unfold addLabel. break_matches; close_done. Qed.

Lemma preprocessLine_executedLines d s r :
  preprocessLine d s = Done r ->
  executedLines (snd r) = executedLines s.
Proof.
  unfold preprocessLine.
  destruct (nth_error (statements s) (currentLine s)) as [stmt |];
    [| discriminate].
  destruct (Nat.eqb _ 0); [intros H; inversion H; reflexivity |].
  destruct (addLabel s _) as [s1 | |] eqn:E1; try discriminate.
  cbn [andThen].
  destruct (negb (includes keywords _)); [discriminate |].
  destruct (tokenAt _ _) as [operand |]; [| discriminate].
  destruct (checkDataSection s1 d _ _) as [d' | |]; try discriminate.
  cbn [andThen].
  destruct (layout s1 _ _) as [s2 | |] eqn:E2; try discriminate.
  cbn [andThen]. intros H. inversion H. subst. cbn.
  rewrite (layout_executedLines _ _ _ _ E2).
  apply (addLabel_executedLines _ _ _ E1).
Qed.

Lemma preprocessLoop_executedLines (fuel : nat) : forall d s s',
  preprocessLoop fuel d s = Done s' ->
  executedLines s' = executedLines s.
Proof.
  induction fuel as [| fuel IH]; intros d s s' H; cbn [preprocessLoop] in H.
  - inversion H. reflexivity.
  - destruct (isAtEnd s); [inversion H; reflexivity |].
    destruct (preprocessLine d s) as [r | |] eqn:E; try discriminate.
    cbn [andThen] in H. rewrite (IH _ _ _ H).
    apply (preprocessLine_executedLines _ _ _ E).
Qed.

(** [preprocess] rewinds the position and does not touch the counter. *)
Lemma preprocess_position s s' :
  preprocess s = Done s' ->
  currentLine s' = 0%nat /\ currentMemoryAddress s' = 0
  /\ executedLines s' = executedLines s.
Proof.
  unfold preprocess. intros H.
  destruct (preprocessLoop _ true s) as [s1 | |] eqn:E; try discriminate.
  cbn [andThen] in H. inversion H. subst. cbn.
  repeat split. apply (preprocessLoop_executedLines _ _ _ _ E).
Qed.

(** ** A jump to itself *)

Lemma getMemoryAddr_withExecutedLines s k a :
  getMemoryAddr (withExecutedLines s k) a = getMemoryAddr s a.
Proof. reflexivity. Qed.

Lemma self_jump_step (s0 : Interpreter) (st : Statment) (a : string) (k : nat) :
  statements s0 = [st] ->
  currentLine s0 = 0%nat ->
  currentMemoryAddress s0 = 0 ->
  0 < byteSize st ->
  jumpLine (splitStatment (removeComments (sval st))) a ->
  getMemoryAddr s0 a = Ok (Some 0) ->
  interpretNextLine (withExecutedLines s0 k)
  = Done (withExecutedLines s0 (k + 1)%nat).
Proof.
  intros Hst Hcl Hma Hsize Hjump Haddr.
  destruct s0 as [stmts regs ef bs lbs cl ex ma].
  cbn [statements currentLine currentMemoryAddress] in Hst, Hcl, Hma. subst.
  unfold interpretNextLine.
  cbn [withExecutedLines statements registers eflags bytes labels currentLine
       executedLines currentMemoryAddress isAtEnd List.length Nat.leb nth_error].
  remember (splitStatment (removeComments (sval st))) as tokens eqn:Htok.
  set (S1 := withExecutedLines (withExecutedLines _ k) (k + 1)%nat).
  assert (Ha : getMemoryAddr S1 a = Ok (Some 0)) by exact Haddr.
  assert (Hline : getStatmentLine S1 (Some 0) = Ok 0%nat).
  { unfold getStatmentLine, S1.
    cbn [withExecutedLines statements getStatmentLineFrom].
    rewrite (proj2 (Z.ltb_lt 0 (byteSize st)) Hsize). reflexivity. }
  assert (HRR : forall t i, stepRR S1 t "J" i = Done S1) by reflexivity.
  assert (HRM : forall t i, stepRM S1 t "J" i = Done S1) by reflexivity.
  clear Htok. destruct Hjump as [lbl a | a Hkw].
  - change (startsWithLabel [lbl; "J"; a]) with true.
    cbn [nth hd List.length Nat.eqb Nat.add].
    change (includes keywords "J") with true. cbv iota.
    rewrite HRR. cbn [andThen]. rewrite HRM. cbn [andThen].
    unfold stepJ. change (startsWithJ "J") with true.
    change (arityIsNot [lbl; "J"; a] 2 1) with false.
    cbn [tokenAt nth_error]. rewrite Ha. cbn [attempt]. rewrite Hline.
    cbn [attempt]. reflexivity.
  - assert (Hl : startsWithLabel ["J"; a] = false).
    { unfold startsWithLabel. cbn [List.length tokenAt nth_error].
      rewrite Hkw. reflexivity. }
    rewrite Hl.
    cbn [nth hd List.length Nat.eqb Nat.add].
    change (includes keywords "J") with true. cbv iota.
    rewrite HRR. cbn [andThen]. rewrite HRM. cbn [andThen].
    unfold stepJ. change (startsWithJ "J") with true.
    change (arityIsNot ["J"; a] 1 1) with false.
    cbn [tokenAt nth_error]. rewrite Ha. cbn [attempt]. rewrite Hline.
    cbn [attempt]. reflexivity.
Qed.

Lemma self_jump_steps (s0 : Interpreter) (st : Statment) (a : string) :
  statements s0 = [st] ->
  currentLine s0 = 0%nat ->
  currentMemoryAddress s0 = 0 ->
  0 < byteSize st ->
  jumpLine (splitStatment (removeComments (sval st))) a ->
  getMemoryAddr s0 a = Ok (Some 0) ->
  forall n k,
    steps n (withExecutedLines s0 k) = Done (withExecutedLines s0 (k + n)%nat).
Proof.
  intros Hst Hcl Hma Hsize Hjump Haddr.
  induction n as [| n IH]; intros k; cbn [steps].
  - rewrite Nat.add_0_r. reflexivity.
  - rewrite (self_jump_step s0 st a k Hst Hcl Hma Hsize Hjump Haddr).
    cbn [andThen]. rewrite IH. f_equal. f_equal. lia.
Qed.

Lemma withExecutedLines_same (s : Interpreter) :
  withExecutedLines s (executedLines s) = s.
Proof. destruct s. reflexivity. Qed.

(** C2. For a program of one statement that is an unconditional jump to
    address 0, the address of that statement: each of the first 1000
    calls of [interpretNextLine] returns normally, the [k]-th leaving the
    execution counter at [k] and the position on the statement, and
    [interpret] throws the step-ceiling runtime error with the execution
    counter equal to 1000. *)
Theorem self_jump_hits_ceiling
  (code : string) (s0 : Interpreter) (st : Statment) (a : string) :
  preprocess (newInterpreter code) = Done s0 ->
  statements s0 = [st] ->
  0 < byteSize st ->
  jumpLine (splitStatment (removeComments (sval st))) a ->
  getMemoryAddr s0 a = Ok (Some 0) ->
  interpret (newInterpreter code)
  = Thrown (RuntimeError ExecutionLimit) (withExecutedLines s0 1000%nat)
  /\ executedLines (withExecutedLines s0 1000%nat) = 1000%nat
  /\ forall k, (k <= 1000)%nat ->
       steps k s0 = Done (withExecutedLines s0 k)
       /\ isAtEnd (withExecutedLines s0 k) = false.
Proof.
  intros Hpre Hst Hsize Hjump Haddr.
  destruct (preprocess_position _ _ Hpre) as (Hcl & Hma & Hex).
  change (executedLines (newInterpreter code)) with 0%nat in Hex.
  pose proof (self_jump_steps s0 st a Hst Hcl Hma Hsize Hjump Haddr) as Hsteps.
  assert (Hs0 : withExecutedLines s0 0%nat = s0)
    by (rewrite <- Hex at 1; apply withExecutedLines_same).
  assert (Hnot : forall k, isAtEnd (withExecutedLines s0 k) = false).
  { intros k. unfold isAtEnd. cbn [withExecutedLines statements currentLine].
    rewrite Hst, Hcl. reflexivity. }
  assert (Hk : forall k, steps k s0 = Done (withExecutedLines s0 k)).
  { intros k. rewrite <- Hs0 at 1. rewrite Hsteps. reflexivity. }
  split; [| split].
  - unfold interpret. rewrite Hpre. cbn [andThen]. rewrite Hex.
    change (MAX_LINES - 0)%nat with (1000 + 0)%nat.
    rewrite (interpretLoop_steps 1000 0 s0 (withExecutedLines s0 1000%nat) (Hk _)).
    + reflexivity.
    + intros k sk _ Hsk. rewrite Hk in Hsk. inversion Hsk. apply Hnot.
    + rewrite Hex. unfold MAX_LINES. lia.
  - reflexivity.
  - intros k _. split; [apply Hk | apply Hnot].
Qed.

Lemma self_jump_hits_ceiling_witness :
  exists s,
    interpret (newInterpreter selfJumpProgram)
    = Thrown (RuntimeError ExecutionLimit) s
    /\ executedLines s = 1000%nat.
Proof.
  eexists.
  refine (let H := self_jump_hits_ceiling selfJumpProgram _
                     (mkStatment "J 0" 4) "0" _ _ _ _ _ in
          conj (proj1 H) (proj1 (proj2 H))).
  - vm_compute. reflexivity.
  - reflexivity.
  - reflexivity.
  - exact (JumpPlain "0" eq_refl).
  - reflexivity.
Defined.

Example labelled_self_jump :
  exists s,
    interpret (newInterpreter labelledSelfJumpProgram)
    = Thrown (RuntimeError ExecutionLimit) s
    /\ executedLines s = 1000%nat /\ currentLine s = 0%nat.
Proof. eexists. split; [vm_compute; reflexivity | split; reflexivity]. Qed.

(** ** Division *)

(** C5, as stated, fails: with -7 in register 0 and the divisor 2, [DR]
    and [D] leave -4 in register 0; truncation toward zero gives -3. *)
Lemma DR_truncation_counterexample :
  (exists s,
      runSteps divideProgram 5 = Done s
      /\ regGet (registers s) 0 = Some (-4)
      /\ regGet (registers s) 0 <> Some (Z.quot (-7) 2))
  /\ (exists s,
         runSteps divideMemoryProgram 4 = Done s
         /\ regGet (registers s) 0 = Some (-4)
         /\ regGet (registers s) 0 <> Some (Z.quot (-7) 2)).
Proof.
  split; eexists; (split; [vm_compute; reflexivity |]);
    (split; [reflexivity | vm_compute; discriminate]).
Qed.

Lemma floor_div_isFloorQuotient (a b : Z) :
  b <> 0 -> isFloorQuotient a b (a / b).
Proof.
  intros Hb. pose proof (Z.div_mod a b Hb) as Hdm. split; intros Hs.
  - pose proof (Z.mod_pos_bound a b Hs). lia.
  - pose proof (Z.mod_neg_bound a b Hs). lia.
Qed.

Lemma floor_div_int32 (a b : Z) :
  isInt32 a -> b <> 0 -> ~ (a = - 2 ^ 31 /\ b = -1) -> isInt32 (a / b).
Proof.
  unfold isInt32. intros Ha Hb Hov.
  destruct (floor_div_isFloorQuotient a b Hb) as [Hpos Hneg].
  generalize dependent (a / b). intros q Hpos Hneg.
  destruct (Z_lt_le_dec 0 b) as [Hb1 | Hb1].
  - specialize (Hpos Hb1). clear Hneg. nia.
  - specialize (Hneg ltac:(lia)). clear Hpos. nia.
Qed.

Lemma regGet_regSet_same (regs : list Z) (r a : Z) (v : number) :
  regGet regs r = Some a ->
  regGet (regSet regs r v) r = Some (numToInt32 v).
Proof.
  unfold regGet, regSet. destruct ((0 <=? r) && (r <? 16)); [| discriminate].
  intros H. apply nth_error_replaceAt. apply nth_error_Some.
  rewrite H. discriminate.
Qed.

Lemma toNumber_not_keyword (t : string) (n : Z) :
  toNumber t = Ok n -> includes keywords t = false.
Proof.
  intros H. destruct (includes keywords t) eqn:E; [| reflexivity].
  unfold includes in E. apply existsb_exists in E.
  destruct E as (kw & Hin & Heq). apply String.eqb_eq in Heq. subst kw.
  cbn [keywords In] in Hin.
  repeat (destruct Hin as [Hin | Hin]; [subst t; discriminate H |]).
  destruct Hin.
Qed.

Section DivisionStep.
Variables (s : Interpreter) (stmt : Statment) (t1 t2 : string) (r1 a b : Z).
Hypothesis Hnot : isAtEnd s = false.
Hypothesis Hnth : nth_error (statements s) (currentLine s) = Some stmt.
Hypothesis Hr1 : toNumber t1 = Ok r1.
Hypothesis Ha : regGet (registers s) r1 = Some a.

Lemma plain_line_has_no_label (m : string) :
  startsWithLabel [m; t1; ","; t2] = false.
Proof.
  unfold startsWithLabel. cbn [List.length tokenAt nth_error].
  rewrite (toNumber_not_keyword t1 r1 Hr1). reflexivity.
Qed.

Lemma step_DR (r2 : Z) :
  operandLine "DR" (splitStatment (removeComments (sval stmt))) t1 t2 ->
  toNumber t2 = Ok r2 ->
  regGet (registers s) r2 = Some b ->
  interpretNextLine s = Done (divided s stmt r1 a b).
Proof.
  intros Hline Hr2 Hregb. unfold interpretNextLine. fold (counted s).
  change (isAtEnd (counted s)) with (isAtEnd s). rewrite Hnot.
  change (nth_error (statements (counted s)) (currentLine (counted s)))
    with (nth_error (statements s) (currentLine s)).
  rewrite Hnth.
  assert (HRM : forall x t i, stepRM x t "DR" i = Done x) by reflexivity.
  assert (HJ : forall x t i, stepJ x t "DR" i = Done (false, x)) by reflexivity.
  assert (Hfall : forall x, statements x = statements s ->
                            currentLine x = currentLine s ->
                            fallThrough x
                            = Done (withCurrentLine
                                      (withCurrentMemoryAddress x
                                         (currentMemoryAddress x + byteSize stmt))
                                      (currentLine x + 1)%nat)).
  { intros x Hx1 Hx2. unfold fallThrough.
    assert (E : nth_error (statements x) (currentLine x) = Some stmt)
      by (rewrite Hx1, Hx2; exact Hnth).
    rewrite E. reflexivity. }
  assert (HRR : forall tokens i,
             arityIsNot tokens i 3 = false ->
             tokenAt tokens i = Some t1 ->
             tokenAt tokens (i + 1) = Some "," ->
             tokenAt tokens (i + 2) = Some t2 ->
             stepRR (counted s) tokens "DR" i
             = Done (writeBack (counted s) r1 (numFloorDiv (Some a) (Some b)))).
  { intros tokens i Har H1 H2 H3. unfold stepRR.
    change (isInstructionRR "DR") with true. cbv iota.
    unfold tokenNumber, isNotComma. rewrite Har, H1, H2, H3, Hr1, Hr2.
    cbn [attempt]. change (negb (String.eqb "," ",")) with false. cbv iota.
    change (registers (counted s)) with (registers s).
    rewrite Ha, Hregb. reflexivity. }
  inversion Hline as [lbl x1 x2 Htok | x1 x2 Htok]; subst x1 x2.
  - change (startsWithLabel [lbl; "DR"; t1; ","; t2]) with true.
    cbn [nth hd List.length Nat.eqb Nat.add].
    change (includes keywords "DR") with true. cbv iota.
    rewrite HRR by reflexivity. cbn [andThen].
    rewrite HRM. cbn [andThen]. rewrite HJ. cbn [andThen fst snd].
    apply Hfall; reflexivity.
  - rewrite plain_line_has_no_label.
    cbn [nth hd List.length Nat.eqb Nat.add].
    change (includes keywords "DR") with true. cbv iota.
    rewrite HRR by reflexivity. cbn [andThen].
    rewrite HRM. cbn [andThen]. rewrite HJ. cbn [andThen fst snd].
    apply Hfall; reflexivity.
Qed.

Lemma step_D (addr : number) :
  operandLine "D" (splitStatment (removeComments (sval stmt))) t1 t2 ->
  getMemoryAddr s t2 = Ok addr ->
  getNumberFromMemory s addr = Ok b ->
  interpretNextLine s = Done (divided s stmt r1 a b).
Proof.
  intros Hline Haddr Hmem. unfold interpretNextLine. fold (counted s).
  change (isAtEnd (counted s)) with (isAtEnd s). rewrite Hnot.
  change (nth_error (statements (counted s)) (currentLine (counted s)))
    with (nth_error (statements s) (currentLine s)).
  rewrite Hnth.
  assert (HRR : forall x t i, stepRR x t "D" i = Done x) by reflexivity.
  assert (HJ : forall x t i, stepJ x t "D" i = Done (false, x)) by reflexivity.
  assert (Hfall : forall x, statements x = statements s ->
                            currentLine x = currentLine s ->
                            fallThrough x
                            = Done (withCurrentLine
                                      (withCurrentMemoryAddress x
                                         (currentMemoryAddress x + byteSize stmt))
                                      (currentLine x + 1)%nat)).
  { intros x Hx1 Hx2. unfold fallThrough.
    assert (E : nth_error (statements x) (currentLine x) = Some stmt)
      by (rewrite Hx1, Hx2; exact Hnth).
    rewrite E. reflexivity. }
  assert (HRM : forall tokens i,
             arityIsNot tokens i 3 = false ->
             tokenAt tokens i = Some t1 ->
             tokenAt tokens (i + 1) = Some "," ->
             tokenAt tokens (i + 2) = Some t2 ->
             stepRM (counted s) tokens "D" i
             = Done (writeBack (counted s) r1 (numFloorDiv (Some a) (Some b)))).
  { intros tokens i Har H1 H2 H3. unfold stepRM.
    change (isInstructionRM "D") with true. cbv iota.
    unfold tokenNumber, isNotComma. rewrite Har, H1, H2, H3, Hr1.
    cbn [attempt]. change (negb (String.eqb "," ",")) with false. cbv iota.
    change (getMemoryAddr (counted s) t2) with (getMemoryAddr s t2).
    rewrite Haddr. cbn [attempt].
    change (String.eqb "D" "A") with false.
    change (String.eqb "D" "S") with false.
    change (String.eqb "D" "M") with false.
    change (String.eqb "D" "D") with true. cbv iota.
    change (getNumberFromMemory (counted s) addr) with (getNumberFromMemory s addr).
    rewrite Hmem. cbn [attempt].
    change (registers (counted s)) with (registers s).
    rewrite Ha. reflexivity. }
  inversion Hline as [lbl x1 x2 Htok | x1 x2 Htok]; subst x1 x2.
  - change (startsWithLabel [lbl; "D"; t1; ","; t2]) with true.
    cbn [nth hd List.length Nat.eqb Nat.add].
    change (includes keywords "D") with true. cbv iota.
    rewrite HRR. cbn [andThen].
    rewrite HRM by reflexivity. cbn [andThen]. rewrite HJ. cbn [andThen fst snd].
    apply Hfall; reflexivity.
  - rewrite plain_line_has_no_label.
    cbn [nth hd List.length Nat.eqb Nat.add].
    change (includes keywords "D") with true. cbv iota.
    rewrite HRR. cbn [andThen].
    rewrite HRM by reflexivity. cbn [andThen]. rewrite HJ. cbn [andThen fst snd].
    apply Hfall; reflexivity.
Qed.

Lemma divided_register :
  regGet (registers (divided s stmt r1 a b)) r1 = Some (quotientWritten a b)
  /\ eflags (divided s stmt r1 a b) = updateEflags (Some (quotientWritten a b)).
Proof.
  assert (H : regGet (regSet (registers s) r1 (numFloorDiv (Some a) (Some b))) r1
              = Some (quotientWritten a b))
    by exact (regGet_regSet_same (registers s) r1 a _ Ha).
  unfold divided, writeBack, counted.
  cbn [withCurrentLine withCurrentMemoryAddress withEflags withRegisters
       withExecutedLines registers eflags].
  rewrite H. split; reflexivity.
Qed.

End DivisionStep.

Lemma quotientWritten_floor (a b : Z) :
  (b <> 0 ->
   exists q, isFloorQuotient a b q
             /\ quotientWritten a b = toInt32 q
             /\ (isInt32 a -> ~ (a = - 2 ^ 31 /\ b = -1) ->
                 quotientWritten a b = q))
  /\ (b = 0 -> quotientWritten a b = 0).
Proof.
  unfold quotientWritten, numFloorDiv. split.
  - intros Hb. rewrite (proj2 (Z.eqb_neq b 0) Hb). exists (a / b).
    split; [apply floor_div_isFloorQuotient, Hb |].
    split; [reflexivity |].
    intros Ha Hov. apply toInt32_id. apply floor_div_int32; assumption.
  - intros Hb. subst b. reflexivity.
Qed.

(** C5, amended. [DR r1, r2] and [D r1, addr] write to [r1] the floor of
    the true quotient of the register by the divisor (the value of [r2],
    or the memory word), not its truncation toward zero: a [q] with
    [q <= a/b < q+1], reduced by [ToInt32], which changes it only for
    [-2^31 / -1]; a divisor 0 writes 0.  The flags are recomputed from the
    value written. *)
Theorem DR_D_floor_quotient
  (s : Interpreter) (stmt : Statment) (t1 t2 : string) (r1 a b : Z) :
  isAtEnd s = false ->
  nth_error (statements s) (currentLine s) = Some stmt ->
  toNumber t1 = Ok r1 ->
  regGet (registers s) r1 = Some a ->
  ((b <> 0 ->
    exists q, isFloorQuotient a b q
              /\ quotientWritten a b = toInt32 q
              /\ (isInt32 a -> ~ (a = - 2 ^ 31 /\ b = -1) ->
                  quotientWritten a b = q))
   /\ (b = 0 -> quotientWritten a b = 0))
  /\ (forall r2,
         operandLine "DR" (splitStatment (removeComments (sval stmt))) t1 t2 ->
         toNumber t2 = Ok r2 ->
         regGet (registers s) r2 = Some b ->
         exists s',
           interpretNextLine s = Done s'
           /\ regGet (registers s') r1 = Some (quotientWritten a b)
           /\ eflags s' = updateEflags (Some (quotientWritten a b)))
  /\ (forall addr,
         operandLine "D" (splitStatment (removeComments (sval stmt))) t1 t2 ->
         getMemoryAddr s t2 = Ok addr ->
         getNumberFromMemory s addr = Ok b ->
         exists s',
           interpretNextLine s = Done s'
           /\ regGet (registers s') r1 = Some (quotientWritten a b)
           /\ eflags s' = updateEflags (Some (quotientWritten a b))).
Proof.
  intros Hnot Hnth Hr1 Ha.
  split; [apply quotientWritten_floor | split].
  - intros r2 Hline Hr2 Hregb. eexists. split.
    + exact (step_DR s stmt t1 t2 r1 a b Hnot Hnth Hr1 Ha r2 Hline Hr2 Hregb).
    + exact (divided_register s stmt r1 a b Ha).
  - intros addr Hline Haddr Hmem. eexists. split.
    + exact (step_D s stmt t1 t2 r1 a b Hnot Hnth Hr1 Ha addr Hline Haddr Hmem).
    + exact (divided_register s stmt r1 a b Ha).
Qed.

Lemma DR_D_floor_quotient_witness :
  exists s',
    interpretNextLine beforeDivision = Done s'
    /\ regGet (registers s') 0 = Some (-4).
Proof.
  destruct (proj1 (proj2 (DR_D_floor_quotient beforeDivision
                            (mkStatment "DR 0, 1" 2) "0" "1" 0 (-7) 2
                            eq_refl eq_refl eq_refl eq_refl))
              1 (OperandPlain "DR" "0" "1") eq_refl eq_refl)
    as (s' & H1 & H2 & _).
  exists s'. split; [exact H1 | exact H2].
Defined.

(** ** What the layout of a line keeps *)

Lemma replaceAt_Forall {A : Type} (P : A -> Prop) (l : list A) (i : nat) (x : A) :
  Forall P l -> P x -> Forall P (replaceAt l i x).
Proof.
  intros Hl Hx. revert i. induction Hl as [| h t Hh Ht IH]; intros i.
  - constructor.
  - destruct i; cbn [replaceAt]; constructor; auto.
Qed.

Lemma layout_grows s instruction args s' :
  layout s instruction args = Done s' ->
  statements s' = statements s /\ currentLine s' = currentLine s.
Proof.
  unfold layout, attempt. destruct (String.eqb instruction "DC").
  - destruct args as [| a0 [| a1 [| a2 r]]].
    + intros H. inversion H. split; reflexivity.
    + destruct (getNumberInParen a0); try discriminate.
      intros H. inversion H. split; reflexivity.
    + destruct (toNumber a0) as [n | |]; try discriminate.
      destruct (getNumberInParen a1); try discriminate.
      intros H. inversion H. split; reflexivity.
    + intros H. inversion H. split; reflexivity.
  - destruct (String.eqb instruction "DS").
    + destruct (match args with [a0; _] => _ | _ => _ end) as [n | |];
        try discriminate.
      destruct (newArrayFill n (mkByte 0 DATA)); try discriminate.
      intros H. inversion H. split; reflexivity.
    + destruct (newArrayFill _ _); try discriminate.
      intros H. inversion H. split; reflexivity.
Qed.

Lemma addLabel_statements s tokens s' :
  addLabel s tokens = Done s' ->
  statements s' = statements s /\ currentLine s' = currentLine s
  /\ currentMemoryAddress s' = currentMemoryAddress s.
Proof.
  unfold addLabel. break_matches; intros H; try discriminate H;
    inversion H; subst; repeat split.
Qed.

(** C8, as stated, fails where a footprint is negative: the layout of
    [negativeCountProgram] gives line 0 the footprint -4 and line 1 the
    footprint 4, so line 1 starts exactly at -4 and has a non-zero
    footprint, and line 0 starts exactly at 0 and has a non-zero
    footprint; [getStatmentLine] refuses both addresses. *)
Lemma negative_footprint_counterexample :
  exists s,
    preprocess (newInterpreter negativeCountProgram) = Done s
    /\ map byteSize (statements s) = [-4; 4]
    /\ isTarget (statements s) (-4) 1
    /\ getStatmentLine s (Some (-4))
       = Fail (RuntimeError (InvalidJumpTarget 1 (-4)))
    /\ isTarget (statements s) 0 0
    /\ getStatmentLine s (Some 0)
       = Fail (RuntimeError (InvalidJumpTarget 1 0))
    /\ ~ (forall a i, getStatmentLine s (Some a) = Ok i
                      <-> isTarget (statements s) a i).
Proof.
  eexists. split; [vm_compute; reflexivity |].
  assert (T1 : isTarget [mkStatment "X DC -1*INTEGER(5)" (-4);
                         mkStatment "Y DC INTEGER(1)" 4] (-4) 1).
  { eexists. split; [reflexivity |]. split; [reflexivity | discriminate]. }
  assert (T0 : isTarget [mkStatment "X DC -1*INTEGER(5)" (-4);
                         mkStatment "Y DC INTEGER(1)" 4] 0 0).
  { eexists. split; [reflexivity |]. split; [reflexivity | discriminate]. }
  split; [reflexivity |]. split; [exact T1 |]. split; [reflexivity |].
  split; [exact T0 |]. split; [reflexivity |].
  intros H. apply (H (-4) 1%nat) in T1. discriminate T1.
Qed.

Lemma getStatmentLine_spec_witness :
  getStatmentLine scenarioState (Some 4) = Ok 1%nat
  /\ getStatmentLine scenarioState (Some 2)
     = Fail (RuntimeError (InvalidJumpTarget 1 2)).
Proof.
  assert (Hnn : nonNegativeFootprints (statements scenarioState)).
  { unfold nonNegativeFootprints.
    let l := eval vm_compute in (statements scenarioState) in
    change (statements scenarioState) with l.
    repeat (apply Forall_cons; [cbn; lia |]). apply Forall_nil. }
  destruct (getStatmentLine_spec scenarioState 4 Hnn) as (Hiff & _ & _).
  destruct (getStatmentLine_spec scenarioState 2 Hnn) as (_ & _ & Hbefore).
  split.
  - apply Hiff. exists (mkStatment "A 0, ONE" 4).
    repeat split; [vm_compute; discriminate].
  - apply (Hbefore 1%nat).
    + vm_compute. lia.
    + vm_compute. reflexivity.
    + intros j Hj (st & Hst & Haddr & _).
      assert (j = 0%nat) by lia. subst j. vm_compute in Haddr. discriminate.
Defined.

(** ** The loops terminate within their fuel *)

Lemma preprocessLine_advances d s r :
  preprocessLine d s = Done r ->
  currentLine (snd r) = S (currentLine s)
  /\ List.length (statements (snd r)) = List.length (statements s).
Proof.
  unfold preprocessLine.
  destruct (nth_error (statements s) (currentLine s)) as [stmt |];
    [| discriminate].
  destruct (Nat.eqb _ 0); [intros H; inversion H; cbn; split; [lia | reflexivity] |].
  destruct (addLabel s _) as [s1 | |] eqn:E1; try discriminate.
  cbn [andThen].
  destruct (negb (includes keywords _)); [discriminate |].
  destruct (tokenAt _ _) as [operand |]; [| discriminate].
  destruct (checkDataSection s1 d _ _) as [d' | |]; try discriminate.
  cbn [andThen].
  destruct (layout s1 _ _) as [s2 | |] eqn:E2; try discriminate.
  cbn [andThen]. intros H. inversion H. subst. cbn.
  destruct (addLabel_statements _ _ _ E1) as (A1 & A2 & A3).
  destruct (layout_grows _ _ _ _ E2) as (L1 & L2).
  split; [lia |].
  unfold setByteSize.
  destruct (nth_error (statements s2) (currentLine s2));
    rewrite ?length_replaceAt; congruence.
Qed.

(** With as much fuel as there are lines left, the loop of [preprocess]
    stops because [isAtEnd] holds, not because the fuel ran out. *)
Lemma preprocessLoop_complete (fuel : nat) : forall d s s',
  (List.length (statements s) - currentLine s <= fuel)%nat ->
  preprocessLoop fuel d s = Done s' ->
  isAtEnd s' = true.
Proof.
  induction fuel as [| fuel IH]; intros d s s' Hfuel H; cbn [preprocessLoop] in H.
  - inversion H. subst. unfold isAtEnd. apply Nat.leb_le. lia.
  - destruct (isAtEnd s) eqn:Eend; [inversion H; subst; exact Eend |].
    destruct (preprocessLine d s) as [r | |] eqn:E; try discriminate.
    cbn [andThen] in H.
    destruct (preprocessLine_advances _ _ _ E) as (Hc & Hl).
    unfold isAtEnd in Eend. apply Nat.leb_gt in Eend.
    apply (IH (fst r) (snd r) s'); [lia | exact H].
Qed.

(** With [MAX_LINES - executedLines] as fuel, the loop of [interpret]
    stops because its condition is false. *)
Lemma interpretLoop_complete (fuel : nat) : forall s s',
  (MAX_LINES - executedLines s <= fuel)%nat ->
  interpretLoop fuel s = Done s' ->
  negb (isAtEnd s') && Nat.ltb (executedLines s') MAX_LINES = false.
Proof.
  induction fuel as [| fuel IH]; intros s s' Hfuel H; cbn [interpretLoop] in H.
  - inversion H. subst.
    rewrite (proj2 (Nat.ltb_ge (executedLines s') MAX_LINES)) by lia.
    apply andb_false_r.
  - destruct (negb (isAtEnd s) && Nat.ltb (executedLines s) MAX_LINES) eqn:C;
      [| inversion H; subst; exact C].
    destruct (interpretNextLine s) as [s1 | |] eqn:E; try discriminate.
    cbn [andThen] in H.
    pose proof (interpretNextLine_executedLines _ _ E) as Hex.
    apply (IH s1 s'); [lia | exact H].
Qed.

(** ** Flags after a step *)

Lemma stepRR_eflags s tokens instruction idx s' :
  stepRR s tokens instruction idx = Done s' ->
  eflags s' = eflags s \/ exists v, eflags s' = updateEflags v.
Proof.
  unfold stepRR, attempt, writeBack. break_matches; intros H;
    try discriminate H; inversion H; subst; cbn [eflags withEflags];
    solve [left; reflexivity | right; eexists; reflexivity].
Qed.

Lemma stepRM_eflags s tokens instruction idx s' :
  instruction <> "C" ->
  stepRM s tokens instruction idx = Done s' ->
  eflags s' = eflags s \/ exists v, eflags s' = updateEflags v.
Proof.
  intros Hc. unfold stepRM, attempt, writeBack. break_matches; intros H;
    try discriminate H; inversion H; subst; cbn [eflags withEflags];
    try solve [left; reflexivity | right; eexists; reflexivity].
  exfalso. apply Hc. apply String.eqb_eq. assumption.
Qed.

Lemma stepJ_eflags s tokens instruction idx j :
  stepJ s tokens instruction idx = Done j -> eflags (snd j) = eflags s.
Proof. unfold stepJ, attempt. break_matches; close_done. Qed.

Lemma fallThrough_eflags s s' :
  fallThrough s = Done s' -> eflags s' = eflags s.
Proof. unfold fallThrough. break_matches; close_done. Qed.

(** Every step that does not execute the instruction [C] either leaves
    the flags alone or leaves what [updateEflags] computed. *)
Lemma flags_outside_compare s s' :
  currentInstruction s <> Some "C" ->
  interpretNextLine s = Done s' ->
  eflags s' = eflags s \/ exists v, eflags s' = updateEflags v.
Proof.
  unfold currentInstruction, interpretNextLine.
  change (isAtEnd (withExecutedLines s (executedLines s + 1)%nat)) with (isAtEnd s).
  change (nth_error (statements (withExecutedLines s (executedLines s + 1)%nat))
            (currentLine (withExecutedLines s (executedLines s + 1)%nat)))
    with (nth_error (statements s) (currentLine s)).
  set (s1 := withExecutedLines s (executedLines s + 1)%nat).
  assert (H1 : eflags s1 = eflags s) by reflexivity.
  intros Hc.
  destruct (isAtEnd s); [intros H; inversion H; subst; left; exact H1 |].
  destruct (nth_error (statements s) (currentLine s)) as [stmt |];
    [| discriminate].
  destruct (Nat.eqb _ 0); [intros H; inversion H; subst; left; exact H1 |].
  assert (Hc' : (if startsWithLabel (splitStatment (removeComments (sval stmt)))
                 then nth 1 (splitStatment (removeComments (sval stmt))) ""
                 else hd "" (splitStatment (removeComments (sval stmt)))) <> "C")
    by (intros E; apply Hc; rewrite E; reflexivity).
  destruct (includes keywords _); [| discriminate].
  destruct (stepRR s1 _ _ _) as [s2 | |] eqn:E2; try discriminate.
  cbn [andThen].
  destruct (stepRM s2 _ _ _) as [s3 | |] eqn:E3; try discriminate.
  cbn [andThen].
  destruct (stepJ s3 _ _ _) as [j | |] eqn:E4; try discriminate.
  cbn [andThen].
  apply stepRR_eflags in E2. apply (stepRM_eflags _ _ _ _ _ Hc') in E3.
  apply stepJ_eflags in E4.
  assert (Hj : eflags (snd j) = eflags s \/ exists v, eflags (snd j) = updateEflags v).
  { rewrite E4. destruct E3 as [E3 | E3]; [| right; exact E3].
    rewrite E3. destruct E2 as [E2 | E2]; [| right; exact E2].
    left. congruence. }
  destruct (fst j).
  - intros H. inversion H. subst. exact Hj.
  - intros H. apply fallThrough_eflags in H. rewrite H. exact Hj.
Qed.

(** The flag law of [updateEflags], for every value it can receive. *)
Lemma updateEflags_law_number (v : number) :
  flagSet (updateEflags v) FLAGS.ZF
  = match v with Some z => z =? 0 | None => false end
  /\ flagSet (updateEflags v) FLAGS.SF
     = match v with Some z => z <? 0 | None => false end
  /\ (flagSet (updateEflags v) FLAGS.ZF
      && flagSet (updateEflags v) FLAGS.SF) = false.
Proof. destruct v as [[| p | p] |]; repeat split; reflexivity. Qed.

(** ** The register-memory compare *)

Section CompareStep.
Variables (s : Interpreter) (stmt : Statment) (t1 t2 : string) (r1 x m : Z).
Variable addr : number.
Hypothesis Hnot : isAtEnd s = false.
Hypothesis Hnth : nth_error (statements s) (currentLine s) = Some stmt.
Hypothesis Hline :
  operandLine "C" (splitStatment (removeComments (sval stmt))) t1 t2.
Hypothesis Hr1 : toNumber t1 = Ok r1.
Hypothesis Hx : regGet (registers s) r1 = Some x.
Hypothesis Haddr : getMemoryAddr s t2 = Ok addr.
Hypothesis Hmem : getNumberFromMemory s addr = Ok m.

Lemma step_C : interpretNextLine s = Done (compared s stmt x m).
Proof.
  unfold interpretNextLine. fold (counted s).
  change (isAtEnd (counted s)) with (isAtEnd s). rewrite Hnot.
  change (nth_error (statements (counted s)) (currentLine (counted s)))
    with (nth_error (statements s) (currentLine s)).
  rewrite Hnth.
  assert (HRR : forall y t i, stepRR y t "C" i = Done y) by reflexivity.
  assert (HJ : forall y t i, stepJ y t "C" i = Done (false, y)) by reflexivity.
  assert (Hfall : forall y, statements y = statements s ->
                            currentLine y = currentLine s ->
                            fallThrough y
                            = Done (withCurrentLine
                                      (withCurrentMemoryAddress y
                                         (currentMemoryAddress y + byteSize stmt))
                                      (currentLine y + 1)%nat)).
  { intros y Hy1 Hy2. unfold fallThrough.
    assert (E : nth_error (statements y) (currentLine y) = Some stmt)
      by (rewrite Hy1, Hy2; exact Hnth).
    rewrite E. reflexivity. }
  assert (HRM : forall tokens i,
             arityIsNot tokens i 3 = false ->
             tokenAt tokens i = Some t1 ->
             tokenAt tokens (i + 1) = Some "," ->
             tokenAt tokens (i + 2) = Some t2 ->
             stepRM (counted s) tokens "C" i
             = Done (withEflags (counted s)
                       (compareFlags (updateEflags (numSub (Some x) (Some m)))
                                     (Some x)))).
  { intros tokens i Har H1 H2 H3. unfold stepRM.
    change (isInstructionRM "C") with true. cbv iota.
    unfold tokenNumber, isNotComma. rewrite Har, H1, H2, H3, Hr1.
    cbn [attempt]. change (negb (String.eqb "," ",")) with false. cbv iota.
    change (getMemoryAddr (counted s) t2) with (getMemoryAddr s t2).
    rewrite Haddr. cbn [attempt].
    change (String.eqb "C" "A") with false.
    change (String.eqb "C" "S") with false.
    change (String.eqb "C" "M") with false.
    change (String.eqb "C" "D") with false.
    change (String.eqb "C" "C") with true. cbv iota.
    change (getNumberFromMemory (counted s) addr) with (getNumberFromMemory s addr).
    rewrite Hmem. cbn [attempt].
    change (registers (counted s)) with (registers s).
    rewrite Hx. reflexivity. }
  assert (Hplain : startsWithLabel ["C"; t1; ","; t2] = false).
  { unfold startsWithLabel. cbn [List.length tokenAt nth_error].
    rewrite (toNumber_not_keyword t1 r1 Hr1). reflexivity. }
  inversion Hline as [lbl y1 y2 Htok | y1 y2 Htok]; subst y1 y2.
  - change (startsWithLabel [lbl; "C"; t1; ","; t2]) with true.
    cbn [nth hd List.length Nat.eqb Nat.add].
    change (includes keywords "C") with true. cbv iota.
    rewrite HRR. cbn [andThen].
    rewrite HRM by reflexivity. cbn [andThen]. rewrite HJ. cbn [andThen fst snd].
    apply Hfall; reflexivity.
  - rewrite Hplain.
    cbn [nth hd List.length Nat.eqb Nat.add].
    change (includes keywords "C") with true. cbv iota.
    rewrite HRR. cbn [andThen].
    rewrite HRM by reflexivity. cbn [andThen]. rewrite HJ. cbn [andThen fst snd].
    apply Hfall; reflexivity.
Qed.

End CompareStep.

(** C1. The code at the failing input: [C 0, X] runs with 5 in register
    0 and the word 3 at [X]; afterwards Zero is set although the register
    is not 0 and Sign is set although it is not negative, so the flags are
    not those of the register's own value. *)
Theorem compare_flags_counterexample :
  exists s,
    runSteps compareProgram 4 = Done s
    /\ regGet (registers s) 0 = Some 5
    /\ getNumberFromMemory s (Some 0) = Ok 3
    /\ ~ (flagSet (eflags s) FLAGS.ZF = true <-> 5 = 0)
    /\ ~ (flagSet (eflags s) FLAGS.SF = true <-> 5 < 0)
    /\ eflags s <> updateEflags (regGet (registers s) 0).
Proof.
  eexists. split; [vm_compute; reflexivity |].
  split; [reflexivity |]. split; [reflexivity |].
  split; [| split].
  - intros [H _]. specialize (H eq_refl). discriminate H.
  - intros [H _]. specialize (H eq_refl). discriminate H.
  - vm_compute. discriminate.
Qed.

(** What a step [C r1, addr] leaves, for every register value [x] and
    every memory word [m]: no register and no memory byte is written; Zero
    is set iff [x = 0] or [x <> m], and Sign iff [x < 0] or [m <= x].  The
    bits of the register's own value are or-ed in, on top of the inverted
    bits of the subtraction. *)
Lemma compare_step_flags
  (s : Interpreter) (stmt : Statment) (t1 t2 : string) (r1 x m : Z)
  (addr : number) :
  isAtEnd s = false ->
  nth_error (statements s) (currentLine s) = Some stmt ->
  operandLine "C" (splitStatment (removeComments (sval stmt))) t1 t2 ->
  toNumber t1 = Ok r1 ->
  regGet (registers s) r1 = Some x ->
  getMemoryAddr s t2 = Ok addr ->
  getNumberFromMemory s addr = Ok m ->
  exists s',
    interpretNextLine s = Done s'
    /\ registers s' = registers s
    /\ bytes s' = bytes s
    /\ flagSet (eflags s') FLAGS.ZF = negb (x - m =? 0) || (x =? 0)
    /\ flagSet (eflags s') FLAGS.SF = negb (x - m <? 0) || (x <? 0).
Proof.
  intros Hnot Hnth Hline Hr1 Hx Haddr Hmem.
  exists (compared s stmt x m). split.
  - exact (step_C s stmt t1 t2 r1 x m addr Hnot Hnth Hline Hr1 Hx Haddr Hmem).
  - split; [reflexivity |]. split; [reflexivity |].
    unfold compared. cbn [eflags withCurrentLine withCurrentMemoryAddress withEflags].
    cbn [numSub]. apply compareFlags_value.
Qed.

(** * Further properties *)

(** ** Further properties of the layout pass *)

Lemma appendTimes_concat (n : nat) : forall bs nb,
  appendTimes n bs nb = (bs ++ List.concat (repeat nb n))%list.
Proof.
  induction n as [| n IH]; intros bs nb; cbn [appendTimes repeat List.concat].
  - rewrite app_nil_r. reflexivity.
  - rewrite IH, <- app_assoc. reflexivity.
Qed.

Lemma length_concat_repeat {A : Type} (l : list A) (n : nat) :
  List.length (List.concat (repeat l n)) = (n * List.length l)%nat.
Proof.
  induction n as [| n IH]; cbn [repeat List.concat]; [reflexivity |].
  rewrite length_app, IH. reflexivity.
Qed.

Lemma Forall_concat_repeat {A : Type} (P : A -> Prop) (l : list A) (n : nat) :
  Forall P l -> Forall P (List.concat (repeat l n)).
Proof.
  intros H. induction n as [| n IH]; cbn [repeat List.concat]; [constructor |].
  apply Forall_app. split; assumption.
Qed.

Lemma numberToBytes_octets (n : number) :
  Forall (fun b => isOctet b /\ type b = DATA) (numberToBytes n).
Proof.
  unfold numberToBytes.
  repeat (apply Forall_cons;
          [split; [unfold isOctet; cbn [val]; apply and255_range | reflexivity] |]).
  apply Forall_nil.
Qed.

Lemma numberToBytes_length (n : number) : List.length (numberToBytes n) = 4%nat.
Proof. reflexivity. Qed.

(** What the [switch] of [preprocess] does to the state: it appends bytes
    to the memory image, as many as the address advances (none when the
    address goes back, as it does on a negative repeat count), and touches
    nothing else; the bytes are octets, [DATA] for [DC] and [DS] and
    [INSTRUCTION] placeholders otherwise. *)
Lemma layout_appends s instruction args s' :
  layout s instruction args = Done s' ->
  sameFrame s s'
  /\ exists added,
       bytes s' = (bytes s ++ added)%list
       /\ Z.of_nat (List.length added)
          = Z.max 0 (currentMemoryAddress s' - currentMemoryAddress s)
       /\ Forall isOctet added
       /\ Forall (fun b => type b
                           = if String.eqb instruction "DC"
                                || String.eqb instruction "DS"
                             then DATA else INSTRUCTION) added.
Proof.
  unfold layout, attempt, sameFrame.
  destruct (String.eqb instruction "DC") eqn:EDC.
  - cbn [orb]. destruct args as [| a0 [| a1 [| a2 r]]].
    + intros H. inversion H. subst. repeat split.
      exists []. rewrite app_nil_r. cbn.
      split; [reflexivity | split; [lia | split; constructor]].
    + destruct (getNumberInParen a0) as [num | |]; try discriminate.
      intros H. inversion H. subst. cbn. repeat split.
      exists (numberToBytes num).
      split; [reflexivity | split; [cbn; lia | split]].
      * eapply Forall_impl; [| apply numberToBytes_octets]. intros b Hb. apply Hb.
      * eapply Forall_impl; [| apply numberToBytes_octets]. intros b Hb. apply Hb.
    + destruct (toNumber a0) as [n | |] eqn:E; try discriminate.
      destruct (getNumberInParen a1) as [num | |]; try discriminate.
      intros H. inversion H. subst. cbn.
      repeat split.
      exists (List.concat (repeat (map (fun b => mkByte (val b) DATA) (numberToBytes num))
                        (Z.to_nat (n * 4 / 4)))).
      rewrite appendTimes_concat. split; [reflexivity |].
      split; [| split].
      * rewrite length_concat_repeat, length_map, numberToBytes_length.
        rewrite Z.div_mul by lia. lia.
      * apply Forall_concat_repeat. apply Forall_map.
        eapply Forall_impl; [| apply numberToBytes_octets].
        intros b Hb. apply Hb.
      * apply Forall_concat_repeat. apply Forall_map.
        apply Forall_forall. intros b _. reflexivity.
    + intros H. inversion H. subst. repeat split.
      exists []. rewrite app_nil_r. cbn.
      split; [reflexivity | split; [lia | split; constructor]].
  - cbn [orb]. destruct (String.eqb instruction "DS") eqn:EDS.
    + destruct (match args with [a0; _] => _ | _ => _ end) as [n | |];
        try discriminate.
      unfold newArrayFill.
      destruct ((n <? 0) || (2 ^ 32 - 1 <? n)) eqn:Ec; [discriminate |].
      apply orb_false_iff in Ec. destruct Ec as [Ec _]. apply Z.ltb_ge in Ec.
      intros H. inversion H. subst. cbn. repeat split.
      exists (repeat (mkByte 0 DATA) (Z.to_nat n)).
      split; [reflexivity | split; [| split]].
      * rewrite repeat_length. lia.
      * apply Forall_forall. intros b Hb. apply repeat_spec in Hb. subst b.
        unfold isOctet. cbn. lia.
      * apply Forall_forall. intros b Hb. apply repeat_spec in Hb. subst b.
        reflexivity.
    + unfold getSizeOfInstruction, newArrayFill.
      destruct (isInstructionRR instruction); cbn;
        intros H; inversion H; subst; cbn; repeat split;
        eexists; (split; [reflexivity |]); cbn;
        (split; [lia |]); split;
        repeat (apply Forall_cons; [first [reflexivity | unfold isOctet; cbn; lia] |]);
        apply Forall_nil.
Qed.

(** What a returning iteration of the loop of [preprocess] went
    through. *)
Lemma preprocessLine_inv d s r :
  preprocessLine d s = Done r ->
  exists stmt,
    nth_error (statements s) (currentLine s) = Some stmt
    /\ let tokens := splitStatment (removeComments (sval stmt)) in
       (tokens = []
        /\ r = (d, withCurrentLine s (currentLine s + 1)%nat))
       \/ (tokens <> []
           /\ exists s1 s2 operand,
               let instruction :=
                 if startsWithLabel tokens then nth 1 tokens "" else hd "" tokens in
               addLabel s tokens = Done s1
               /\ includes keywords instruction = true
               /\ tokenAt tokens (if startsWithLabel tokens then 2 else 1)%nat
                  = Some operand
               /\ checkDataSection s1 d instruction (hd "" tokens) = Done (fst r)
               /\ layout s1 instruction (JsString.split "*"%char operand) = Done s2
               /\ snd r
                  = withCurrentLine
                      (withStatements s2
                         (setByteSize (statements s2) (currentLine s2)
                            (currentMemoryAddress s2 - currentMemoryAddress s)))
                      (currentLine s2 + 1)%nat).
Proof.
  unfold preprocessLine.
  destruct (nth_error (statements s) (currentLine s)) as [stmt |];
    [| discriminate].
  intros H. exists stmt. split; [reflexivity |]. cbv zeta.
  destruct (splitStatment (removeComments (sval stmt))) as [| t0 ts] eqn:Etok.
  - left. cbn in H. inversion H. split; reflexivity.
  - right. split; [discriminate |].
    cbn [List.length Nat.eqb] in H.
    destruct (addLabel s (t0 :: ts)) as [s1 | |] eqn:E1; try discriminate.
    cbn [andThen] in H.
    destruct (includes keywords _) eqn:Ek; cbn [negb] in H; [| discriminate].
    destruct (tokenAt _ _) as [operand |] eqn:Eop; [| discriminate].
    destruct (checkDataSection s1 d _ _) as [d' | |] eqn:Ed; try discriminate.
    cbn [andThen] in H.
    destruct (layout s1 _ _) as [s2 | |] eqn:E2; try discriminate.
    cbn [andThen] in H. inversion H. subst r. cbn [fst snd].
    exists s1, s2, operand. repeat split; assumption.
Qed.

(** An invariant of the loop of [preprocess] holds when it returns. *)
Lemma preprocessLoop_invariant (I : bool -> Interpreter -> Prop) :
  (forall d s r, I d s -> isAtEnd s = false ->
                 preprocessLine d s = Done r -> I (fst r) (snd r)) ->
  forall fuel d s s',
    I d s -> preprocessLoop fuel d s = Done s' -> exists d', I d' s'.
Proof.
  intros Hstep. induction fuel as [| fuel IH]; intros d s s' HI H;
    cbn [preprocessLoop] in H.
  - inversion H. subst. exists d. exact HI.
  - destruct (isAtEnd s) eqn:Eend; [inversion H; subst; exists d; exact HI |].
    destruct (preprocessLine d s) as [r | |] eqn:E; try discriminate.
    cbn [andThen] in H. apply (IH _ _ _ (Hstep _ _ _ HI Eend E) H).
Qed.

Lemma addLabel_spec s tokens s1 :
  addLabel s tokens = Done s1 ->
  s1 = s
  \/ (startsWithLabel tokens = true
      /\ isLabelDefined s (hd "" tokens) = false
      /\ s1 = withLabels s
                (labels s ++ [mkLabel (hd "" tokens) (currentLine s)
                                (currentMemoryAddress s)])%list).
Proof.
  unfold addLabel. destruct (startsWithLabel tokens).
  - destruct (isLabelDefined s (hd "" tokens)); [discriminate |].
    destruct (negb (isAlphaNumeric (hd "" tokens))); [discriminate |].
    intros H. inversion H. right. repeat split.
  - intros H. inversion H. left. reflexivity.
Qed.

Lemma firstn_replaceAt {A : Type} (l : list A) (i n : nat) (x : A) :
  (n <= i)%nat -> firstn n (replaceAt l i x) = firstn n l.
Proof.
  revert i n. induction l as [| h t IH]; intros i n Hn; [reflexivity |].
  destruct i as [| i].
  - assert (n = 0%nat) by lia. subst n. reflexivity.
  - destruct n as [| n]; [reflexivity |].
    cbn [replaceAt firstn]. f_equal. apply IH. lia.
Qed.

Lemma nth_error_replaceAt_other {A : Type} (l : list A) (i j : nat) (x : A) :
  i <> j -> nth_error (replaceAt l i x) j = nth_error l j.
Proof.
  revert i j. induction l as [| h t IH]; intros i j Hij; [reflexivity |].
  destruct i as [| i]; destruct j as [| j]; try reflexivity; try lia.
  cbn [replaceAt nth_error]. apply IH. lia.
Qed.

Lemma addressOf_succ (stmts : list Statment) (i : nat) (st : Statment) :
  nth_error stmts i = Some st ->
  addressOf stmts (S i) = addressOf stmts i + byteSize st.
Proof.
  unfold addressOf. revert i. induction stmts as [| h t IH]; intros i H.
  - destruct i; discriminate.
  - destruct i as [| i].
    + cbn in H. inversion H. subst. cbn. lia.
    + cbn [nth_error] in H. specialize (IH i H).
      cbn [firstn sumByteSize fold_right] in *. unfold sumByteSize in IH. lia.
Qed.

Lemma addressOf_setByteSize_below (stmts : list Statment) (i n : nat) (v : Z) :
  (n <= i)%nat -> addressOf (setByteSize stmts i v) n = addressOf stmts n.
Proof.
  intros Hn. unfold addressOf, setByteSize.
  destruct (nth_error stmts i); [| reflexivity].
  rewrite firstn_replaceAt by exact Hn. reflexivity.
Qed.

Lemma nth_error_setByteSize_same (stmts : list Statment) (i : nat) (v : Z)
  (st : Statment) :
  nth_error stmts i = Some st ->
  nth_error (setByteSize stmts i v) i = Some (mkStatment (sval st) v).
Proof.
  intros H. unfold setByteSize. rewrite H.
  apply nth_error_replaceAt. apply nth_error_Some. rewrite H. discriminate.
Qed.

Lemma nth_error_setByteSize_other (stmts : list Statment) (i j : nat) (v : Z) :
  i <> j -> nth_error (setByteSize stmts i v) j = nth_error stmts j.
Proof.
  intros H. unfold setByteSize.
  destruct (nth_error stmts i); [| reflexivity].
  apply nth_error_replaceAt_other. exact H.
Qed.

Lemma length_setByteSize (stmts : list Statment) (i : nat) (v : Z) :
  List.length (setByteSize stmts i v) = List.length stmts.
Proof.
  unfold setByteSize. destruct (nth_error stmts i); [| reflexivity].
  apply length_replaceAt.
Qed.

Lemma positiveFootprints_setByteSize (stmts : list Statment) (i : nat) (v : Z)
  (st : Statment) :
  nth_error stmts i = Some st -> byteSize st = 0 ->
  positiveFootprints (setByteSize stmts i v)
  = positiveFootprints stmts + Z.max 0 v.
Proof.
  intros H H0. unfold setByteSize. rewrite H.
  revert i H. induction stmts as [| h t IH]; intros i H.
  - destruct i; discriminate.
  - destruct i as [| i].
    + cbn in H. inversion H. subst h.
      cbn [replaceAt positiveFootprints fold_right byteSize]. rewrite H0. lia.
    + cbn [nth_error] in H. specialize (IH i H).
      cbn [replaceAt positiveFootprints fold_right] in *.
      unfold positiveFootprints in IH. lia.
Qed.

Lemma positiveFootprints_zero (stmts : list Statment) :
  Forall (fun st => byteSize st = 0) stmts -> positiveFootprints stmts = 0.
Proof.
  induction 1 as [| h t Hh Ht IH]; [reflexivity |].
  cbn [positiveFootprints fold_right]. unfold positiveFootprints in IH. lia.
Qed.


Lemma layoutInvariant_new (code : string) : layoutInvariant (newInterpreter code).
Proof.
  unfold layoutInvariant. cbn [newInterpreter bytes currentMemoryAddress
    statements currentLine labels List.length]. repeat split.
  - symmetry. apply positiveFootprints_zero. apply Forall_forall.
    intros st H. apply in_map_iff in H. destruct H as (v & Hv & _).
    subst st. reflexivity.
  - intros j st _ H. apply nth_error_In in H. apply in_map_iff in H.
    destruct H as (v & Hv & _). subst st. reflexivity.
  - destruct H.
  - destruct H.
  - lia.
Qed.

Lemma layoutInvariant_step d s r :
  layoutInvariant s -> preprocessLine d s = Done r -> layoutInvariant (snd r).
Proof.
  intros (Ha & Hc & Hd & He & Hf) H.
  destruct (preprocessLine_inv _ _ _ H) as (stmt & Hnth & Hcases).
  cbv zeta in Hcases.
  destruct Hcases as [[_ Hr] | (_ & s1 & s2 & operand & H1 & _ & _ & _ & H2 & Hr)].
  - subst r. cbn [snd]. unfold layoutInvariant.
    cbn [withCurrentLine bytes currentMemoryAddress statements currentLine labels].
    repeat split.
    + exact Ha.
    + intros j st Hj Hst. apply (Hc j st); [lia | exact Hst].
    + replace (currentLine s + 1)%nat with (S (currentLine s)) by lia.
      rewrite (addressOf_succ _ _ _ Hnth), Hd.
      rewrite (Hc _ _ (Nat.le_refl _) Hnth). lia.
    + destruct (He l H0). lia.
    + destruct (He l H0). assumption.
    + assert (Hlt : (currentLine s < List.length (statements s))%nat)
        by (apply nth_error_Some; rewrite Hnth; discriminate).
      lia.
  - destruct (layout_appends _ _ _ _ H2)
      as ((F1 & F2 & F3 & F4 & F5 & F6) & added & Hb & Hm & _ & _).
    assert (Hs1 : statements s1 = statements s /\ bytes s1 = bytes s
                  /\ currentLine s1 = currentLine s
                  /\ currentMemoryAddress s1 = currentMemoryAddress s
                  /\ (forall l, In l (labels s1) ->
                        In l (labels s)
                        \/ l = mkLabel (hd "" (splitStatment (removeComments (sval stmt))))
                                 (currentLine s) (currentMemoryAddress s))).
    { destruct (addLabel_spec _ _ _ H1) as [E | (_ & _ & E)]; subst s1;
        cbn; repeat split; auto.
      intros l Hl. apply in_app_or in Hl. destruct Hl as [Hl | [Hl | []]];
        [left; exact Hl | right; symmetry; exact Hl]. }
    destruct Hs1 as (S1 & S2 & S3 & S4 & S5).
    rewrite Hr. unfold layoutInvariant.
    cbn [withCurrentLine withStatements bytes currentMemoryAddress statements
         currentLine labels].
    rewrite F1, F5, S1, S3, S4 in *.
    assert (Hlt : (currentLine s < List.length (statements s))%nat).
    { apply nth_error_Some. rewrite Hnth. discriminate. }
    repeat split.
    + rewrite Hb, length_app, S2.
      rewrite (positiveFootprints_setByteSize _ _ _ _ Hnth
                 (Hc _ _ (Nat.le_refl _) Hnth)).
      lia.
    + intros j st Hj Hst.
      rewrite nth_error_setByteSize_other in Hst by lia.
      apply (Hc j st); [lia | exact Hst].
    + replace (currentLine s + 1)%nat with (S (currentLine s)) by lia.
      rewrite (addressOf_succ _ _ _ (nth_error_setByteSize_same _ _ _ _ Hnth)).
      rewrite addressOf_setByteSize_below by lia. cbn [byteSize]. lia.
    + rewrite F4 in H0. destruct (S5 l H0) as [Hl | Hl].
      * destruct (He l Hl). lia.
      * subst l. cbn. lia.
    + rewrite F4 in H0. destruct (S5 l H0) as [Hl | Hl].
      * destruct (He l Hl) as [Hl1 Hl2].
        rewrite addressOf_setByteSize_below by lia. exact Hl2.
      * subst l. cbn [line address].
        rewrite addressOf_setByteSize_below by lia. lia.
    + rewrite length_setByteSize. lia.
Qed.

(** The invariant of the layout pass, in the state [preprocess] returns
    (the position is rewound, so the invariant is stated without it). *)
Lemma preprocess_layout (code : string) (s : Interpreter) :
  preprocess (newInterpreter code) = Done s ->
  Z.of_nat (List.length (bytes s)) = positiveFootprints (statements s)
  /\ (forall l, In l (labels s) ->
                (line l < List.length (statements s))%nat
                /\ address l = addressOf (statements s) (line l)).
Proof.
  unfold preprocess. intros H.
  destruct (preprocessLoop _ true (newInterpreter code)) as [s1 | |] eqn:E;
    try discriminate.
  cbn [andThen] in H. inversion H. subst s. clear H.
  cbn [withCurrentMemoryAddress withCurrentLine bytes statements labels].
  pose proof (preprocessLoop_complete _ _ _ _ (Nat.le_refl _) E) as Hend.
  destruct (preprocessLoop_invariant (fun _ s => layoutInvariant s)
              (fun d s r HI _ Hr => layoutInvariant_step d s r HI Hr)
              _ _ _ _ (layoutInvariant_new code) E)
    as (_ & Ha & Hc & Hd & He & Hf).
  unfold isAtEnd in Hend. apply Nat.leb_le in Hend.
  split.
  - exact Ha.
  - intros l Hl. destruct (He l Hl) as [Hl1 Hl2]. split; [| exact Hl2].
    lia.
Qed.

Lemma isLabelDefined_false (s : Interpreter) (name : string) :
  isLabelDefined s name = false <-> ~ In name (map label (labels s)).
Proof.
  unfold isLabelDefined. split.
  - intros H Hin. apply in_map_iff in Hin. destruct Hin as (l & Hl & Hin).
    assert (E : existsb (fun c => String.eqb (label c) name) (labels s) = true).
    { apply existsb_exists. exists l. split; [exact Hin |].
      apply String.eqb_eq. exact Hl. }
    rewrite E in H. discriminate.
  - intros H. destruct (existsb _ (labels s)) eqn:E; [| reflexivity].
    exfalso. apply H. apply existsb_exists in E. destruct E as (l & Hin & Hl).
    apply String.eqb_eq in Hl. apply in_map_iff. exists l. split; assumption.
Qed.

Lemma uniqueLabels_step d s r :
  NoDup (map label (labels s)) -> preprocessLine d s = Done r ->
  NoDup (map label (labels (snd r))).
Proof.
  intros Hnd H.
  destruct (preprocessLine_inv _ _ _ H) as (stmt & Hnth & Hcases).
  cbv zeta in Hcases.
  destruct Hcases as [[_ Hr] | (_ & s1 & s2 & operand & H1 & _ & _ & _ & H2 & Hr)].
  - subst r. exact Hnd.
  - destruct (layout_appends _ _ _ _ H2) as ((_ & _ & _ & F4 & _ & _) & _).
    rewrite Hr. cbn [withCurrentLine withStatements labels]. rewrite F4.
    clear H2 Hr F4.
    destruct (addLabel_spec _ _ _ H1) as [E | (_ & Hdef & E)]; rewrite E;
      [exact Hnd |].
    cbn [withLabels labels]. rewrite map_app. cbn [map label].
    apply NoDup_app; [exact Hnd | repeat constructor; intros [] |].
    intros a Ha [Hb | []]. subst a.
    apply (proj1 (isLabelDefined_false _ _) Hdef Ha).
Qed.

Lemma checkDataSection_spec s d instruction token0 d' :
  checkDataSection s d instruction token0 = Done d' ->
  (String.eqb instruction "DC" || String.eqb instruction "DS" = true
   /\ d = true /\ d' = true)
  \/ (String.eqb instruction "DC" || String.eqb instruction "DS" = false
      /\ d' = false).
Proof.
  unfold checkDataSection.
  destruct (String.eqb instruction "DC" || String.eqb instruction "DS").
  - destruct d; cbn [negb]; [| discriminate].
    intros H. inversion H. left. repeat split.
  - intros H. inversion H. right. repeat split.
Qed.

Lemma imageInvariant_step d s r :
  imageInvariant d s -> preprocessLine d s = Done r ->
  imageInvariant (fst r) (snd r).
Proof.
  intros (Ho & Hdc & Hdata) H.
  destruct (preprocessLine_inv _ _ _ H) as (stmt & Hnth & Hcases).
  cbv zeta in Hcases.
  destruct Hcases as [[_ Hr] | (_ & s1 & s2 & operand & H1 & _ & _ & Hd & H2 & Hr)].
  - subst r. cbn [fst snd]. unfold imageInvariant. cbn [withCurrentLine bytes].
    split; [exact Ho | split; [exact Hdc | exact Hdata]].
  - destruct (layout_appends _ _ _ _ H2) as (_ & added & Hb & _ & Hoct & Hty).
    assert (S2 : bytes s1 = bytes s).
    { destruct (addLabel_spec _ _ _ H1) as [E | (_ & _ & E)]; rewrite E; reflexivity. }
    rewrite Hr. unfold imageInvariant.
    cbn [withCurrentLine withStatements bytes]. rewrite Hb, S2.
    destruct (checkDataSection_spec _ _ _ _ _ Hd) as [(Ei & Ed & Ed') | (Ei & Ed')];
      rewrite Ei in Hty; rewrite Ed'.
    + split; [apply Forall_app; split; assumption |].
      assert (Hall : Forall (fun b => type b = DATA) (bytes s ++ added))
        by (apply Forall_app; split; [apply Hdata, Ed | exact Hty]).
      split; [| intros _; exact Hall].
      exists (bytes s ++ added)%list, []. rewrite app_nil_r.
      repeat split; [exact Hall | constructor].
    + split; [apply Forall_app; split; assumption |].
      split; [| discriminate].
      destruct Hdc as (ds & cs & Hbs & Hds & Hcs).
      exists ds, (cs ++ added)%list. rewrite Hbs, app_assoc.
      repeat split; [exact Hds | apply Forall_app; split; assumption].
Qed.

Lemma imageInvariant_new (code : string) :
  imageInvariant true (newInterpreter code).
Proof.
  unfold imageInvariant. cbn [newInterpreter bytes].
  split; [constructor | split; [| intros _; constructor]].
  exists [], []. split; [reflexivity | split; constructor].
Qed.

Lemma preprocess_image (code : string) (s : Interpreter) :
  preprocess (newInterpreter code) = Done s ->
  Forall isOctet (bytes s) /\ dataBeforeCode (bytes s)
  /\ NoDup (map label (labels s)).
Proof.
  unfold preprocess. intros H.
  destruct (preprocessLoop _ true (newInterpreter code)) as [s1 | |] eqn:E;
    try discriminate.
  cbn [andThen] in H. inversion H. subst s. clear H.
  cbn [withCurrentMemoryAddress withCurrentLine bytes labels].
  destruct (preprocessLoop_invariant imageInvariant
              (fun d s r HI _ Hr => imageInvariant_step d s r HI Hr)
              _ _ _ _ (imageInvariant_new code) E)
    as (_ & Ho & Hdc & _).
  destruct (preprocessLoop_invariant (fun _ s => NoDup (map label (labels s)))
              (fun d s r HI _ Hr => uniqueLabels_step d s r HI Hr)
              _ true (newInterpreter code) s1 (NoDup_nil string) E)
    as (_ & Hnd).
  repeat split; assumption.
Qed.

(** ** Further properties of execution *)

Lemma stepFrame_refl s : stepFrame s s.
Proof. unfold stepFrame. repeat split; auto. Qed.

Lemma stepFrame_trans s1 s2 s3 :
  stepFrame s1 s2 -> stepFrame s2 s3 -> stepFrame s1 s3.
Proof.
  unfold stepFrame.
  intros (A1 & A2 & A3 & A4 & A5 & A6) (B1 & B2 & B3 & B4 & B5 & B6).
  repeat split; try congruence; auto.
Qed.

Lemma numToInt32_range (v : number) : isInt32 (numToInt32 v).
Proof.
  destruct v as [z |]; cbn [numToInt32]; [apply toInt32_range |].
  unfold isInt32. lia.
Qed.

Lemma regSet_frame (regs : list Z) (r : Z) (v : number) :
  List.length (regSet regs r v) = List.length regs
  /\ (Forall isInt32 regs -> Forall isInt32 (regSet regs r v)).
Proof.
  unfold regSet. destruct ((0 <=? r) && (r <? 16)); [| split; auto].
  split; [apply length_replaceAt |].
  intros H. apply replaceAt_Forall; [exact H | apply numToInt32_range].
Qed.

Lemma writeBack_frame s r v : stepFrame s (writeBack s r v).
Proof.
  unfold stepFrame, writeBack.
  cbn [withEflags withRegisters statements labels bytes registers].
  destruct (regSet_frame (registers s) r v) as [H1 H2].
  repeat split; auto.
Qed.

Lemma withEflags_frame s e : stepFrame s (withEflags s e).
Proof. unfold stepFrame. cbn. repeat split; auto. Qed.

Lemma setNumberInMemory_frame s addr num bs :
  setNumberInMemory s addr num = Ok bs ->
  List.length bs = List.length (bytes s)
  /\ (Forall isOctet (bytes s) -> Forall isOctet bs).
Proof.
  unfold setNumberInMemory. destruct addr as [a |]; [| discriminate].
  pose proof (numberToBytes_octets num) as Hoct.
  unfold numberToBytes in *.
  destruct ((0 <=? a) && (a + 3 <? Z.of_nat (List.length (bytes s))));
    [| discriminate].
  intros H. inversion H. subst bs. clear H.
  split; [rewrite !length_replaceAt; reflexivity |].
  intros Hb.
  repeat (apply Forall_cons_iff in Hoct; destruct Hoct as [[? _] Hoct]).
  repeat apply replaceAt_Forall; assumption.
Qed.

Lemma stepRR_frame s tokens instruction idx s' :
  stepRR s tokens instruction idx = Done s' -> stepFrame s s'.
Proof.
  unfold stepRR, attempt. break_matches; intros H; try discriminate H;
    inversion H; subst;
    first [apply writeBack_frame | apply withEflags_frame | apply stepFrame_refl].
Qed.

Lemma stepRM_frame s tokens instruction idx s' :
  stepRM s tokens instruction idx = Done s' -> stepFrame s s'.
Proof.
  unfold stepRM, attempt. break_matches; intros H; try discriminate H;
    inversion H; subst;
    try first [apply writeBack_frame | apply withEflags_frame
              | apply stepFrame_refl].
  match goal with
  | E : setNumberInMemory _ _ _ = Ok _ |- _ =>
      destruct (setNumberInMemory_frame _ _ _ _ E) as [L1 L2]
  end.
  unfold stepFrame. cbn. repeat split; auto.
Qed.

Lemma stepJ_frame s tokens instruction idx j :
  stepJ s tokens instruction idx = Done j -> stepFrame s (snd j).
Proof.
  unfold stepJ, attempt. break_matches; intros H; try discriminate H;
    inversion H; subst; cbn [snd]; unfold stepFrame; cbn; repeat split; auto.
Qed.

Lemma fallThrough_frame s s' : fallThrough s = Done s' -> stepFrame s s'.
Proof.
  unfold fallThrough. break_matches; intros H; try discriminate H;
    inversion H; subst; unfold stepFrame; cbn; repeat split; auto.
Qed.

Lemma interpretNextLine_frame s s' :
  interpretNextLine s = Done s' -> stepFrame s s'.
Proof.
  unfold interpretNextLine.
  set (s1 := withExecutedLines s (executedLines s + 1)%nat).
  assert (H1 : stepFrame s s1) by (unfold stepFrame; cbn; repeat split; auto).
  destruct (isAtEnd s1); [intros H; inversion H; subst; exact H1 |].
  destruct (nth_error (statements s1) (currentLine s1)) as [stmt |];
    [| discriminate].
  destruct (Nat.eqb _ 0).
  { intros H. inversion H. subst. unfold stepFrame. cbn. repeat split; auto. }
  destruct (includes keywords _); [| discriminate].
  destruct (stepRR s1 _ _ _) as [s2 | |] eqn:E2; try discriminate.
  cbn [andThen].
  destruct (stepRM s2 _ _ _) as [s3 | |] eqn:E3; try discriminate.
  cbn [andThen].
  destruct (stepJ s3 _ _ _) as [j | |] eqn:E4; try discriminate.
  cbn [andThen].
  apply stepRR_frame in E2. apply stepRM_frame in E3. apply stepJ_frame in E4.
  assert (Hj : stepFrame s (snd j)).
  { eapply stepFrame_trans; [exact H1 |].
    eapply stepFrame_trans; [exact E2 |].
    eapply stepFrame_trans; [exact E3 | exact E4]. }
  destruct (fst j).
  - intros H. inversion H. subst. exact Hj.
  - intros H. apply fallThrough_frame in H.
    eapply stepFrame_trans; [exact Hj | exact H].
Qed.

Lemma steps_frame (n : nat) : forall s s',
  steps n s = Done s' -> stepFrame s s'.
Proof.
  induction n as [| n IH]; intros s s' H; cbn [steps] in H.
  - inversion H. apply stepFrame_refl.
  - destruct (interpretNextLine s) as [s1 | |] eqn:E; try discriminate.
    cbn [andThen] in H.
    eapply stepFrame_trans; [apply (interpretNextLine_frame _ _ E) | apply (IH _ _ H)].
Qed.

(** ** A step that throws *)

Lemma toNumber_no_fail (t : string) (e : error) : toNumber t <> Fail e.
Proof.
  unfold toNumber. destruct (JsString.trim t) as [| c r]; [discriminate |].
  destruct (Ascii.eqb c "-").
  - unfold bind. destruct (unsignedValue r) as [v | e' |] eqn:E;
      try discriminate.
    exfalso. exact (unsignedValue_no_fail _ _ E).
  - destruct (Ascii.eqb c "+"); apply unsignedValue_no_fail.
Qed.

Lemma tokenNumber_no_fail tokens i (e : error) : tokenNumber tokens i <> Fail e.
Proof.
  unfold tokenNumber. destruct (tokenAt tokens i);
    [apply toNumber_no_fail | discriminate].
Qed.

Lemma stepRR_thrown s tokens instruction idx e s' :
  stepRR s tokens instruction idx = Thrown e s' ->
  s' = s /\ isInstructionRR instruction = true /\ isBlockError e.
Proof.
  unfold stepRR, attempt.
  break_matches; intros H; try discriminate H; inversion H; subst;
    try match goal with
      | E : tokenNumber _ _ = Fail _ |- _ =>
          exfalso; exact (tokenNumber_no_fail _ _ _ E)
      end;
    (split; [reflexivity | split; [reflexivity |]]);
    right; eexists; (split; [reflexivity | exact I]).
Qed.

Lemma getMemoryAddr_fail s param e :
  getMemoryAddr s param = Fail e ->
  e = RuntimeError (UndefinedLabel (currentLine s + 1) param).
Proof.
  unfold getMemoryAddr, bind.
  break_matches; intros H; try discriminate H; inversion H; subst;
    try match goal with
      | E : toNumber _ = Fail _ |- _ =>
          exfalso; exact (toNumber_no_fail _ _ E)
      end;
    reflexivity.
Qed.

Lemma getNumberFromMemory_fail s addr e :
  getNumberFromMemory s addr = Fail e -> e = TypeError.
Proof.
  unfold getNumberFromMemory, bytesToNumber.
  break_matches; intros H; try discriminate H; inversion H; reflexivity.
Qed.

Lemma setNumberInMemory_no_fail s addr num e :
  setNumberInMemory s addr num <> Fail e.
Proof.
  unfold setNumberInMemory. break_matches; discriminate.
Qed.

Lemma block_error_is_step_error (e : error) : isBlockError e -> isStepError e.
Proof.
  intros [H | (m & H & Hm)]; [left; exact H |].
  right. exists m. split; [exact H |]. intros ->. exact Hm.
Qed.

Lemma stepRM_thrown s tokens instruction idx e s' :
  stepRM s tokens instruction idx = Thrown e s' ->
  s' = s /\ isInstructionRM instruction = true /\ isBlockError e.
Proof.
  unfold stepRM, attempt, isBlockError.
  break_matches; intros H; try discriminate H; inversion H; subst;
    try match goal with
      | E : tokenNumber _ _ = Fail _ |- _ =>
          exfalso; exact (tokenNumber_no_fail _ _ _ E)
      end;
    (split; [reflexivity | split; [reflexivity |]]);
    repeat match goal with
      | E : match tokenAt ?t ?i with _ => _ end = Fail _ |- _ =>
          destruct (tokenAt t i); [| discriminate E]
      | E : getMemoryAddr _ _ = Fail _ |- _ =>
          apply getMemoryAddr_fail in E; subst
      | E : getNumberFromMemory _ _ = Fail _ |- _ =>
          apply getNumberFromMemory_fail in E; subst
      | E : setNumberInMemory _ _ _ = Fail _ |- _ =>
          exfalso; exact (setNumberInMemory_no_fail _ _ _ _ E)
      end;
    first [ left; reflexivity
          | right; eexists; (split; [reflexivity | exact I]) ].
Qed.

Lemma getStatmentLine_fail s addr e :
  getStatmentLine s addr = Fail e -> isBlockError e.
Proof.
  unfold getStatmentLine, isBlockError.
  break_matches; intros H; try discriminate H; inversion H; subst;
    first [ left; reflexivity
          | right; eexists; (split; [reflexivity | exact I]) ].
Qed.

Lemma stepJ_thrown s tokens instruction idx e s' :
  stepJ s tokens instruction idx = Thrown e s' ->
  s' = s /\ startsWithJ instruction = true /\ isBlockError e.
Proof.
  unfold stepJ, attempt.
  destruct (startsWithJ instruction); [| discriminate].
  destruct (arityIsNot tokens idx 1).
  { intros H. inversion H. subst. repeat split.
    right. eexists. split; [reflexivity | exact I]. }
  destruct (match tokenAt tokens idx with Some t => _ | None => _ end)
    as [addr | e0 |] eqn:Ea; try discriminate.
  - destruct (getStatmentLine s addr) as [ln | e1 |] eqn:El; try discriminate.
    + destruct addr as [a |].
      * break_matches; discriminate.
      * intros H. inversion H. subst. repeat split. left. reflexivity.
    + intros H. inversion H. subst. repeat split.
      apply (getStatmentLine_fail _ _ _ El).
  - intros H. inversion H. subst. repeat split.
    destruct (tokenAt tokens idx); [| discriminate].
    apply getMemoryAddr_fail in Ea. subst.
    right. eexists. split; [reflexivity | exact I].
Qed.

Lemma rr_is_not_rm_nor_jump (instruction : string) :
  isInstructionRR instruction = true ->
  isInstructionRM instruction = false /\ startsWithJ instruction = false.
Proof.
  unfold isInstructionRR, includes. intros H. apply existsb_exists in H.
  destruct H as (kw & Hin & Heq). apply String.eqb_eq in Heq. subst kw.
  cbn [rrKeywords In] in Hin.
  repeat (destruct Hin as [Hin | Hin]; [subst instruction; split; reflexivity |]).
  destruct Hin.
Qed.

Lemma rm_is_not_rr_nor_jump (instruction : string) :
  isInstructionRM instruction = true ->
  isInstructionRR instruction = false /\ startsWithJ instruction = false.
Proof.
  unfold isInstructionRM, includes. intros H. apply existsb_exists in H.
  destruct H as (kw & Hin & Heq). apply String.eqb_eq in Heq. subst kw.
  cbn [rmKeywords In] in Hin.
  repeat (destruct Hin as [Hin | Hin]; [subst instruction; split; reflexivity |]).
  destruct Hin.
Qed.

Lemma stepRR_skip s tokens instruction idx :
  isInstructionRR instruction = false ->
  stepRR s tokens instruction idx = Done s.
Proof. intros H. unfold stepRR. rewrite H. reflexivity. Qed.

Lemma stepRM_skip s tokens instruction idx :
  isInstructionRM instruction = false ->
  stepRM s tokens instruction idx = Done s.
Proof. intros H. unfold stepRM. rewrite H. reflexivity. Qed.

Lemma stepJ_skip s tokens instruction idx :
  startsWithJ instruction = false ->
  stepJ s tokens instruction idx = Done (false, s).
Proof. intros H. unfold stepJ. rewrite H. reflexivity. Qed.

Lemma stepRR_position s tokens instruction idx s' :
  stepRR s tokens instruction idx = Done s' ->
  currentLine s' = currentLine s
  /\ currentMemoryAddress s' = currentMemoryAddress s.
Proof.
  unfold stepRR, attempt, writeBack. break_matches; intros H;
    try discriminate H; inversion H; subst; split; reflexivity.
Qed.

Lemma stepRM_position s tokens instruction idx s' :
  stepRM s tokens instruction idx = Done s' ->
  currentLine s' = currentLine s
  /\ currentMemoryAddress s' = currentMemoryAddress s.
Proof.
  unfold stepRM, attempt, writeBack. break_matches; intros H;
    try discriminate H; inversion H; subst; split; reflexivity.
Qed.

Lemma stepJ_not_taken s tokens instruction idx j :
  stepJ s tokens instruction idx = Done j -> fst j = false -> snd j = s.
Proof.
  unfold stepJ, attempt. break_matches; intros H; try discriminate H;
    inversion H; subst; cbn [fst snd]; intros E;
    first [discriminate E | reflexivity].
Qed.

(** A step that throws leaves the state as it found it, the execution
    counter apart, which it has already incremented; and it throws a step
    error. *)
Lemma interpretNextLine_thrown_kind s e s' :
  interpretNextLine s = Thrown e s' ->
  s' = counted s
  /\ (isBlockError e
      \/ exists i, currentInstruction s = Some i
                   /\ includes keywords i = false
                   /\ e = RuntimeError
                           (UnrecognizedInstructionRun (currentLine s + 1) i)).
Proof.
  unfold interpretNextLine, currentInstruction. fold (counted s).
  destruct (isAtEnd (counted s)); [discriminate |].
  change (statements (counted s)) with (statements s).
  change (currentLine (counted s)) with (currentLine s).
  destruct (nth_error (statements s) (currentLine s)) as [stmt |] eqn:Hnth.
  2:{ intros H. inversion H. subst. split; [reflexivity | left; left; reflexivity]. }
  destruct (Nat.eqb _ 0); [discriminate |].
  destruct (includes keywords _) eqn:Hkw.
  2:{ intros H. inversion H. subst. split; [reflexivity |].
      right. eexists. split; [reflexivity | split; [exact Hkw | reflexivity]]. }
  set (tokens := splitStatment (removeComments (sval stmt))).
  set (instruction := if startsWithLabel tokens then nth 1 tokens "" else hd "" tokens).
  set (idx := ((if startsWithLabel tokens then 1 else 0) + 1)%nat).
  destruct (stepRR (counted s) tokens instruction idx) as [s2 | e2 s2 |] eqn:E2;
    cbn [andThen]; try discriminate.
  2:{ intros H. inversion H. subst.
      destruct (stepRR_thrown _ _ _ _ _ _ E2) as (-> & _ & Hm).
      split; [reflexivity | left; exact Hm]. }
  destruct (stepRM s2 tokens instruction idx) as [s3 | e3 s3 |] eqn:E3;
    cbn [andThen]; try discriminate.
  2:{ intros H. inversion H. subst.
      destruct (stepRM_thrown _ _ _ _ _ _ E3) as (-> & Hrm & He).
      destruct (rm_is_not_rr_nor_jump _ Hrm) as [Hrr _].
      rewrite (stepRR_skip _ _ _ _ Hrr) in E2. inversion E2.
      split; [reflexivity | left; exact He]. }
  destruct (stepJ s3 tokens instruction idx) as [j | e4 s4 |] eqn:E4;
    cbn [andThen]; try discriminate.
  2:{ intros H. inversion H. subst.
      destruct (stepJ_thrown _ _ _ _ _ _ E4) as (-> & Hj & He).
      assert (Hrr : isInstructionRR instruction = false).
      { destruct (isInstructionRR instruction) eqn:R; [| reflexivity].
        destruct (rr_is_not_rm_nor_jump _ R) as [_ C]. congruence. }
      assert (Hrm : isInstructionRM instruction = false).
      { destruct (isInstructionRM instruction) eqn:R; [| reflexivity].
        destruct (rm_is_not_rr_nor_jump _ R) as [_ C]. congruence. }
      rewrite (stepRR_skip _ _ _ _ Hrr) in E2. inversion E2. subst s2.
      rewrite (stepRM_skip _ _ _ _ Hrm) in E3. inversion E3.
      split; [reflexivity | left; exact He]. }
  destruct (fst j) eqn:Ej; [discriminate |].
  intros H. exfalso.
  rewrite (stepJ_not_taken _ _ _ _ _ E4 Ej) in H.
  destruct (stepRR_position _ _ _ _ _ E2) as [P1 _].
  destruct (stepRM_position _ _ _ _ _ E3) as [P2 _].
  destruct (stepRR_frame _ _ _ _ _ E2) as (F1 & _).
  destruct (stepRM_frame _ _ _ _ _ E3) as (G1 & _).
  unfold fallThrough in H. rewrite G1, F1, P2, P1 in H.
  change (statements (counted s)) with (statements s) in H.
  change (currentLine (counted s)) with (currentLine s) in H.
  rewrite Hnth in H. discriminate.
Qed.

Lemma interpretNextLine_thrown s e s' :
  interpretNextLine s = Thrown e s' ->
  s' = counted s /\ isStepError e.
Proof.
  intros H. destruct (interpretNextLine_thrown_kind s e s' H) as (Hs & [Hb | Hu]).
  - split; [exact Hs | apply block_error_is_step_error, Hb].
  - destruct Hu as (i & _ & _ & ->). split; [exact Hs |].
    right. eexists. split; [reflexivity | discriminate].
Qed.

(** ** The outcomes of [preprocess] and [interpret] *)

Lemma getNumberInParen_fail (v : string) (e : error) :
  getNumberInParen v = Fail e -> e = PreprocessingError NoNumber /\ v = "".
Proof.
  unfold getNumberInParen. destruct v as [| c r].
  - intros H. inversion H. split; reflexivity.
  - cbn [String.length Nat.ltb Nat.leb]. break_matches; discriminate.
Qed.

Lemma layout_thrown s instruction args e s' :
  layout s instruction args = Thrown e s' -> isLayoutError e.
Proof.
  unfold layout, attempt, isLayoutError.
  destruct (String.eqb instruction "DC").
  - destruct args as [| a0 [| a1 [| a2 r]]]; try discriminate.
    + destruct (getNumberInParen a0) as [n | e0 |] eqn:E; try discriminate.
      intros H. inversion H. subst. apply getNumberInParen_fail in E.
      right. right. eexists. apply E.
    + destruct (toNumber a0) as [n | e0 |] eqn:E0.
      * destruct (getNumberInParen a1) as [m | e1 |] eqn:E; try discriminate.
        intros H. inversion H. subst. apply getNumberInParen_fail in E.
        right. right. eexists. apply E.
      * exfalso. exact (toNumber_no_fail _ _ E0).
      * discriminate.
  - destruct (String.eqb instruction "DS").
    + destruct (match args with [a0; _] => _ | _ => _ end) as [n | e0 |] eqn:En.
      * unfold newArrayFill. destruct ((n <? 0) || (2 ^ 32 - 1 <? n));
          [| discriminate].
        intros H. inversion H. right. left. reflexivity.
      * exfalso. unfold bind in En.
        destruct args as [| a0 [| a1 [| a2 r]]]; try discriminate.
        destruct (toNumber a0) eqn:E0; try discriminate.
        exact (toNumber_no_fail _ _ E0).
      * discriminate.
    + unfold getSizeOfInstruction, newArrayFill.
      destruct (isInstructionRR instruction); cbn; discriminate.
Qed.

Lemma preprocessLine_thrown d s e s' :
  preprocessLine d s = Thrown e s' -> isLayoutError e.
Proof.
  unfold preprocessLine, isLayoutError.
  destruct (nth_error (statements s) (currentLine s)) as [stmt |].
  2:{ intros H. inversion H. left. reflexivity. }
  destruct (Nat.eqb _ 0); [discriminate |].
  destruct (addLabel s _) as [s1 | e1 s1 |] eqn:E1; cbn [andThen];
    try discriminate.
  2:{ intros H. inversion H. subst. unfold addLabel in E1.
      destruct (startsWithLabel _); [| discriminate].
      destruct (isLabelDefined s _);
        [inversion E1; right; right; eexists; reflexivity |].
      destruct (negb _); [| discriminate].
      inversion E1. right. right. eexists. reflexivity. }
  destruct (negb (includes keywords _)).
  { intros H. inversion H. right. right. eexists. reflexivity. }
  destruct (tokenAt _ _) as [operand |].
  2:{ intros H. inversion H. left. reflexivity. }
  destruct (checkDataSection s1 d _ _) as [d' | e2 s2 |] eqn:E2; cbn [andThen];
    try discriminate.
  2:{ intros H. inversion H. subst. unfold checkDataSection in E2.
      destruct (_ || _); [| discriminate].
      destruct (negb d); [| discriminate].
      inversion E2. right. right. eexists. reflexivity. }
  destruct (layout s1 _ _) as [s2 | e3 s3 |] eqn:E3; cbn [andThen];
    try discriminate.
  intros H. inversion H. subst. apply (layout_thrown _ _ _ _ _ E3).
Qed.

Lemma preprocess_thrown s e s' :
  preprocess s = Thrown e s' -> isLayoutError e.
Proof.
  unfold preprocess.
  generalize (List.length (statements s) - currentLine s)%nat, true.
  intros fuel d H.
  destruct (preprocessLoop fuel d s) as [s1 | e1 s1 |] eqn:E; cbn [andThen] in H;
    try discriminate.
  inversion H. subst. clear H. revert d s E.
  induction fuel as [| fuel IH]; intros d s E; cbn [preprocessLoop] in E;
    [discriminate |].
  destruct (isAtEnd s); [discriminate |].
  destruct (preprocessLine d s) as [r | e2 s2 |] eqn:E2; cbn [andThen] in E;
    try discriminate.
  - apply (IH _ _ E).
  - inversion E. subst. apply (preprocessLine_thrown _ _ _ _ E2).
Qed.

Lemma interpretLoop_thrown (fuel : nat) : forall s e s',
  interpretLoop fuel s = Thrown e s' -> isStepError e.
Proof.
  induction fuel as [| fuel IH]; intros s e s' H; cbn [interpretLoop] in H;
    [discriminate |].
  destruct (negb (isAtEnd s) && Nat.ltb (executedLines s) MAX_LINES);
    [| discriminate].
  destruct (interpretNextLine s) as [s1 | e1 s1 |] eqn:E; cbn [andThen] in H;
    try discriminate.
  - apply (IH _ _ _ H).
  - inversion H. subst. apply (interpretNextLine_thrown _ _ _ E).
Qed.

Lemma interpretLoop_bound (fuel : nat) : forall s s',
  (executedLines s <= MAX_LINES)%nat ->
  interpretLoop fuel s = Done s' ->
  (executedLines s' <= MAX_LINES)%nat.
Proof.
  induction fuel as [| fuel IH]; intros s s' Hle H; cbn [interpretLoop] in H.
  - inversion H. subst. exact Hle.
  - destruct (negb (isAtEnd s) && Nat.ltb (executedLines s) MAX_LINES) eqn:C;
      [| inversion H; subst; exact Hle].
    apply andb_true_iff in C. destruct C as [_ C]. apply Nat.ltb_lt in C.
    destruct (interpretNextLine s) as [s1 | |] eqn:E; try discriminate.
    cbn [andThen] in H. apply (IH s1 s'); [| exact H].
    rewrite (interpretNextLine_executedLines _ _ E). lia.
Qed.

(** ** Memory words *)



(** The four cells of a store, by index. *)
Lemma store_cells {A : Type} (l : list A) (i : nat) (d0 d1 d2 d3 : A) :
  (i + 3 < List.length l)%nat ->
  let l' := replaceAt (replaceAt (replaceAt (replaceAt l i d0) (i + 1) d1)
                         (i + 2) d2) (i + 3) d3 in
  nth_error l' i = Some d0 /\ nth_error l' (i + 1) = Some d1
  /\ nth_error l' (i + 2) = Some d2 /\ nth_error l' (i + 3) = Some d3
  /\ forall j, (j < i \/ i + 3 < j)%nat -> nth_error l' j = nth_error l j.
Proof.
  intros Hi l'. subst l'. repeat split.
  - rewrite !nth_error_replaceAt_other by lia.
    apply nth_error_replaceAt. lia.
  - rewrite !nth_error_replaceAt_other by lia.
    apply nth_error_replaceAt. rewrite length_replaceAt. lia.
  - rewrite !nth_error_replaceAt_other by lia.
    apply nth_error_replaceAt. rewrite !length_replaceAt. lia.
  - apply nth_error_replaceAt. rewrite !length_replaceAt. lia.
  - intros j Hj. rewrite !nth_error_replaceAt_other by lia. reflexivity.
Qed.

Lemma byteAt_nat (bs : list byte) (a : Z) (k : nat) :
  0 <= a ->
  byteAt bs (numAdd (Some a) (Some (Z.of_nat k)))
  = nth_error bs (Z.to_nat a + k).
Proof.
  intros Ha. unfold byteAt, numAdd.
  rewrite (proj2 (Z.ltb_ge (a + Z.of_nat k) 0)) by lia.
  f_equal. lia.
Qed.

Lemma getNumberFromMemory_cells s (a : Z) (b0 b1 b2 b3 : byte) :
  0 <= a ->
  nth_error (bytes s) (Z.to_nat a) = Some b0 ->
  nth_error (bytes s) (Z.to_nat a + 1) = Some b1 ->
  nth_error (bytes s) (Z.to_nat a + 2) = Some b2 ->
  nth_error (bytes s) (Z.to_nat a + 3) = Some b3 ->
  getNumberFromMemory s (Some a) = bytesToNumber [Some b0; Some b1; Some b2; Some b3].
Proof.
  intros Ha H0 H1 H2 H3. unfold getNumberFromMemory.
  change (Some 1) with (Some (Z.of_nat 1)).
  change (Some 2) with (Some (Z.of_nat 2)).
  change (Some 3) with (Some (Z.of_nat 3)).
  rewrite !byteAt_nat by exact Ha. rewrite H1, H2, H3.
  unfold byteAt. rewrite (proj2 (Z.ltb_ge a 0)) by lia. rewrite H0.
  reflexivity.
Qed.

Lemma store_load_core (s : Interpreter) (a : Z) (num : number) (bs : list byte) :
  setNumberInMemory s (Some a) num = Ok bs ->
  getNumberFromMemory (withBytes s bs) (Some a) = Ok (numToInt32 num)
  /\ (forall v, num = Some v -> isInt32 v ->
                getNumberFromMemory (withBytes s bs) (Some a) = Ok v)
  /\ List.length bs = List.length (bytes s)
  /\ (forall k b, 0 <= k < 4 -> byteAt bs (Some (a + k)) = Some b -> type b = DATA)
  /\ (forall j, j < a \/ a + 3 < j ->
                byteAt bs (Some j) = byteAt (bytes s) (Some j)).
Proof.
  unfold setNumberInMemory. unfold numberToBytes.
  destruct ((0 <=? a) && (a + 3 <? Z.of_nat (List.length (bytes s)))) eqn:C;
    [| discriminate].
  apply andb_true_iff in C. destruct C as [C1 C2].
  apply Z.leb_le in C1. apply Z.ltb_lt in C2.
  intros H. inversion H as [Hbs]. clear H.
  match type of Hbs with
  | replaceAt (replaceAt (replaceAt (replaceAt _ _ ?d0) _ ?d1) _ ?d2) _ ?d3 = _ =>
      destruct (store_cells (bytes s) (Z.to_nat a) d0 d1 d2 d3 ltac:(lia))
        as (N0 & N1 & N2 & N3 & Nother)
  end.
  rewrite Hbs in N0, N1, N2, N3, Nother. rewrite ?Hbs.
  assert (Hload : getNumberFromMemory (withBytes s bs) (Some a)
                  = Ok (numToInt32 num)).
  { rewrite (getNumberFromMemory_cells (withBytes s bs) a _ _ _ _ C1 N0 N1 N2 N3).
    unfold bytesToNumber. cbn [nth val]. f_equal.
    apply decode_encode. apply numToInt32_range. }
  split; [exact Hload |]. split; [| split; [| split]].
  - intros v Hv Hr. rewrite Hload. subst num. cbn [numToInt32].
    rewrite (toInt32_id v Hr). reflexivity.
  - rewrite <- Hbs, !length_replaceAt. reflexivity.
  - intros k b Hk Hb. unfold byteAt in Hb.
    rewrite (proj2 (Z.ltb_ge (a + k) 0)) in Hb by lia.
    assert (Hcases : k = 0 \/ k = 1 \/ k = 2 \/ k = 3) by lia.
    destruct Hcases as [-> | [-> | [-> | ->]]].
    + replace (Z.to_nat (a + 0)) with (Z.to_nat a) in Hb by lia.
      rewrite N0 in Hb. inversion Hb. reflexivity.
    + replace (Z.to_nat (a + 1)) with (Z.to_nat a + 1)%nat in Hb by lia.
      rewrite N1 in Hb. inversion Hb. reflexivity.
    + replace (Z.to_nat (a + 2)) with (Z.to_nat a + 2)%nat in Hb by lia.
      rewrite N2 in Hb. inversion Hb. reflexivity.
    + replace (Z.to_nat (a + 3)) with (Z.to_nat a + 3)%nat in Hb by lia.
      rewrite N3 in Hb. inversion Hb. reflexivity.
  - intros j Hj. unfold byteAt. destruct (j <? 0) eqn:E; [reflexivity |].
    apply Z.ltb_ge in E. apply Nother. lia.
Qed.


(** ** The instructions, one by one *)

Section OperandStep.
Variables (s : Interpreter) (stmt : Statment) (m t1 t2 : string) (r1 : Z).
Hypothesis Hnot : isAtEnd s = false.
Hypothesis Hnth : nth_error (statements s) (currentLine s) = Some stmt.
Hypothesis Hline :
  operandLine m (splitStatment (removeComments (sval stmt))) t1 t2.
Hypothesis Hr1 : toNumber t1 = Ok r1.

Lemma fallThrough_advance (x : Interpreter) :
  statements x = statements s -> currentLine x = currentLine s ->
  fallThrough x = Done (advance x stmt).
Proof.
  intros Hx1 Hx2. unfold fallThrough.
  assert (E : nth_error (statements x) (currentLine x) = Some stmt)
    by (rewrite Hx1, Hx2; exact Hnth).
  rewrite E. reflexivity.
Qed.

Hypothesis Hkw : includes keywords m = true.

Lemma operand_tokens :
  exists tokens i,
    splitStatment (removeComments (sval stmt)) = tokens
    /\ (if startsWithLabel tokens then nth 1 tokens "" else hd "" tokens) = m
    /\ ((if startsWithLabel tokens then 1 else 0) + 1)%nat = i
    /\ Nat.eqb (List.length tokens) 0 = false
    /\ arityIsNot tokens i 3 = false
    /\ tokenAt tokens i = Some t1
    /\ tokenAt tokens (i + 1) = Some ","
    /\ tokenAt tokens (i + 2) = Some t2.
Proof.
  inversion Hline as [lbl y1 y2 Htok | y1 y2 Htok]; subst y1 y2.
  - exists [lbl; m; t1; ","; t2], 2%nat.
    assert (Hl : startsWithLabel [lbl; m; t1; ","; t2] = true).
    { unfold startsWithLabel. cbn [List.length tokenAt nth_error].
      rewrite Hkw. reflexivity. }
    rewrite Hl. repeat split.
  - exists [m; t1; ","; t2], 1%nat.
    assert (Hl : startsWithLabel [m; t1; ","; t2] = false).
    { unfold startsWithLabel. cbn [List.length tokenAt nth_error].
      rewrite (toNumber_not_keyword t1 r1 Hr1). reflexivity. }
    rewrite Hl. repeat split.
Qed.

Lemma step_RR (r2 : Z) :
  isInstructionRR m = true ->
  toNumber t2 = Ok r2 ->
  interpretNextLine s = Done (advance (rrSwitch (counted s) m r1 r2) stmt).
Proof.
  intros Hrr Hr2.
  destruct operand_tokens as (tokens & i & Htok & Hm & Hi & Hlen & Har & H1 & H2 & H3).
  destruct (rr_is_not_rm_nor_jump m Hrr) as [Hrm Hj].
  unfold interpretNextLine. fold (counted s).
  change (isAtEnd (counted s)) with (isAtEnd s). rewrite Hnot.
  change (nth_error (statements (counted s)) (currentLine (counted s)))
    with (nth_error (statements s) (currentLine s)).
  rewrite Hnth, Htok, Hlen, Hm, Hi, Hkw.
  assert (HRR : stepRR (counted s) tokens m i
                = Done (rrSwitch (counted s) m r1 r2)).
  { unfold stepRR, tokenNumber, isNotComma.
    rewrite Hrr, Har, H1, H2, H3, Hr1, Hr2. cbn [attempt].
    change (negb (String.eqb "," ",")) with false. cbv iota.
    unfold rrSwitch.
    repeat match goal with
      | |- context [String.eqb m ?k] => destruct (String.eqb m k)
      end; reflexivity. }
  rewrite HRR. cbn [andThen].
  rewrite (stepRM_skip _ _ _ _ Hrm). cbn [andThen].
  rewrite (stepJ_skip _ _ _ _ Hj). cbn [andThen fst snd].
  destruct (stepRR_frame _ _ _ _ _ HRR) as (F1 & _).
  destruct (stepRR_position _ _ _ _ _ HRR) as (P1 & _).
  apply fallThrough_advance; [rewrite F1 | rewrite P1]; reflexivity.
Qed.

Lemma step_RM (addr : number) :
  isInstructionRM m = true ->
  getMemoryAddr s t2 = Ok addr ->
  interpretNextLine s
  = (s1 <== rmSwitch (counted s) m r1 addr ;; Done (advance s1 stmt)).
Proof.
  intros Hrm Haddr.
  destruct operand_tokens as (tokens & i & Htok & Hm & Hi & Hlen & Har & H1 & H2 & H3).
  destruct (rm_is_not_rr_nor_jump m Hrm) as [Hrr Hj].
  unfold interpretNextLine. fold (counted s).
  change (isAtEnd (counted s)) with (isAtEnd s). rewrite Hnot.
  change (nth_error (statements (counted s)) (currentLine (counted s)))
    with (nth_error (statements s) (currentLine s)).
  rewrite Hnth, Htok, Hlen, Hm, Hi, Hkw.
  rewrite (stepRR_skip _ _ _ _ Hrr). cbn [andThen].
  assert (HRM : stepRM (counted s) tokens m i = rmSwitch (counted s) m r1 addr).
  { unfold stepRM, tokenNumber, isNotComma.
    rewrite Hrm, Har, H1, H2, H3, Hr1.
    change (getMemoryAddr (counted s) t2) with (getMemoryAddr s t2).
    rewrite Haddr. cbn [attempt].
    change (negb (String.eqb "," ",")) with false. cbv iota.
    unfold rmSwitch. reflexivity. }
  destruct (rmSwitch (counted s) m r1 addr) as [s1 | e1 s1 |] eqn:E;
    rewrite HRM; cbn [andThen]; try reflexivity.
  rewrite (stepJ_skip _ _ _ _ Hj). cbn [andThen fst snd].
  destruct (stepRM_frame _ _ _ _ _ HRM) as (F1 & _).
  destruct (stepRM_position _ _ _ _ _ HRM) as (P1 & _).
  apply fallThrough_advance; [rewrite F1 | rewrite P1]; reflexivity.
Qed.

End OperandStep.

Section JumpStep.
Variables (s : Interpreter) (stmt : Statment) (m a : string).
Hypothesis Hnot : isAtEnd s = false.
Hypothesis Hnth : nth_error (statements s) (currentLine s) = Some stmt.
Hypothesis Hline : branchLine m (splitStatment (removeComments (sval stmt))) a.
Hypothesis Hm : In m jumpKeywords.

Lemma jump_is_keyword :
  includes keywords m = true /\ isInstructionRR m = false
  /\ isInstructionRM m = false /\ startsWithJ m = true.
Proof.
  pose proof Hm as H. cbn [jumpKeywords In] in H.
  destruct H as [<- | [<- | [<- | [<- | []]]]];
    (split; [| split; [| split]]); reflexivity.
Qed.

Lemma branch_tokens :
  exists tokens i,
    splitStatment (removeComments (sval stmt)) = tokens
    /\ (if startsWithLabel tokens then nth 1 tokens "" else hd "" tokens) = m
    /\ ((if startsWithLabel tokens then 1 else 0) + 1)%nat = i
    /\ Nat.eqb (List.length tokens) 0 = false
    /\ arityIsNot tokens i 1 = false
    /\ tokenAt tokens i = Some a.
Proof.
  destruct jump_is_keyword as (Hkw & _).
  inversion Hline as [lbl y Htok | y Hy Htok]; subst y.
  - exists [lbl; m; a], 2%nat.
    assert (Hl : startsWithLabel [lbl; m; a] = true).
    { unfold startsWithLabel. cbn [List.length tokenAt nth_error].
      rewrite Hkw. reflexivity. }
    rewrite Hl. repeat split.
  - exists [m; a], 1%nat.
    assert (Hl : startsWithLabel [m; a] = false).
    { unfold startsWithLabel. cbn [List.length tokenAt nth_error].
      rewrite Hy. reflexivity. }
    rewrite Hl. repeat split.
Qed.

Lemma step_jump_dispatch :
  exists tokens i,
    tokenAt tokens i = Some a /\ arityIsNot tokens i 1 = false
    /\ interpretNextLine s
       = (j <== stepJ (counted s) tokens m i ;;
          if fst j then Done (snd j) else fallThrough (snd j)).
Proof.
  destruct branch_tokens as (tokens & i & Htok & Hm' & Hi & Hlen & Har & H1).
  destruct jump_is_keyword as (Hkw & Hrr & Hrm & Hj).
  exists tokens, i. split; [exact H1 |]. split; [exact Har |].
  unfold interpretNextLine. fold (counted s).
  change (isAtEnd (counted s)) with (isAtEnd s). rewrite Hnot.
  change (nth_error (statements (counted s)) (currentLine (counted s)))
    with (nth_error (statements s) (currentLine s)).
  rewrite Hnth, Htok, Hlen, Hm', Hi, Hkw.
  rewrite (stepRR_skip _ _ _ _ Hrr). cbn [andThen].
  rewrite (stepRM_skip _ _ _ _ Hrm). cbn [andThen]. reflexivity.
Qed.

Lemma step_jump (z : Z) (ln : nat) :
  getMemoryAddr s a = Ok (Some z) ->
  getStatmentLine s (Some z) = Ok ln ->
  interpretNextLine s
  = Done (if jumpTaken m (eflags s)
          then withCurrentMemoryAddress (withCurrentLine (counted s) ln) z
          else advance (counted s) stmt).
Proof.
  intros Haddr Hln.
  destruct step_jump_dispatch as (tokens & i & H1 & Har & ->).
  destruct jump_is_keyword as (_ & _ & _ & Hj).
  unfold stepJ. rewrite Hj, Har, H1.
  change (getMemoryAddr (counted s) a) with (getMemoryAddr s a).
  rewrite Haddr. cbn [attempt].
  change (getStatmentLine (counted s) (Some z)) with (getStatmentLine s (Some z)).
  rewrite Hln. cbn [attempt].
  change (eflags (counted s)) with (eflags s).
  assert (Hfall : fallThrough (counted s) = Done (advance (counted s) stmt)).
  { unfold fallThrough.
    change (nth_error (statements (counted s)) (currentLine (counted s)))
      with (nth_error (statements s) (currentLine s)).
    rewrite Hnth. reflexivity. }
  unfold jumpTaken. pose proof Hm as H. cbn [jumpKeywords In] in H.
  clear Hline H1 Har Hj.
  destruct H as [<- | [<- | [<- | [<- | []]]]].
  - reflexivity.
  - change (String.eqb "JP" "J") with false.
    change (String.eqb "JP" "JP") with true. cbv iota.
    destruct (negb (flagSet (eflags s) FLAGS.SF)); cbn [andThen fst snd];
      [reflexivity | exact Hfall].
  - change (String.eqb "JN" "J") with false.
    change (String.eqb "JN" "JP") with false.
    change (String.eqb "JN" "JN") with true. cbv iota.
    destruct (flagSet (eflags s) FLAGS.SF); cbn [andThen fst snd];
      [reflexivity | exact Hfall].
  - change (String.eqb "JZ" "J") with false.
    change (String.eqb "JZ" "JP") with false.
    change (String.eqb "JZ" "JN") with false.
    change (String.eqb "JZ" "JZ") with true. cbv iota.
    destruct (flagSet (eflags s) FLAGS.ZF); cbn [andThen fst snd];
      [reflexivity | exact Hfall].
Qed.

Lemma step_jump_undefined (e : error) :
  getMemoryAddr s a = Fail e ->
  interpretNextLine s = Thrown e (counted s).
Proof.
  intros Haddr.
  destruct step_jump_dispatch as (tokens & i & H1 & Har & ->).
  destruct jump_is_keyword as (_ & _ & _ & Hj).
  unfold stepJ. rewrite Hj, Har, H1.
  change (getMemoryAddr (counted s) a) with (getMemoryAddr s a).
  rewrite Haddr. reflexivity.
Qed.

Lemma step_jump_invalid (addr : number) (e : error) :
  getMemoryAddr s a = Ok addr ->
  getStatmentLine s addr = Fail e ->
  interpretNextLine s = Thrown e (counted s).
Proof.
  intros Haddr Hln.
  destruct step_jump_dispatch as (tokens & i & H1 & Har & ->).
  destruct jump_is_keyword as (_ & _ & _ & Hj).
  unfold stepJ. rewrite Hj, Har, H1.
  change (getMemoryAddr (counted s) a) with (getMemoryAddr s a).
  rewrite Haddr. cbn [attempt].
  change (getStatmentLine (counted s) addr) with (getStatmentLine s addr).
  rewrite Hln. reflexivity.
Qed.

End JumpStep.

(** ** Theorems on the layout pass *)



(** X2. After [preprocess] on a fresh interpreter, every label recorded
    names a line of the program and holds the address at which that line
    starts: the sum of the footprints of the lines before it. *)
Theorem labels_hold_line_addresses (code : string) (s : Interpreter) (l : Label) :
  preprocess (newInterpreter code) = Done s ->
  In l (labels s) ->
  (line l < List.length (statements s))%nat
  /\ address l = addressOf (statements s) (line l).
Proof. intros H Hl. apply (proj2 (preprocess_layout code s H) l Hl). Qed.

Lemma labels_hold_line_addresses_witness :
  exists s,
    preprocess (newInterpreter compareProgram) = Done s
    /\ address (mkLabel "Y" 1 4) = addressOf (statements s) 1.
Proof.
  eexists. split; [vm_compute; reflexivity |].
  refine (proj2 (labels_hold_line_addresses compareProgram _ (mkLabel "Y" 1 4) _ _)).
  - vm_compute. reflexivity.
  - right. left. reflexivity.
Defined.

(** X3. After [preprocess] on a fresh interpreter, no two labels have the
    same name. *)
Theorem label_names_unique (code : string) (s : Interpreter) :
  preprocess (newInterpreter code) = Done s ->
  NoDup (map label (labels s)).
Proof. intros H. apply (proj2 (proj2 (preprocess_image code s H))). Qed.

Lemma label_names_unique_witness :
  exists s,
    preprocess (newInterpreter compareProgram) = Done s
    /\ NoDup (map label (labels s)).
Proof.
  eexists. split; [vm_compute; reflexivity |].
  apply (label_names_unique compareProgram). vm_compute. reflexivity.
Defined.

(** X4. After [preprocess] on a fresh interpreter, every byte of the
    memory image holds a value from 0 to 255, and the image is a run of
    [DATA] bytes followed by a run of [INSTRUCTION] placeholders: no data
    declaration is laid out after executable code. *)
Theorem image_is_data_then_code (code : string) (s : Interpreter) :
  preprocess (newInterpreter code) = Done s ->
  Forall isOctet (bytes s) /\ dataBeforeCode (bytes s).
Proof.
  intros H. destruct (preprocess_image code s H) as (H1 & H2 & _).
  split; assumption.
Qed.

Lemma image_is_data_then_code_witness :
  exists s,
    preprocess (newInterpreter compareProgram) = Done s
    /\ Forall isOctet (bytes s) /\ dataBeforeCode (bytes s).
Proof.
  eexists. split; [vm_compute; reflexivity |].
  apply (image_is_data_then_code compareProgram). vm_compute. reflexivity.
Defined.

Lemma find_label_unique (ls : list Label) (l : Label) :
  NoDup (map label ls) -> In l ls ->
  find (fun c => String.eqb (label c) (label l)) ls = Some l.
Proof.
  induction ls as [| h t IH]; intros Hnd Hin; [destruct Hin |].
  cbn [map] in Hnd. inversion Hnd as [| x xs Hnotin Hnd']. subst.
  cbn [find]. destruct Hin as [-> | Hin].
  - rewrite String.eqb_refl. reflexivity.
  - destruct (String.eqb (label h) (label l)) eqn:E.
    + exfalso. apply String.eqb_eq in E. apply Hnotin. rewrite E.
      apply in_map. exact Hin.
    + apply IH; assumption.
Qed.

(** X5. After [preprocess] on a fresh interpreter, an operand that is the
    name of a recorded label resolves to the address of that label's line,
    unless the name is a string of digits or has the shape [0(digits)],
    which are read as an absolute address and a register reference before
    any label is looked up. *)
Theorem label_operand_resolves (code : string) (s : Interpreter) (l : Label) :
  preprocess (newInterpreter code) = Done s ->
  In l (labels s) ->
  JsString.allDigits (label l) = false ->
  indirectOperand (label l) = None ->
  getMemoryAddr s (label l) = Ok (Some (addressOf (statements s) (line l))).
Proof.
  intros H Hl Hd Hi. unfold getMemoryAddr.
  rewrite Hd, andb_false_r, Hi.
  rewrite (find_label_unique _ _ (proj2 (proj2 (preprocess_image code s H))) Hl).
  rewrite (proj2 (proj2 (preprocess_layout code s H) l Hl)). reflexivity.
Qed.

Lemma label_operand_resolves_witness :
  exists s,
    preprocess (newInterpreter compareProgram) = Done s
    /\ getMemoryAddr s "Y" = Ok (Some 4).
Proof.
  eexists. split; [vm_compute; reflexivity |].
  refine (label_operand_resolves compareProgram _ (mkLabel "Y" 1 4) _ _ _ _).
  - vm_compute. reflexivity.
  - right. left. reflexivity.
  - reflexivity.
  - reflexivity.
Defined.

(** X6. After [preprocess] on a fresh interpreter that left no negative
    footprint, the address of a label whose line has a non-zero footprint
    is a valid jump target, and [getStatmentLine] maps it back to the
    label's line. *)
Theorem label_address_is_jump_target
  (code : string) (s : Interpreter) (l : Label) (st : Statment) :
  preprocess (newInterpreter code) = Done s ->
  nonNegativeFootprints (statements s) ->
  In l (labels s) ->
  nth_error (statements s) (line l) = Some st ->
  byteSize st <> 0 ->
  getStatmentLine s (Some (address l)) = Ok (line l).
Proof.
  intros H Hnn Hl Hst Hnz.
  destruct (proj2 (preprocess_layout code s H) l Hl) as [_ Haddr].
  unfold getStatmentLine.
  assert (E : getStatmentLineFrom (statements s) 0 0 (address l) = Some (line l)).
  { apply (walk_spec _ Hnn). exists (line l), st.
    unfold addressOf in Haddr. repeat split; try assumption. lia. }
  rewrite E. reflexivity.
Qed.

Lemma label_address_is_jump_target_witness :
  getStatmentLine scenarioState (Some 0) = Ok 0%nat.
Proof.
  refine (label_address_is_jump_target scenarioProgram scenarioState
            (mkLabel "ONE" 0 0) (mkStatment "ONE DC INTEGER(10)" 4) _ _ _ _ _).
  - vm_compute. reflexivity.
  - unfold nonNegativeFootprints.
    let l := eval vm_compute in (statements scenarioState) in
    change (statements scenarioState) with l.
    repeat (apply Forall_cons; [cbn; lia |]). apply Forall_nil.
  - left. reflexivity.
  - reflexivity.
  - discriminate.
Defined.

(** ** Theorems on execution *)

Lemma registers_step d s r :
  registers s = repeat 0 16 /\ eflags s = 0 ->
  preprocessLine d s = Done r ->
  registers (snd r) = repeat 0 16 /\ eflags (snd r) = 0.
Proof.
  intros (Hr & He) Hline.
  destruct (preprocessLine_inv _ _ _ Hline) as (stmt & _ & Hcases).
  cbv zeta in Hcases.
  destruct Hcases as [[_ ->] | (_ & s1' & s2 & operand & H1 & _ & _ & _ & H2 & ->)].
  - cbn. split; assumption.
  - destruct (layout_appends _ _ _ _ H2) as ((_ & F2 & F3 & _) & _).
    cbn [snd withCurrentLine withStatements registers eflags].
    rewrite F2, F3.
    destruct (addLabel_spec _ _ _ H1) as [-> | (_ & _ & ->)]; cbn;
      split; assumption.
Qed.

Lemma preprocess_registers (code : string) (s : Interpreter) :
  preprocess (newInterpreter code) = Done s ->
  registers s = repeat 0 16 /\ eflags s = 0.
Proof.
  unfold preprocess. intros H.
  destruct (preprocessLoop _ true (newInterpreter code)) as [s1 | |] eqn:E;
    try discriminate.
  cbn [andThen] in H. inversion H. subst s. clear H.
  cbn [withCurrentMemoryAddress withCurrentLine registers eflags].
  pose proof (preprocessLoop_invariant
                (fun _ s => registers s = repeat 0 16 /\ eflags s = 0)
                (fun d s r HI _ Hr => registers_step d s r HI Hr)
                _ true (newInterpreter code) s1 (conj eq_refl eq_refl) E)
    as (_ & HI).
  exact HI.
Qed.

(** X7. Execution never rewrites the program: after any number of steps
    the statements (text and footprint) and the labels are those the steps
    started from. *)
Theorem program_is_read_only (n : nat) (s s' : Interpreter) :
  steps n s = Done s' ->
  statements s' = statements s /\ labels s' = labels s.
Proof.
  intros H. destruct (steps_frame n s s' H) as (H1 & H2 & _).
  split; assumption.
Qed.

Lemma program_is_read_only_witness :
  exists s0 s',
    preprocess (newInterpreter scenarioProgram) = Done s0
    /\ steps 2 s0 = Done s'
    /\ statements s' = statements s0.
Proof.
  eexists. eexists. split; [vm_compute; reflexivity |].
  split; [vm_compute; reflexivity |].
  refine (proj1 (program_is_read_only 2 _ _ _)). vm_compute. reflexivity.
Defined.

(** X8. From a fresh interpreter, after [preprocess] and any number of
    steps, the register file still has 16 cells and each holds a 32-bit
    signed integer. *)
Theorem registers_stay_int32 (code : string) (n : nat) (s0 s : Interpreter) :
  preprocess (newInterpreter code) = Done s0 ->
  steps n s0 = Done s ->
  List.length (registers s) = 16%nat /\ Forall isInt32 (registers s).
Proof.
  intros Hpre Hsteps.
  destruct (preprocess_registers code s0 Hpre) as [Hr _].
  destruct (steps_frame n s0 s Hsteps) as (_ & _ & _ & H4 & H5 & _).
  rewrite Hr in H4, H5. split; [rewrite H4; reflexivity |].
  apply H5. apply Forall_forall. intros x Hx. apply repeat_spec in Hx.
  subst x. unfold isInt32. lia.
Qed.

Lemma registers_stay_int32_witness :
  exists s,
    runSteps divideProgram 5 = Done s
    /\ List.length (registers s) = 16%nat /\ Forall isInt32 (registers s).
Proof.
  eexists. split; [vm_compute; reflexivity |].
  eapply (registers_stay_int32 divideProgram 5).
  - vm_compute. reflexivity.
  - vm_compute. reflexivity.
Defined.

(** X9. A run in which every store falls on four existing bytes of the
    memory image (the stores of the model: a store elsewhere makes the
    array grow and is outside it): from a fresh interpreter, after
    [preprocess] and any number of steps of such a run, the image has the
    length the layout gave it and every byte still holds a value from 0 to
    255. *)
Theorem memory_stays_octets (code : string) (n : nat) (s0 s : Interpreter) :
  preprocess (newInterpreter code) = Done s0 ->
  steps n s0 = Done s ->
  List.length (bytes s) = List.length (bytes s0)
  /\ Forall isOctet (bytes s).
Proof.
  intros Hpre Hsteps.
  destruct (preprocess_image code s0 Hpre) as (Ho & _).
  destruct (steps_frame n s0 s Hsteps) as (_ & _ & H3 & _ & _ & H6).
  split; [exact H3 | apply H6, Ho].
Qed.

Lemma memory_stays_octets_witness :
  exists s,
    runSteps tourProgram 7 = Done s
    /\ List.length (bytes s) = 36%nat /\ Forall isOctet (bytes s).
Proof.
  eexists. split; [vm_compute; reflexivity |].
  destruct (memory_stays_octets tourProgram 7 (tourState 0) (tourState 7))
    as [H1 H2].
  - vm_compute. reflexivity.
  - vm_compute. reflexivity.
  - split; [reflexivity | exact H2].
Defined.

(** X10. A step that throws is atomic: the state it leaves is the one it
    found, with the execution counter incremented and nothing else
    changed; and it throws a runtime error other than the step ceiling, or
    a [TypeError], never a preprocessing error. *)
Theorem step_error_is_atomic (s s' : Interpreter) (e : error) :
  interpretNextLine s = Thrown e s' ->
  s' = withExecutedLines s (executedLines s + 1)%nat /\ isStepError e.
Proof. intros H. apply (interpretNextLine_thrown s e s' H). Qed.

Lemma step_error_is_atomic_witness :
  counted (tourState 9) = withExecutedLines (tourState 9)
                            (executedLines (tourState 9) + 1)%nat
  /\ isStepError (RuntimeError (UndefinedLabel 10 "NOWHERE")).
Proof.
  apply (step_error_is_atomic (tourState 9) (counted (tourState 9))
           (RuntimeError (UndefinedLabel 10 "NOWHERE"))).
  vm_compute. reflexivity.
Defined.

(** X11. Past the last statement every step only counts: after [n] more
    steps the state differs from the one at the end in the execution
    counter alone, which has grown by [n]. *)
Theorem end_is_absorbing (n : nat) (s : Interpreter) :
  isAtEnd s = true ->
  steps n s = Done (withExecutedLines s (executedLines s + n)%nat).
Proof.
  revert s. induction n as [| n IH]; intros s Hend; cbn [steps].
  - rewrite Nat.add_0_r, withExecutedLines_same. reflexivity.
  - rewrite (interpretNextLine_atEnd s Hend). cbn [andThen].
    rewrite IH by exact Hend. unfold withExecutedLines. cbn.
    replace (executedLines s + 1 + n)%nat with (executedLines s + S n)%nat by lia.
    reflexivity.
Qed.

Lemma end_is_absorbing_witness :
  steps 3 (withCurrentLine (tourState 0) 11)
  = Done (withExecutedLines (withCurrentLine (tourState 0) 11)
            (executedLines (withCurrentLine (tourState 0) 11) + 3)%nat).
Proof.
  apply (end_is_absorbing 3 (withCurrentLine (tourState 0) 11)).
  vm_compute. reflexivity.
Defined.

(** X12. The outcomes of [interpret], entered with the execution counter
    not above the ceiling: it returns normally only past the last
    statement and with the counter below 1000; it throws the step-ceiling
    error only with the counter at exactly 1000; and whatever it throws is
    the step-ceiling error, a step error or an error of the layout pass. *)
Theorem interpret_outcomes (s : Interpreter) :
  (executedLines s <= MAX_LINES)%nat ->
  (forall s', interpret s = Done s' ->
              isAtEnd s' = true /\ (executedLines s' < MAX_LINES)%nat)
  /\ (forall s', interpret s = Thrown (RuntimeError ExecutionLimit) s' ->
                 executedLines s' = MAX_LINES)
  /\ (forall e s', interpret s = Thrown e s' ->
                   e = RuntimeError ExecutionLimit
                   \/ isStepError e \/ isLayoutError e).
Proof.
  intros Hle. unfold interpret.
  destruct (preprocess s) as [s1 | e1 s1 |] eqn:Epre; cbn [andThen].
  2:{ pose proof (preprocess_thrown _ _ _ Epre) as Hl.
      split; [discriminate |]. split.
      - intros s' H. inversion H. subst.
        destruct Hl as [Hl | [Hl | (m & Hl)]]; discriminate.
      - intros e s' H. inversion H. subst. right. right. exact Hl. }
  2:{ repeat split; discriminate. }
  destruct (preprocess_position _ _ Epre) as (_ & _ & Hex).
  destruct (interpretLoop (MAX_LINES - executedLines s1) s1)
    as [s2 | e2 s2 |] eqn:Eloop; cbn [andThen].
  2:{ pose proof (interpretLoop_thrown _ _ _ _ Eloop) as Hs.
      split; [discriminate |]. split.
      - intros s' H. inversion H. subst.
        destruct Hs as [Hs | (m & Hs & Hm)]; [discriminate |].
        inversion Hs. subst. exfalso. apply Hm. reflexivity.
      - intros e s' H. inversion H. subst. right. left. exact Hs. }
  2:{ repeat split; discriminate. }
  pose proof (interpretLoop_complete _ _ _ (Nat.le_refl _) Eloop) as Hexit.
  assert (Hle1 : (executedLines s1 <= MAX_LINES)%nat) by (rewrite Hex; exact Hle).
  pose proof (interpretLoop_bound _ s1 s2 Hle1 Eloop) as Hbound.
  destruct (Nat.leb MAX_LINES (executedLines s2)) eqn:C.
  - apply Nat.leb_le in C. split; [discriminate |]. split.
    + intros s' H. inversion H. subst. lia.
    + intros e s' H. inversion H. left. reflexivity.
  - apply Nat.leb_gt in C. split; [| split; discriminate].
    intros s' H. inversion H. subst. split; [| exact C].
    rewrite (proj2 (Nat.ltb_lt _ _) C), andb_true_r in Hexit.
    destruct (isAtEnd s'); [reflexivity | discriminate].
Qed.

Lemma interpret_outcomes_witness :
  exists s',
    interpret (newInterpreter scenarioProgram) = Done s'
    /\ isAtEnd s' = true /\ (executedLines s' < MAX_LINES)%nat.
Proof.
  eexists. split; [vm_compute; reflexivity |].
  refine (proj1 (interpret_outcomes (newInterpreter scenarioProgram) _) _ _).
  - cbn. lia.
  - vm_compute. reflexivity.
Defined.

(** ** Theorems on the instructions *)

Lemma regGet_regSet_other (regs : list Z) (r1 r : Z) (v : number) :
  r <> r1 -> regGet (regSet regs r1 v) r = regGet regs r.
Proof.
  intros Hr. unfold regGet, regSet.
  destruct ((0 <=? r) && (r <? 16)) eqn:C; [| reflexivity].
  destruct ((0 <=? r1) && (r1 <? 16)) eqn:C1; [| reflexivity].
  apply andb_true_iff in C. destruct C as [C _]. apply Z.leb_le in C.
  apply andb_true_iff in C1. destruct C1 as [C1 _]. apply Z.leb_le in C1.
  apply nth_error_replaceAt_other. lia.
Qed.

Lemma writeBack_wrote (s : Interpreter) (stmt : Statment) (r1 a : Z) (v : number) :
  regGet (registers s) r1 = Some a ->
  wrote s (advance (writeBack (counted s) r1 v) stmt) stmt r1 (numToInt32 v).
Proof.
  intros Ha. unfold wrote, advance, writeBack, counted.
  cbn [withCurrentLine withCurrentMemoryAddress withEflags withRegisters
       withExecutedLines registers eflags bytes currentLine currentMemoryAddress].
  rewrite (regGet_regSet_same (registers s) r1 a v Ha).
  repeat split. intros r Hr. apply regGet_regSet_other. exact Hr.
Qed.

Lemma rr_keyword (m : string) : isInstructionRR m = true -> includes keywords m = true.
Proof.
  unfold isInstructionRR, includes at 1. intros H. apply existsb_exists in H.
  destruct H as (kw & Hin & Heq). apply String.eqb_eq in Heq. subst kw.
  cbn [rrKeywords In] in Hin.
  repeat (destruct Hin as [<- | Hin]; [reflexivity |]). destruct Hin.
Qed.

Lemma rm_keyword (m : string) : isInstructionRM m = true -> includes keywords m = true.
Proof.
  unfold isInstructionRM, includes at 1. intros H. apply existsb_exists in H.
  destruct H as (kw & Hin & Heq). apply String.eqb_eq in Heq. subst kw.
  cbn [rmKeywords In] in Hin.
  repeat (destruct Hin as [<- | Hin]; [reflexivity |]). destruct Hin.
Qed.

Lemma roundToDouble_exact (z : Z) : Z.abs z < maxSafe -> roundToDouble z = z.
Proof.
  intros H. unfold roundToDouble. rewrite (proj2 (Z.ltb_lt _ _) H). reflexivity.
Qed.

(** X13. The register-register arithmetic: [AR], [SR] and [MR] write to
    [r1] the sum, the difference and the product of the two registers
    reduced to 32 bits ([ToInt32]; for [MR] as long as the exact product is
    below 2^53 in absolute value), [LR] copies [r2]; all of them recompute
    the flags from the value written, leave the other registers and the
    memory alone, and advance to the next statement. *)
Theorem register_register_arithmetic
  (s : Interpreter) (stmt : Statment) (m t1 t2 : string) (r1 r2 x y v : Z) :
  isAtEnd s = false ->
  nth_error (statements s) (currentLine s) = Some stmt ->
  operandLine m (splitStatment (removeComments (sval stmt))) t1 t2 ->
  toNumber t1 = Ok r1 -> toNumber t2 = Ok r2 ->
  regGet (registers s) r1 = Some x ->
  regGet (registers s) r2 = Some y ->
  (m = "AR" /\ v = x + y) \/ (m = "SR" /\ v = x - y)
  \/ (m = "MR" /\ v = x * y /\ Z.abs (x * y) < 2 ^ 53) \/ (m = "LR" /\ v = y) ->
  exists s',
    interpretNextLine s = Done s' /\ wrote s s' stmt r1 (toInt32 v).
Proof.
  intros Hnot Hnth Hline Hr1 Hr2 Hx Hy Hm.
  assert (Hrr : isInstructionRR m = true)
    by (destruct Hm as [[-> _] | [[-> _] | [[-> _] | [-> _]]]]; reflexivity).
  pose proof (step_RR s stmt m t1 t2 r1 Hnot Hnth Hline Hr1 (rr_keyword m Hrr)
                r2 Hrr Hr2) as Hstep.
  eexists. split; [exact Hstep |].
  assert (Hsw : exists w, rrSwitch (counted s) m r1 r2 = writeBack (counted s) r1 w
                          /\ numToInt32 w = toInt32 v).
  { unfold rrSwitch. change (registers (counted s)) with (registers s).
    rewrite Hx, Hy.
    destruct Hm as [[-> ->] | [[-> ->] | [(-> & -> & Hs) | [-> ->]]]];
      eexists; (split; [reflexivity |]); cbn [numAdd numSub numMul numToInt32];
      try reflexivity.
    rewrite roundToDouble_exact by exact Hs. reflexivity. }
  destruct Hsw as (w & -> & <-). apply (writeBack_wrote s stmt r1 x w Hx).
Qed.

Lemma register_register_arithmetic_witness :
  exists s',
    interpretNextLine (tourState 4) = Done s'
    /\ wrote (tourState 4) s' (mkStatment "AR 0, 1" 2) 0 (toInt32 (-7 + 2)).
Proof.
  apply (register_register_arithmetic (tourState 4) (mkStatment "AR 0, 1" 2)
           "AR" "0" "1" 0 1 (-7) 2 (-7 + 2)).
  - vm_compute. reflexivity.
  - vm_compute. reflexivity.
  - exact (OperandPlain "AR" "0" "1").
  - reflexivity.
  - reflexivity.
  - vm_compute. reflexivity.
  - vm_compute. reflexivity.
  - left. split; reflexivity.
Defined.

(** X14. [CR r1, r2] writes nothing but the flags: afterwards Zero is set
    iff the two registers are equal and Sign iff the first is below the
    second, never both; registers and memory are untouched and the
    position advances to the next statement. *)
Theorem compare_registers
  (s : Interpreter) (stmt : Statment) (t1 t2 : string) (r1 r2 x y : Z) :
  isAtEnd s = false ->
  nth_error (statements s) (currentLine s) = Some stmt ->
  operandLine "CR" (splitStatment (removeComments (sval stmt))) t1 t2 ->
  toNumber t1 = Ok r1 -> toNumber t2 = Ok r2 ->
  regGet (registers s) r1 = Some x ->
  regGet (registers s) r2 = Some y ->
  exists s',
    interpretNextLine s = Done s'
    /\ flagSet (eflags s') FLAGS.ZF = (x =? y)
    /\ flagSet (eflags s') FLAGS.SF = (x <? y)
    /\ registers s' = registers s
    /\ bytes s' = bytes s
    /\ currentLine s' = (currentLine s + 1)%nat
    /\ currentMemoryAddress s' = currentMemoryAddress s + byteSize stmt.
Proof.
  intros Hnot Hnth Hline Hr1 Hr2 Hx Hy.
  pose proof (step_RR s stmt "CR" t1 t2 r1 Hnot Hnth Hline Hr1 eq_refl
                r2 eq_refl Hr2) as Hstep.
  eexists. split; [exact Hstep |].
  unfold rrSwitch. change (registers (counted s)) with (registers s).
  rewrite Hx, Hy.
  change (String.eqb "CR" "AR") with false.
  change (String.eqb "CR" "SR") with false.
  change (String.eqb "CR" "MR") with false.
  change (String.eqb "CR" "DR") with false.
  change (String.eqb "CR" "CR") with true. cbv iota.
  unfold advance, counted.
  cbn [withCurrentLine withCurrentMemoryAddress withEflags withExecutedLines
       registers eflags bytes currentLine currentMemoryAddress numSub].
  destruct (updateEflags_law (x - y)) as (HZ & HS & _). rewrite HZ, HS.
  repeat split.
  - destruct (x - y =? 0) eqn:E1; destruct (x =? y) eqn:E2; try reflexivity;
      rewrite ?Z.eqb_eq, ?Z.eqb_neq in *; lia.
  - destruct (x - y <? 0) eqn:E1; destruct (x <? y) eqn:E2; try reflexivity;
      rewrite ?Z.ltb_lt, ?Z.ltb_ge in *; lia.
Qed.

Lemma compare_registers_witness :
  exists s',
    interpretNextLine (tourState 5) = Done s'
    /\ flagSet (eflags s') FLAGS.ZF = (-5 =? 2)
    /\ flagSet (eflags s') FLAGS.SF = (-5 <? 2).
Proof.
  destruct (compare_registers (tourState 5) (mkStatment "CR 0, 1" 2)
              "0" "1" 0 1 (-5) 2)
    as (s' & H1 & H2 & H3 & _).
  - vm_compute. reflexivity.
  - vm_compute. reflexivity.
  - exact (OperandPlain "CR" "0" "1").
  - reflexivity.
  - reflexivity.
  - vm_compute. reflexivity.
  - vm_compute. reflexivity.
  - exists s'. split; [exact H1 | split; [exact H2 | exact H3]].
Defined.

(** X15. The register-memory loads: [L] writes the memory word to [r1],
    [A] and [S] write the sum and the difference of the register and the
    memory word, reduced to 32 bits; each recomputes the flags from the
    value written, leaves the other registers and the memory alone, and
    advances to the next statement.  When the word does not lie on four
    existing bytes the step throws a [TypeError] and changes nothing. *)
Theorem register_memory_arithmetic
  (s : Interpreter) (stmt : Statment) (m t1 t2 : string) (r1 x : Z)
  (addr : number) :
  isAtEnd s = false ->
  nth_error (statements s) (currentLine s) = Some stmt ->
  operandLine m (splitStatment (removeComments (sval stmt))) t1 t2 ->
  toNumber t1 = Ok r1 ->
  regGet (registers s) r1 = Some x ->
  getMemoryAddr s t2 = Ok addr ->
  m = "L" \/ m = "A" \/ m = "S" ->
  (forall w, getNumberFromMemory s addr = Ok w ->
     exists s',
       interpretNextLine s = Done s'
       /\ wrote s s' stmt r1
            (toInt32 (if String.eqb m "L" then w
                      else if String.eqb m "A" then x + w else x - w)))
  /\ (forall e, getNumberFromMemory s addr = Fail e ->
        interpretNextLine s = Thrown TypeError (counted s)).
Proof.
  intros Hnot Hnth Hline Hr1 Hx Haddr Hm.
  assert (Hrm : isInstructionRM m = true)
    by (destruct Hm as [-> | [-> | ->]]; reflexivity).
  pose proof (step_RM s stmt m t1 t2 r1 Hnot Hnth Hline Hr1 (rm_keyword m Hrm)
                addr Hrm Haddr) as Hstep.
  rewrite Hstep. unfold rmSwitch.
  change (getNumberFromMemory (counted s) addr) with (getNumberFromMemory s addr).
  change (registers (counted s)) with (registers s). rewrite Hx.
  split.
  - intros w Hw. rewrite Hw.
    destruct Hm as [-> | [-> | ->]]; cbn [attempt andThen String.eqb Ascii.eqb Bool.eqb];
      eexists; (split; [reflexivity |]).
    + apply (writeBack_wrote s stmt r1 x (Some w) Hx).
    + apply (writeBack_wrote s stmt r1 x (Some (x + w)) Hx).
    + apply (writeBack_wrote s stmt r1 x (Some (x - w)) Hx).
  - intros e He. rewrite He. apply getNumberFromMemory_fail in He. subst e.
    destruct Hm as [-> | [-> | ->]]; reflexivity.
Qed.

Lemma register_memory_arithmetic_witness :
  exists s',
    interpretNextLine (tourState 3) = Done s'
    /\ wrote (tourState 3) s' (mkStatment "L 1, B" 4) 1 (toInt32 2).
Proof.
  refine (proj1 (register_memory_arithmetic (tourState 3) (mkStatment "L 1, B" 4)
                   "L" "1" "B" 1 0 (Some 4) _ _ _ _ _ _ _) 2 _).
  - vm_compute. reflexivity.
  - vm_compute. reflexivity.
  - exact (OperandPlain "L" "1" "B").
  - reflexivity.
  - vm_compute. reflexivity.
  - vm_compute. reflexivity.
  - left. reflexivity.
  - vm_compute. reflexivity.
Defined.

(** X16. [LA r1, addr] writes the resolved address itself to [r1], reduced
    to 32 bits, without reading memory: it succeeds whether or not the
    address lies inside the memory image. *)
Theorem load_address
  (s : Interpreter) (stmt : Statment) (t1 t2 : string) (r1 x a : Z) :
  isAtEnd s = false ->
  nth_error (statements s) (currentLine s) = Some stmt ->
  operandLine "LA" (splitStatment (removeComments (sval stmt))) t1 t2 ->
  toNumber t1 = Ok r1 ->
  regGet (registers s) r1 = Some x ->
  getMemoryAddr s t2 = Ok (Some a) ->
  exists s',
    interpretNextLine s = Done s' /\ wrote s s' stmt r1 (toInt32 a).
Proof.
  intros Hnot Hnth Hline Hr1 Hx Haddr.
  pose proof (step_RM s stmt "LA" t1 t2 r1 Hnot Hnth Hline Hr1 eq_refl
                (Some a) eq_refl Haddr) as Hstep.
  rewrite Hstep. eexists. split; [reflexivity |].
  apply (writeBack_wrote s stmt r1 x (Some a) Hx).
Qed.

Lemma load_address_witness :
  exists s',
    interpretNextLine (tourState 7) = Done s'
    /\ wrote (tourState 7) s' (mkStatment "LA 2, B" 4) 2 (toInt32 4).
Proof.
  apply (load_address (tourState 7) (mkStatment "LA 2, B" 4) "2" "B" 2 0 4).
  - vm_compute. reflexivity.
  - vm_compute. reflexivity.
  - exact (OperandPlain "LA" "2" "B").
  - reflexivity.
  - vm_compute. reflexivity.
  - vm_compute. reflexivity.
Defined.

Lemma setNumberInMemory_in_range (s : Interpreter) (a : Z) (num : number) :
  0 <= a -> a + 3 < Z.of_nat (List.length (bytes s)) ->
  exists bs, setNumberInMemory s (Some a) num = Ok bs.
Proof.
  intros H0 H3. unfold setNumberInMemory, numberToBytes.
  rewrite (proj2 (Z.leb_le 0 a) H0), (proj2 (Z.ltb_lt _ _) H3).
  eexists. reflexivity.
Qed.

(** X17. [ST r1, addr] on four existing bytes: afterwards the word at
    [addr] reads back as the value of the register, the bytes outside
    [addr .. addr+3] and the length of the image are unchanged, no
    register is written, the flags are those of the register, and the
    position advances to the next statement. *)
Theorem store_register
  (s : Interpreter) (stmt : Statment) (t1 t2 : string) (r1 x a : Z) :
  isAtEnd s = false ->
  nth_error (statements s) (currentLine s) = Some stmt ->
  operandLine "ST" (splitStatment (removeComments (sval stmt))) t1 t2 ->
  toNumber t1 = Ok r1 ->
  regGet (registers s) r1 = Some x ->
  isInt32 x ->
  getMemoryAddr s t2 = Ok (Some a) ->
  0 <= a -> a + 3 < Z.of_nat (List.length (bytes s)) ->
  exists s',
    interpretNextLine s = Done s'
    /\ getNumberFromMemory s' (Some a) = Ok x
    /\ (forall j, j < a \/ a + 3 < j ->
                  byteAt (bytes s') (Some j) = byteAt (bytes s) (Some j))
    /\ List.length (bytes s') = List.length (bytes s)
    /\ registers s' = registers s
    /\ eflags s' = updateEflags (Some x)
    /\ currentLine s' = (currentLine s + 1)%nat
    /\ currentMemoryAddress s' = currentMemoryAddress s + byteSize stmt.
Proof.
  intros Hnot Hnth Hline Hr1 Hx Hint Haddr H0 H3.
  pose proof (step_RM s stmt "ST" t1 t2 r1 Hnot Hnth Hline Hr1 eq_refl
                (Some a) eq_refl Haddr) as Hstep.
  destruct (setNumberInMemory_in_range s a (Some x) H0 H3) as (bs & Hbs).
  destruct (store_load_core s a (Some x) bs Hbs) as (_ & Hload & Hlen & _ & Hout).
  rewrite Hstep. unfold rmSwitch.
  change (registers (counted s)) with (registers s). rewrite Hx.
  change (String.eqb "ST" "A") with false.
  change (String.eqb "ST" "S") with false.
  change (String.eqb "ST" "M") with false.
  change (String.eqb "ST" "D") with false.
  change (String.eqb "ST" "C") with false.
  change (String.eqb "ST" "L") with false.
  change (String.eqb "ST" "ST") with true. cbv iota.
  change (setNumberInMemory (counted s) (Some a) (Some x))
    with (setNumberInMemory s (Some a) (Some x)).
  rewrite Hbs. cbn [attempt andThen]. eexists. split; [reflexivity |].
  unfold advance, counted.
  cbn [withCurrentLine withCurrentMemoryAddress withEflags withBytes
       withExecutedLines registers eflags bytes currentLine currentMemoryAddress].
  rewrite Hx. repeat split; try assumption.
  exact (Hload x eq_refl Hint).
Qed.

Lemma store_register_witness :
  exists s',
    interpretNextLine (tourState 6) = Done s'
    /\ getNumberFromMemory s' (Some 0) = Ok (-5).
Proof.
  destruct (store_register (tourState 6) (mkStatment "ST 0, A" 4)
              "0" "A" 0 (-5) 0)
    as (s' & H1 & H2 & _).
  - vm_compute. reflexivity.
  - vm_compute. reflexivity.
  - exact (OperandPlain "ST" "0" "A").
  - reflexivity.
  - vm_compute. reflexivity.
  - unfold isInt32. lia.
  - vm_compute. reflexivity.
  - lia.
  - vm_compute. reflexivity.
  - exists s'. split; [exact H1 | exact H2].
Defined.

(** X18. The jumps.  With a target that resolves to the start of a
    statement, [J] always jumps, [JP] jumps iff Sign is clear, [JN] iff
    Sign is set, [JZ] iff Zero is set (so exactly one of [JP] and [JN] is
    taken); a jump taken sets the position to the target statement and
    address, a jump not taken advances to the next statement; no jump
    touches registers, flags or memory. *)
Theorem jump_semantics
  (s : Interpreter) (stmt : Statment) (m a : string) (z : Z) (ln : nat) :
  isAtEnd s = false ->
  nth_error (statements s) (currentLine s) = Some stmt ->
  branchLine m (splitStatment (removeComments (sval stmt))) a ->
  In m jumpKeywords ->
  getMemoryAddr s a = Ok (Some z) ->
  getStatmentLine s (Some z) = Ok ln ->
  let taken :=
    String.eqb m "J"
    || (String.eqb m "JP" && negb (flagSet (eflags s) FLAGS.SF))
    || (String.eqb m "JN" && flagSet (eflags s) FLAGS.SF)
    || (String.eqb m "JZ" && flagSet (eflags s) FLAGS.ZF) in
  exists s',
    interpretNextLine s = Done s'
    /\ registers s' = registers s /\ eflags s' = eflags s
    /\ bytes s' = bytes s
    /\ currentLine s' = (if taken then ln else currentLine s + 1)%nat
    /\ currentMemoryAddress s'
       = (if taken then z else currentMemoryAddress s + byteSize stmt).
Proof.
  intros Hnot Hnth Hline Hm Haddr Hln taken.
  rewrite (step_jump s stmt m a Hnot Hnth Hline Hm z ln Haddr Hln).
  assert (Ht : jumpTaken m (eflags s) = taken).
  { unfold jumpTaken, taken. cbn [jumpKeywords In] in Hm.
    destruct Hm as [<- | [<- | [<- | [<- | []]]]]; cbn [String.eqb Ascii.eqb Bool.eqb];
      cbn [andb orb]; destruct (flagSet (eflags s) FLAGS.SF);
      destruct (flagSet (eflags s) FLAGS.ZF); reflexivity. }
  rewrite Ht. eexists. split; [reflexivity |].
  destruct taken; repeat split.
Qed.

Lemma jump_semantics_witness :
  exists s',
    interpretNextLine (tourState 8) = Done s'
    /\ currentLine s' = 9%nat /\ currentMemoryAddress s' = 32.
Proof.
  destruct (jump_semantics (tourState 8) (mkStatment "JZ 8" 4) "JZ" "8" 8 2)
    as (s' & H1 & _ & _ & _ & H2 & H3).
  - vm_compute. reflexivity.
  - vm_compute. reflexivity.
  - exact (BranchPlain "JZ" "8" eq_refl).
  - right. right. right. left. reflexivity.
  - vm_compute. reflexivity.
  - vm_compute. reflexivity.
  - exists s'. split; [exact H1 | split; [exact H2 | exact H3]].
Defined.

Lemma find_undefined (s : Interpreter) (name : string) :
  isLabelDefined s name = false ->
  find (fun l => String.eqb (label l) name) (labels s) = None.
Proof.
  unfold isLabelDefined. induction (labels s) as [| h t IH];
    cbn [existsb find]; [reflexivity |].
  destruct (String.eqb (label h) name); cbn [orb]; [discriminate | exact IH].
Qed.

(** X19. The target of a jump is validated whether or not the jump is
    taken.  A target that is neither digits, nor [0(digits)], nor the name
    of a label throws the undefined-label runtime error; a target address
    at which no statement with a non-zero footprint starts throws the
    invalid-jump-target runtime error.  Both name the current line, and
    both leave the state untouched, the execution counter apart. *)
Theorem jump_target_errors
  (s : Interpreter) (stmt : Statment) (m a : string) :
  isAtEnd s = false ->
  nth_error (statements s) (currentLine s) = Some stmt ->
  branchLine m (splitStatment (removeComments (sval stmt))) a ->
  In m jumpKeywords ->
  (JsString.allDigits a = false -> indirectOperand a = None ->
   isLabelDefined s a = false ->
   interpretNextLine s
   = Thrown (RuntimeError (UndefinedLabel (currentLine s + 1) a)) (counted s))
  /\ (forall z, getMemoryAddr s a = Ok (Some z) ->
                nonNegativeFootprints (statements s) ->
                (forall i, ~ isTarget (statements s) z i) ->
                interpretNextLine s
                = Thrown (RuntimeError (InvalidJumpTarget (currentLine s + 1) z))
                         (counted s)).
Proof.
  intros Hnot Hnth Hline Hm. split.
  - intros Hd Hi Hu.
    apply (step_jump_undefined s stmt m a Hnot Hnth Hline Hm).
    unfold getMemoryAddr. rewrite Hd, andb_false_r, Hi.
    rewrite (find_undefined s a Hu). reflexivity.
  - intros z Haddr Hnn Hno.
    apply (step_jump_invalid s stmt m a Hnot Hnth Hline Hm (Some z) _ Haddr).
    unfold getStatmentLine.
    destruct (getStatmentLineFrom (statements s) 0 0 z) as [i |] eqn:E;
      [| reflexivity].
    exfalso. apply (Hno i). apply (walk_spec _ Hnn) in E.
    destruct E as (k & st & Hk & Hst & Hsum & Hnz). cbn in Hk. subst k.
    exists st. unfold addressOf. repeat split; try assumption; try lia.
Qed.

Lemma jump_target_errors_witness :
  interpretNextLine (tourState 9)
  = Thrown (RuntimeError (UndefinedLabel 10 "NOWHERE")) (counted (tourState 9)).
Proof.
  refine (proj1 (jump_target_errors (tourState 9) (mkStatment "J NOWHERE" 4)
                   "J" "NOWHERE" _ _ _ _) _ _ _).
  - vm_compute. reflexivity.
  - vm_compute. reflexivity.
  - exact (BranchPlain "J" "NOWHERE" eq_refl).
  - left. reflexivity.
  - reflexivity.
  - reflexivity.
  - vm_compute. reflexivity.
Defined.

(** ** Lines that are not instructions *)

Lemma removeComments_blank (v : string) :
  JsString.trim v = "" \/ (exists r, JsString.trim v = String "#" r) ->
  splitStatment (removeComments v) = [].
Proof.
  unfold removeComments. intros [H | (r & H)]; rewrite H; reflexivity.
Qed.

Lemma jump_is_not_rr_nor_rm (instruction : string) :
  startsWithJ instruction = true ->
  isInstructionRR instruction = false /\ isInstructionRM instruction = false.
Proof.
  intros H. split.
  - destruct (isInstructionRR instruction) eqn:R; [| reflexivity].
    destruct (rr_is_not_rm_nor_jump _ R) as [_ C]. congruence.
  - destruct (isInstructionRM instruction) eqn:R; [| reflexivity].
    destruct (rm_is_not_rr_nor_jump _ R) as [_ C]. congruence.
Qed.

Lemma arityIsNot_length (tokens : list string) (idx n : nat) :
  List.length tokens <> (idx + n)%nat ->
  arityIsNot tokens idx (Z.of_nat n) = true.
Proof.
  intros H. unfold arityIsNot. apply negb_true_iff, Z.eqb_neq. lia.
Qed.

Lemma sval_setByteSize (stmts : list Statment) (i : nat) (v : Z) :
  map sval (setByteSize stmts i v) = map sval stmts.
Proof.
  unfold setByteSize. destruct (nth_error stmts i) as [st |] eqn:E;
    [| reflexivity].
  revert i E. induction stmts as [| h t IH]; intros [| i] E; cbn in *;
    try discriminate.
  - inversion E. reflexivity.
  - rewrite (IH i E). reflexivity.
Qed.

Lemma recognizedBelow_step d s r :
  recognizedBelow s -> preprocessLine d s = Done r -> recognizedBelow (snd r).
Proof.
  intros HI H.
  destruct (preprocessLine_inv _ _ _ H) as (stmt & Hnth & Hcases).
  cbv zeta in Hcases.
  assert (Hcur : nth_error (map sval (statements s)) (currentLine s)
                 = Some (sval stmt)).
  { rewrite nth_error_map, Hnth. reflexivity. }
  destruct Hcases as [[Ht Hr] | (Hne & s1 & s2 & operand & H1 & Hkw & _ & _ & H2 & Hr)].
  - subst r. cbn [snd]. unfold recognizedBelow.
    cbn [withCurrentLine statements currentLine]. intros j v Hj Hv.
    destruct (Nat.eq_dec j (currentLine s)) as [-> | Hd].
    + rewrite Hcur in Hv. inversion Hv. subst v.
      unfold recognized. rewrite Ht. reflexivity.
    + apply (HI j v); [lia | exact Hv].
  - rewrite Hr. unfold recognizedBelow.
    cbn [withCurrentLine withStatements statements currentLine].
    destruct (layout_appends _ _ _ _ H2) as ((F1 & _ & _ & _ & F5 & _) & _).
    assert (Hs1 : statements s1 = statements s /\ currentLine s1 = currentLine s).
    { destruct (addLabel_spec _ _ _ H1) as [-> | (_ & _ & ->)]; split; reflexivity. }
    destruct Hs1 as [G1 G2].
    rewrite sval_setByteSize, F1, F5, G1, G2.
    intros j v Hj Hv.
    destruct (Nat.eq_dec j (currentLine s)) as [-> | Hd].
    + rewrite Hcur in Hv. inversion Hv. subst v.
      unfold recognized, mnemonicOf. rewrite Hkw. apply orb_true_r.
    + apply (HI j v); [lia | exact Hv].
Qed.

Lemma preprocess_recognized (code : string) (s : Interpreter) :
  preprocess (newInterpreter code) = Done s ->
  Forall (fun st => recognized (sval st) = true) (statements s).
Proof.
  unfold preprocess. intros H.
  destruct (preprocessLoop _ true (newInterpreter code)) as [s1 | |] eqn:E;
    try discriminate.
  cbn [andThen] in H. inversion H. subst s. clear H.
  cbn [withCurrentMemoryAddress withCurrentLine statements].
  pose proof (preprocessLoop_complete _ _ _ _ (Nat.le_refl _) E) as Hend.
  assert (H0 : recognizedBelow (newInterpreter code)).
  { intros j v Hj. cbn in Hj. lia. }
  destruct (preprocessLoop_invariant (fun _ s => recognizedBelow s)
              (fun d s r HI _ Hr => recognizedBelow_step d s r HI Hr)
              _ _ _ _ H0 E) as (_ & HI).
  unfold isAtEnd in Hend. apply Nat.leb_le in Hend.
  apply Forall_forall. intros st Hin.
  apply In_nth_error in Hin. destruct Hin as (j & Hj).
  apply (HI j (sval st)).
  - assert (j < List.length (statements s1))%nat
      by (apply nth_error_Some; rewrite Hj; discriminate).
    lia.
  - rewrite nth_error_map, Hj. reflexivity.
Qed.

(** X20. A line of a known mnemonic with the wrong number of tokens.  A
    register-register or register-memory line whose tokens after the
    mnemonic are not exactly three throws the first runtime error below,
    a jump line whose tokens after the mnemonic are not exactly one throws
    the second; a line whose mnemonic position holds no keyword throws the
    unrecognized-instruction runtime error.  Each names the current line
    and leaves the state untouched, the execution counter apart. *)
Theorem malformed_line_errors (s : Interpreter) (stmt : Statment) :
  isAtEnd s = false ->
  nth_error (statements s) (currentLine s) = Some stmt ->
  let tokens := splitStatment (removeComments (sval stmt)) in
  let m := mnemonicOf tokens in
  tokens <> [] ->
  (isInstructionRR m || isInstructionRM m = true ->
   List.length tokens <> (operandIndex tokens + 3)%nat ->
   interpretNextLine s
   = Thrown (RuntimeError (TooManyArguments (currentLine s + 1) m)) (counted s))
  /\ (includes keywords m = true -> startsWithJ m = true ->
      List.length tokens <> (operandIndex tokens + 1)%nat ->
      interpretNextLine s
      = Thrown (RuntimeError (OneArgument (currentLine s + 1) m)) (counted s))
  /\ (includes keywords m = false ->
      interpretNextLine s
      = Thrown (RuntimeError (UnrecognizedInstructionRun (currentLine s + 1) m))
               (counted s)).
Proof.
  intros Hnot Hnth tokens m Hne.
  assert (Hlen : Nat.eqb (List.length tokens) 0 = false).
  { apply Nat.eqb_neq. destruct tokens; [congruence | discriminate]. }
  assert (Hidx : ((if startsWithLabel tokens then 1 else 0) + 1)%nat
                 = operandIndex tokens).
  { unfold operandIndex. destruct (startsWithLabel tokens); reflexivity. }
  assert (Hunf : interpretNextLine s
                 = if includes keywords m then
                     s1 <== stepRR (counted s) tokens m (operandIndex tokens) ;;
                     s2 <== stepRM s1 tokens m (operandIndex tokens) ;;
                     j <== stepJ s2 tokens m (operandIndex tokens) ;;
                     if fst j then Done (snd j) else fallThrough (snd j)
                   else Thrown (RuntimeError
                                  (UnrecognizedInstructionRun (currentLine s + 1) m))
                               (counted s)).
  { unfold interpretNextLine. fold (counted s).
    change (isAtEnd (counted s)) with (isAtEnd s). rewrite Hnot.
    change (statements (counted s)) with (statements s).
    change (currentLine (counted s)) with (currentLine s).
    rewrite Hnth. fold tokens. rewrite Hlen. fold (mnemonicOf tokens). fold m.
    rewrite Hidx. reflexivity. }
  repeat split.
  - intros Hk Har. rewrite Hunf.
    apply arityIsNot_length in Har. change (Z.of_nat 3) with 3 in Har.
    destruct (isInstructionRR m) eqn:Rr.
    + rewrite (rr_keyword m Rr). unfold stepRR. rewrite Rr, Har. reflexivity.
    + cbn [orb] in Hk. rewrite (rm_keyword m Hk).
      rewrite (stepRR_skip _ _ _ _ Rr). cbn [andThen].
      unfold stepRM. rewrite Hk, Har. reflexivity.
  - intros Hk Hj Har. rewrite Hunf, Hk.
    apply arityIsNot_length in Har. change (Z.of_nat 1) with 1 in Har.
    destruct (jump_is_not_rr_nor_rm m Hj) as [Rr Rm].
    rewrite (stepRR_skip _ _ _ _ Rr). cbn [andThen].
    rewrite (stepRM_skip _ _ _ _ Rm). cbn [andThen].
    unfold stepJ. rewrite Hj, Har. reflexivity.
  - intros Hk. rewrite Hunf, Hk. reflexivity.
Qed.

Lemma malformed_line_errors_witness :
  interpretNextLine (withCurrentLine malformedState 0)
  = Thrown (RuntimeError (TooManyArguments 1 "AR"))
           (counted (withCurrentLine malformedState 0)).
Proof.
  refine (proj1 (malformed_line_errors (withCurrentLine malformedState 0)
                   (mkStatment "AR 0" 2) _ _ _) _ _).
  - reflexivity.
  - reflexivity.
  - discriminate.
  - reflexivity.
  - vm_compute. discriminate.
Defined.

(** X21. A line that is blank or whose first non-blank character is [#]
    has no tokens.  The layout pass gives it no label, no byte and no
    footprint and keeps the data-section state; a step on it increments
    the execution counter and the line and nothing else, the current
    address included. *)
Theorem blank_and_comment_lines (d : bool) (s : Interpreter) (stmt : Statment) :
  nth_error (statements s) (currentLine s) = Some stmt ->
  JsString.trim (sval stmt) = ""
  \/ (exists r, JsString.trim (sval stmt) = String "#" r) ->
  preprocessLine d s = Done (d, withCurrentLine s (currentLine s + 1)%nat)
  /\ (isAtEnd s = false ->
      interpretNextLine s
      = Done (withCurrentLine (counted s) (currentLine s + 1)%nat)).
Proof.
  intros Hnth Hblank. apply removeComments_blank in Hblank. split.
  - unfold preprocessLine. rewrite Hnth, Hblank. reflexivity.
  - intros Hnot. unfold interpretNextLine. fold (counted s).
    change (isAtEnd (counted s)) with (isAtEnd s). rewrite Hnot.
    change (statements (counted s)) with (statements s).
    change (currentLine (counted s)) with (currentLine s).
    rewrite Hnth, Hblank. reflexivity.
Qed.

Lemma blank_and_comment_lines_witness :
  interpretNextLine (withCurrentLine (tourState 0) 10)
  = Done (withCurrentLine (counted (withCurrentLine (tourState 0) 10)) (10 + 1)%nat).
Proof.
  refine (proj2 (blank_and_comment_lines true (withCurrentLine (tourState 0) 10)
                   (mkStatment "# done" 0) _ _) _).
  - vm_compute. reflexivity.
  - right. eexists. vm_compute. reflexivity.
  - vm_compute. reflexivity.
Defined.

(** X22. Once the layout pass has accepted a program, every line of it is
    blank or carries a keyword, and this stays so while it runs: no step
    throws the unrecognized-instruction runtime error; a step can only
    throw the errors of the instruction blocks (wrong number of tokens,
    missing comma, undefined label, invalid jump target) or a
    [TypeError]. *)
Theorem layout_rules_out_unrecognized
  (code : string) (n : nat) (s0 s s' : Interpreter) (e : error) :
  preprocess (newInterpreter code) = Done s0 ->
  steps n s0 = Done s ->
  interpretNextLine s = Thrown e s' ->
  isBlockError e.
Proof.
  intros Hpre Hsteps Hthrow.
  pose proof (preprocess_recognized code s0 Hpre) as Hrec.
  destruct (steps_frame n s0 s Hsteps) as (Hst & _).
  rewrite <- Hst in Hrec.
  destruct (interpretNextLine_thrown_kind s e s' Hthrow) as (_ & [Hb | Hu]);
    [exact Hb |].
  exfalso. destruct Hu as (i & Hcur & Hkw & _).
  unfold currentInstruction in Hcur.
  destruct (nth_error (statements s) (currentLine s)) as [stmt |] eqn:Hnth;
    [| discriminate].
  apply nth_error_In in Hnth.
  pose proof (proj1 (Forall_forall _ _) Hrec stmt Hnth) as Hr. cbv beta in Hr.
  unfold recognized, mnemonicOf in Hr.
  destruct (Nat.eqb _ 0); [discriminate |].
  cbn [orb] in Hr. inversion Hcur. subst i. congruence.
Qed.

Lemma layout_rules_out_unrecognized_witness :
  isBlockError (RuntimeError (UndefinedLabel 10 "NOWHERE")).
Proof.
  apply (layout_rules_out_unrecognized tourProgram 9 (tourState 0) (tourState 9)
           (counted (tourState 9))).
  - vm_compute. reflexivity.
  - vm_compute. reflexivity.
  - vm_compute. reflexivity.
Defined.

(** ** The tokenizer *)

Lemma chars_app (a b : string) : chars (a ++ b) = (chars a ++ chars b)%list.
Proof.
  induction a as [| c a IH]; cbn; [reflexivity |].
  unfold chars in IH. rewrite IH. reflexivity.
Qed.

Lemma split_nonempty (sep : ascii) (s : string) : JsString.split sep s <> [].
Proof.
  destruct s as [| c r]; cbn; [discriminate |].
  destruct (Ascii.eqb c sep); [discriminate |].
  destruct (JsString.split sep r); discriminate.
Qed.

Lemma split_In_chars (sep : ascii) (s : string) : forall t c,
  In t (JsString.split sep s) -> In c (chars t) -> In c (chars s) /\ c <> sep.
Proof.
  induction s as [| a r IH]; intros t c Ht Hc; cbn [JsString.split] in Ht.
  - destruct Ht as [<- | []]. destruct Hc.
  - destruct (Ascii.eqb a sep) eqn:E.
    + destruct Ht as [<- | Ht]; [destruct Hc |].
      destruct (IH t c Ht Hc) as [H1 H2]. split; [right; exact H1 | exact H2].
    + apply Ascii.eqb_neq in E.
      destruct (JsString.split sep r) as [| h tl] eqn:Es.
      * destruct Ht as [<- | []]. destruct Hc as [<- | []].
        split; [left; reflexivity | exact E].
      * destruct Ht as [<- | Ht].
        -- destruct Hc as [<- | Hc]; [split; [left; reflexivity | exact E] |].
           destruct (IH h c (or_introl eq_refl) Hc) as [H1 H2].
           split; [right; exact H1 | exact H2].
        -- destruct (IH t c (or_intror Ht) Hc) as [H1 H2].
           split; [right; exact H1 | exact H2].
Qed.

Lemma split_app (sep : ascii) (a b : string) :
  JsString.split sep (a ++ String sep b)
  = (JsString.split sep a ++ JsString.split sep b)%list.
Proof.
  induction a as [| c r IH]; cbn [append JsString.split].
  - rewrite Ascii.eqb_refl. reflexivity.
  - destruct (Ascii.eqb c sep); [rewrite IH; reflexivity |].
    rewrite IH. pose proof (split_nonempty sep r) as Hne.
    destruct (JsString.split sep r) as [| h t]; [congruence | reflexivity].
Qed.

Lemma trimStart_chars (s : string) (c : ascii) :
  In c (chars (JsString.trimStart s)) -> In c (chars s).
Proof.
  induction s as [| a r IH]; cbn [JsString.trimStart]; [trivial |].
  destruct (JsString.isWhiteSpace a); [| trivial].
  intros H. right. exact (IH H).
Qed.

Lemma trimEnd_chars (s : string) (c : ascii) :
  In c (chars (JsString.trimEnd s)) -> In c (chars s).
Proof.
  induction s as [| a r IH]; cbn [JsString.trimEnd]; [trivial |].
  destruct (JsString.trimEnd r) as [| b r'].
  - destruct (JsString.isWhiteSpace a); [intros [] |].
    intros [<- | []]. left. reflexivity.
  - intros [<- | H]; [left; reflexivity | right; exact (IH H)].
Qed.

Lemma trim_chars (s : string) (c : ascii) :
  In c (chars (JsString.trim s)) -> In c (chars s).
Proof. intros H. apply trimStart_chars, trimEnd_chars, H. Qed.

(** The pieces of the joined string, cut at spaces: the pieces of the
    parts, with a comma between two parts. *)
Lemma split_join_comma (l : list string) :
  forall t, In t (JsString.split " "%char (JsString.join " , " l)) ->
            (t = "," /\ (2 <= List.length l)%nat) \/ t = ""
            \/ exists p, In p l /\ In t (JsString.split " "%char p).
Proof.
  unfold JsString.join.
  induction l as [| p l IH]; intros t Ht.
  - cbn in Ht. destruct Ht as [<- | []]. right. left. reflexivity.
  - destruct l as [| q l].
    + cbn [String.concat] in Ht. right. right. exists p.
      split; [left; reflexivity | exact Ht].
    + change (String.concat " , " (p :: q :: l))
        with (p ++ String " " ("," ++ String " " (String.concat " , " (q :: l))))
        in Ht.
      rewrite split_app, split_app in Ht.
      apply in_app_or in Ht. destruct Ht as [Ht | Ht].
      * right. right. exists p. split; [left; reflexivity | exact Ht].
      * apply in_app_or in Ht. destruct Ht as [Ht | Ht].
        -- cbn in Ht. destruct Ht as [<- | []]. left.
           split; [reflexivity | cbn [List.length]; lia].
        -- destruct (IH t Ht) as [[H H2] | [H | (p' & Hp & H)]].
           ++ left. split; [exact H | cbn [List.length]; lia].
           ++ right. left. exact H.
           ++ right. right. exists p'. split; [right; exact Hp | exact H].
Qed.

Lemma split_two (sep : ascii) (s : string) :
  (2 <= List.length (JsString.split sep s))%nat -> In sep (chars s).
Proof.
  induction s as [| a r IH]; cbn [JsString.split].
  - cbn. lia.
  - destruct (Ascii.eqb a sep) eqn:E.
    + apply Ascii.eqb_eq in E. subst a. intros _. left. reflexivity.
    + pose proof (split_nonempty sep r) as Hne.
      destruct (JsString.split sep r) as [| h t]; [congruence |].
      intros H. right. apply IH. exact H.
Qed.

Lemma removeComments_cases (v : string) :
  removeComments v = ""
  \/ removeComments v = hd "" (JsString.split "#"%char (JsString.trim v)).
Proof.
  unfold removeComments. destruct (JsString.trim v) as [| a r];
    [right; reflexivity |].
  destruct a as [[] [] [] [] [] [] [] []];
    first [left; reflexivity | right; reflexivity].
Qed.

Lemma removeComments_chars (v : string) (c : ascii) :
  In c (chars (removeComments v)) -> In c (chars v) /\ c <> "#"%char.
Proof.
  destruct (removeComments_cases v) as [-> | ->]; [intros [] |].
  intros H.
  assert (Hin : In (hd "" (JsString.split "#"%char (JsString.trim v)))
                   (JsString.split "#"%char (JsString.trim v))).
  { pose proof (split_nonempty "#" (JsString.trim v)) as Hne.
    destruct (JsString.split "#"%char (JsString.trim v)); [congruence |].
    left. reflexivity. }
  destruct (split_In_chars _ _ _ _ Hin H) as [H1 H2].
  split; [apply trim_chars, H1 | exact H2].
Qed.

Lemma splitStatment_tokens (x t : string) :
  In t (splitStatment x) ->
  t <> ""
  /\ ((t = "," /\ In ","%char (chars x))
      \/ forall c, In c (chars t) ->
                   In c (chars x) /\ c <> " "%char /\ c <> ","%char).
Proof.
  unfold splitStatment. intros H. apply filter_In in H. destruct H as [H Hlen].
  split.
  { intros ->. discriminate Hlen. }
  apply in_map_iff in H. destruct H as (raw & <- & Hraw).
  destruct (split_join_comma _ _ Hraw) as [[-> H2] | [-> | (p & Hp & Hin)]].
  - left. split; [reflexivity | apply split_two, H2].
  - discriminate Hlen.
  - right. intros c Hc. apply trim_chars in Hc.
    destruct (split_In_chars _ _ _ _ Hin Hc) as [H1 H2].
    destruct (split_In_chars _ _ _ _ Hp H1) as [H3 H4].
    repeat split; assumption.
Qed.

(** X23. The tokens of a line.  No token is empty; no token contains a
    space or a [#]; a comma is always a token of its own; and every
    character of a token occurs in the line. *)
Theorem tokens_are_clean (v : string) :
  Forall (fun t => cleanToken t
                   /\ forall c, In c (chars t) -> In c (chars v))
         (splitStatment (removeComments v)).
Proof.
  apply Forall_forall. intros t Ht.
  destruct (splitStatment_tokens _ _ Ht) as [Hne [[-> Hcomma] | Hc]].
  - unfold cleanToken. repeat split.
    + discriminate.
    + intros [H | []]. discriminate H.
    + intros [H | []]. discriminate H.
    + intros c [<- | []]. apply (removeComments_chars _ _ Hcomma).
  - unfold cleanToken. repeat split.
    + exact Hne.
    + intros H. destruct (Hc _ H) as (_ & H1 & _). congruence.
    + intros H. destruct (Hc _ H) as (H0 & _).
      destruct (removeComments_chars _ _ H0) as [_ H1]. congruence.
    + intros H. destruct (Hc _ H) as (_ & _ & H1). congruence.
    + intros c H. destruct (Hc _ H) as (H0 & _).
      apply (removeComments_chars _ _ H0).
Qed.

(** ** The layout of one line *)

Lemma tokens_length (tokens : list string) :
  tokens <> [] -> Nat.eqb (List.length tokens) 0 = false.
Proof. destruct tokens; [congruence | reflexivity]. Qed.

Lemma addLabel_frame s tokens s1 :
  addLabel s tokens = Done s1 ->
  statements s1 = statements s /\ bytes s1 = bytes s
  /\ currentLine s1 = currentLine s
  /\ currentMemoryAddress s1 = currentMemoryAddress s.
Proof.
  intros H. destruct (addLabel_spec _ _ _ H) as [-> | (_ & _ & ->)];
    repeat split; reflexivity.
Qed.

Section LayoutLine.

Variables (d : bool) (s s1 : Interpreter) (stmt : Statment).
Hypothesis Hnth : nth_error (statements s) (currentLine s) = Some stmt.

Let tokens := splitStatment (removeComments (sval stmt)).

Hypothesis Hne : tokens <> [].
Hypothesis Hlabel : addLabel s tokens = Done s1.
Hypothesis Hkw : includes keywords (mnemonicOf tokens) = true.

Lemma preprocessLine_keyword :
  preprocessLine d s
  = match tokenAt tokens (operandIndex tokens) with
    | None => Thrown TypeError s1
    | Some operand =>
        d' <== checkDataSection s1 d (mnemonicOf tokens) (hd "" tokens) ;;
        s2 <== layout s1 (mnemonicOf tokens) (JsString.split "*"%char operand) ;;
        Done (d',
              withCurrentLine
                (withStatements s2
                   (setByteSize (statements s2) (currentLine s2)
                      (currentMemoryAddress s2 - currentMemoryAddress s)))
                (currentLine s2 + 1)%nat)
    end.
Proof.
  unfold preprocessLine. rewrite Hnth. fold tokens.
  rewrite (tokens_length tokens Hne), Hlabel. cbn [andThen].
  fold (mnemonicOf tokens). fold (operandIndex tokens).
  rewrite Hkw. reflexivity.
Qed.


End LayoutLine.





(** X25. What the layout pass refuses on a line whose mnemonic is a
    keyword.  With no token after the mnemonic it throws a [TypeError],
    not a preprocessing error; a [DC] or [DS] line met after an
    instruction line throws the data-after-code preprocessing error,
    which names the current line and the first token of the line.  In
    both cases the label of the line, if any, has already been added. *)
Theorem keyword_line_refused
  (d : bool) (s s1 : Interpreter) (stmt : Statment) :
  nth_error (statements s) (currentLine s) = Some stmt ->
  let tokens := splitStatment (removeComments (sval stmt)) in
  let m := mnemonicOf tokens in
  tokens <> [] ->
  addLabel s tokens = Done s1 ->
  includes keywords m = true ->
  (tokenAt tokens (operandIndex tokens) = None ->
   preprocessLine d s = Thrown TypeError s1)
  /\ (tokenAt tokens (operandIndex tokens) <> None ->
      m = "DC" \/ m = "DS" -> d = false ->
      preprocessLine d s
      = Thrown (PreprocessingError
                  (DataAfterCode (currentLine s + 1) (hd "" tokens))) s1).
Proof.
  intros Hnth tokens m Hne Hlabel Hkw.
  pose proof (preprocessLine_keyword d s s1 stmt Hnth Hne Hlabel Hkw) as Hline.
  fold tokens in Hline. fold m in Hline.
  destruct (addLabel_frame _ _ _ Hlabel) as (_ & _ & G3 & _).
  split.
  - intros Hop. rewrite Hline, Hop. reflexivity.
  - intros Hop Hm ->. rewrite Hline.
    destruct (tokenAt tokens (operandIndex tokens)); [| congruence].
    unfold checkDataSection. rewrite G3.
    destruct Hm as [-> | ->]; reflexivity.
Qed.

Lemma keyword_line_refused_witness :
  preprocessLine true (newInterpreter "AR") 
  = Thrown TypeError (newInterpreter "AR").
Proof.
  refine (proj1 (keyword_line_refused true (newInterpreter "AR")
                   (newInterpreter "AR") (mkStatment "AR" 0) _ _ _ _) _).
  - reflexivity.
  - discriminate.
  - reflexivity.
  - reflexivity.
  - reflexivity.
Defined.



(** ** Memory words, labels and operands *)

(** X27. A word stored by [setNumberInMemory] on four existing bytes is
    read back by [getNumberFromMemory] at the same address as the 32-bit
    value of the number stored ([ToInt32]; 0 for an undefined number); the
    store keeps the length of the image, tags the four bytes [DATA], and
    leaves every byte outside them as it was. *)
Theorem store_then_load (s : Interpreter) (a : Z) (num : number) :
  0 <= a -> a + 3 < Z.of_nat (List.length (bytes s)) ->
  exists bs,
    setNumberInMemory s (Some a) num = Ok bs
    /\ getNumberFromMemory (withBytes s bs) (Some a) = Ok (numToInt32 num)
    /\ List.length bs = List.length (bytes s)
    /\ (forall k b, 0 <= k < 4 -> byteAt bs (Some (a + k)) = Some b ->
                    type b = DATA)
    /\ (forall j, j < a \/ a + 3 < j ->
                  byteAt bs (Some j) = byteAt (bytes s) (Some j)).
Proof.
  intros H0 H3.
  destruct (setNumberInMemory_in_range s a num H0 H3) as (bs & Hbs).
  destruct (store_load_core s a num bs Hbs) as (H1 & _ & H4 & H5 & H6).
  exists bs. repeat split; assumption.
Qed.

Lemma store_then_load_witness :
  exists bs,
    setNumberInMemory (tourState 0) (Some 4) (Some (-1)) = Ok bs
    /\ getNumberFromMemory (withBytes (tourState 0) bs) (Some 4) = Ok (-1).
Proof.
  destruct (store_then_load (tourState 0) 4 (Some (-1)))
    as (bs & H1 & H2 & _).
  - lia.
  - vm_compute. reflexivity.
  - exists bs. split; [exact H1 | exact H2].
Defined.


(** X29. The label of a labelled line.  A name already recorded throws
    the defined-twice preprocessing error; otherwise a name of more than
    90 characters throws the not-alphanumeric preprocessing error; every
    other name, whatever its characters, is recorded with the current line
    and the address at which the line starts.  Both errors leave the state
    untouched. *)
Theorem label_rules (d : bool) (s : Interpreter) (stmt : Statment) :
  nth_error (statements s) (currentLine s) = Some stmt ->
  let tokens := splitStatment (removeComments (sval stmt)) in
  let lbl := hd "" tokens in
  startsWithLabel tokens = true ->
  (isLabelDefined s lbl = true ->
   preprocessLine d s
   = Thrown (PreprocessingError (LabelDefinedTwice (currentLine s + 1) lbl)) s)
  /\ (isLabelDefined s lbl = false -> (90 < String.length lbl)%nat ->
      preprocessLine d s
      = Thrown (PreprocessingError (LabelNotAlphaNumeric (currentLine s + 1) lbl)) s)
  /\ (isLabelDefined s lbl = false -> (String.length lbl <= 90)%nat ->
      addLabel s tokens
      = Done (withLabels s
                (labels s ++ [mkLabel lbl (currentLine s)
                                (currentMemoryAddress s)])%list)).
Proof.
  intros Hnth tokens lbl Hl.
  assert (Hne : Nat.eqb (List.length tokens) 0 = false).
  { unfold startsWithLabel in Hl. destruct tokens; [discriminate | reflexivity]. }
  assert (Hunf : preprocessLine d s
                 = (s1 <== addLabel s tokens ;;
                    if negb (includes keywords (mnemonicOf tokens))
                    then Thrown (PreprocessingError
                                   (UnrecognizedInstruction (currentLine s1 + 1)
                                      (mnemonicOf tokens))) s1
                    else
                      match tokenAt tokens (operandIndex tokens) with
                      | None => Thrown TypeError s1
                      | Some operand =>
                          d' <== checkDataSection s1 d (mnemonicOf tokens)
                                   (hd "" tokens) ;;
                          s2 <== layout s1 (mnemonicOf tokens)
                                   (JsString.split "*"%char operand) ;;
                          Done (d',
                                withCurrentLine
                                  (withStatements s2
                                     (setByteSize (statements s2) (currentLine s2)
                                        (currentMemoryAddress s2
                                         - currentMemoryAddress s)))
                                  (currentLine s2 + 1)%nat)
                      end)).
  { unfold preprocessLine. rewrite Hnth. fold tokens. rewrite Hne. reflexivity. }
  repeat split.
  - intros Hdef. rewrite Hunf. unfold addLabel. fold lbl. rewrite Hl, Hdef.
    reflexivity.
  - intros Hdef Hlen. rewrite Hunf. unfold addLabel. fold lbl.
    rewrite Hl, Hdef, isAlphaNumeric_length.
    rewrite (proj2 (Nat.leb_gt _ _) Hlen). reflexivity.
  - intros Hdef Hlen. unfold addLabel. fold lbl.
    rewrite Hl, Hdef, isAlphaNumeric_length.
    rewrite (proj2 (Nat.leb_le _ _) Hlen). reflexivity.
Qed.

Lemma label_rules_witness :
  preprocessLine true (withCurrentLine (tourState 0) 0)
  = Thrown (PreprocessingError (LabelDefinedTwice 1 "A"))
           (withCurrentLine (tourState 0) 0).
Proof.
  refine (proj1 (label_rules true (withCurrentLine (tourState 0) 0)
                   (mkStatment "A DC INTEGER(-7)" 4) _ _) _).
  - vm_compute. reflexivity.
  - reflexivity.
  - vm_compute. reflexivity.
Defined.

Lemma digit_not_whiteSpace (c : ascii) :
  JsString.isDigit c = true -> JsString.isWhiteSpace c = false.
Proof.
  unfold JsString.isDigit, JsString.isWhiteSpace.
  generalize (nat_of_ascii c). intros n H.
  apply andb_true_iff in H. destruct H as [H1 H2].
  apply Nat.leb_le in H1. apply Nat.leb_le in H2.
  rewrite (proj2 (Nat.leb_gt n 13)) by lia.
  rewrite (proj2 (Nat.eqb_neq n 32)) by lia.
  rewrite (proj2 (Nat.eqb_neq n 160)) by lia.
  rewrite andb_false_r. reflexivity.
Qed.

Lemma trim_digits (ds : string) :
  JsString.allDigits ds = true -> JsString.trim ds = ds.
Proof.
  unfold JsString.allDigits, JsString.trim. intros H.
  assert (Hs : JsString.trimStart ds = ds).
  { destruct ds as [| c r]; [reflexivity |].
    cbn in H. apply andb_true_iff in H. destruct H as [Hc _].
    cbn [JsString.trimStart]. rewrite (digit_not_whiteSpace c Hc). reflexivity. }
  rewrite Hs. clear Hs.
  induction ds as [| c r IH]; [reflexivity |].
  cbn in H. apply andb_true_iff in H. destruct H as [Hc Hr].
  cbn [JsString.trimEnd]. rewrite (IH Hr).
  destruct r; [| reflexivity].
  rewrite (digit_not_whiteSpace c Hc). reflexivity.
Qed.

Lemma digit_not_sign (c : ascii) :
  JsString.isDigit c = true ->
  Ascii.eqb c "-" = false /\ Ascii.eqb c "+" = false.
Proof.
  intros H. split.
  - destruct (Ascii.eqb c "-") eqn:E; [| reflexivity].
    apply Ascii.eqb_eq in E. subst c. discriminate H.
  - destruct (Ascii.eqb c "+") eqn:E; [| reflexivity].
    apply Ascii.eqb_eq in E. subst c. discriminate H.
Qed.

Lemma toNumber_digits (ds : string) :
  ds <> "" -> JsString.allDigits ds = true -> JsString.digitsValue ds < maxSafe ->
  toNumber ds = Ok (JsString.digitsValue ds).
Proof.
  intros Hne Hd Hv. unfold toNumber. rewrite (trim_digits ds Hd).
  destruct ds as [| c r]; [congruence |].
  assert (Hc : JsString.isDigit c = true).
  { unfold JsString.allDigits in Hd. cbn in Hd.
    apply andb_true_iff in Hd. apply Hd. }
  destruct (digit_not_sign c Hc) as [-> ->].
  unfold unsignedValue. rewrite Hd.
  rewrite (proj2 (Z.ltb_lt _ _) Hv). reflexivity.
Qed.

Lemma takeDigits_paren (ds : string) :
  JsString.allDigits ds = true -> JsString.takeDigits (ds ++ ")") = ds.
Proof.
  unfold JsString.allDigits.
  induction ds as [| c r IH]; intros H; [reflexivity |].
  cbn in H. apply andb_true_iff in H. destruct H as [Hc Hr].
  cbn [append JsString.takeDigits]. rewrite Hc, (IH Hr). reflexivity.
Qed.

Lemma allDigits_paren (ds : string) :
  JsString.allDigits ("0(" ++ ds ++ ")") = false.
Proof. reflexivity. Qed.

(** X30. The two numeric forms of an address operand, which are tried
    before any label.  A string of digits is the address it denotes; the
    form [0(digits)] is the content of the register of that number, and
    the undefined value when the number is 16 or more. *)
Theorem address_operand_forms (s : Interpreter) (ds : string) :
  ds <> "" -> JsString.allDigits ds = true ->
  JsString.digitsValue ds < maxSafe ->
  getMemoryAddr s ds = Ok (Some (JsString.digitsValue ds))
  /\ getMemoryAddr s ("0(" ++ ds ++ ")")
     = Ok (regGet (registers s) (JsString.digitsValue ds))
  /\ (16 <= JsString.digitsValue ds ->
      getMemoryAddr s ("0(" ++ ds ++ ")") = Ok None).
Proof.
  intros Hne Hd Hv.
  assert (Hlen : Nat.ltb 0 (String.length ds) = true)
    by (destruct ds; [congruence | reflexivity]).
  assert (Hind : getMemoryAddr s ("0(" ++ ds ++ ")")
                 = Ok (regGet (registers s) (JsString.digitsValue ds))).
  { unfold getMemoryAddr. rewrite allDigits_paren, andb_false_r.
    unfold indirectOperand. cbn [append].
    rewrite (takeDigits_paren ds Hd), Hlen, String.eqb_refl. cbn [andb].
    rewrite (toNumber_digits ds Hne Hd Hv). reflexivity. }
  repeat split.
  - unfold getMemoryAddr. rewrite Hlen, Hd. cbn [andb].
    rewrite (toNumber_digits ds Hne Hd Hv). reflexivity.
  - exact Hind.
  - intros H16. rewrite Hind. unfold regGet.
    rewrite (proj2 (Z.ltb_ge _ _) H16), andb_false_r. reflexivity.
Qed.

Lemma address_operand_forms_witness :
  getMemoryAddr (tourState 5) "0(1)" = Ok (Some 2).
Proof.
  refine (proj1 (proj2 (address_operand_forms (tourState 5) "1" _ _ _))).
  - discriminate.
  - reflexivity.
  - reflexivity.
Defined.
